(** * COSMO apk instrumenter: archive repackaging, manifest patching, pipeline

    A shallow embedding of [src/apk_instrumenter.py] (class [ApkInstrumenter])
    and of the parts of the Python standard library it drives ([zipfile],
    [xml.etree.ElementTree], [shutil.which], [os.listdir]), followed by the
    properties of the repackaging step, the manifest patch and the stage
    sequencing.

    Conventions of the model.
    - A zip container is the ordered list of its entries; the byte-level
      encoding of the container is not modelled.
    - An XML file is the element tree the parser reads, with names still in
      their textual [prefix:local] form and with the [xmlns] declarations each
      element carries.  Attribute values and character data are held as the
      parser delivers them; what writing does to them is modelled (empty
      text is not written, a carriage return in text is written unescaped
      and read as a line end), other character-level syntax is not.
    - The paths the instrumenter uses (working copy, jar, dex directory,
      decoded manifest, scratch copy, output directory, bundled assets) are
      pairwise distinct and each is one field of [World]; an input whose
      name makes two of them coincide ([x.jar], [dex], [jacoco], [apktool])
      is outside the model.
    - External tools are subprocesses: they are arbitrary world transformers
      that may fail, taken as a parameter. *)

From Stdlib Require Import String Ascii List Bool Arith Lia DecimalString.
From Stdlib.Strings Require Import Byte.
From stdpp Require Import base option list strings.

Set Warnings "-register-all".



(** ** Python [str] methods used by the source *)

Module PyStr.

Definition startswith (s pre : string) : bool := String.prefix pre s.

Definition endswith (s suf : string) : bool :=
  Nat.leb (String.length suf) (String.length s)
  && String.eqb
       (String.substring (String.length s - String.length suf) (String.length suf) s)
       suf.

(** [c in s] for a one-character needle. *)
Fixpoint contains (c : ascii) (s : string) : bool :=
  match s with
  | EmptyString => false
  | String a s' => Ascii.eqb a c || contains c s'
  end.

End PyStr.

(** ** Zip containers ([zipfile.ZipFile]) *)

Definition bytes := list Byte.byte.

(** One member of an archive: the [ZipInfo.filename] and the member's
    uncompressed content.  The remaining [ZipInfo] attributes (timestamps,
    compression method, ...) play no role in the properties below. *)
Record ZipEntry := mkEntry { filename : string; data : bytes }.

Module zipfile.

Definition infolist (a : list ZipEntry) : list ZipEntry := a.

(** [ZipFile.getinfo]: the name table is filled in directory order, so for a
    repeated name the last member wins. *)
Fixpoint getinfo (a : list ZipEntry) (name : string) : option ZipEntry :=
  match a with
  | [] => None
  | e :: a' =>
      match getinfo a' name with
      | Some e' => Some e'
      | None => if String.eqb (filename e) name then Some e else None
      end
  end.

(** [ZipFile.read(name)]. *)
Definition read (a : list ZipEntry) (name : string) : option bytes :=
  data <$> getinfo a name.

(** [ZipFile.writestr(name_or_zinfo, data)] on an archive opened for
    writing: the member is appended (a repeated name only warns). *)
Definition writestr (buf : list ZipEntry) (name : string) (d : bytes) : list ZipEntry :=
  buf ++ [mkEntry name d].

End zipfile.

(** The three tags of the entry classification, as decided by the
    [if]/[elif]/[else] of the copy loop. *)
Inductive entry_class := SignatureMetadata | PrimaryBytecode | Ordinary.

Definition classify (name : string) : entry_class :=
  if PyStr.startswith name "META-INF/" then SignatureMetadata
  else if PyStr.startswith name "classes" && PyStr.endswith name ".dex" then PrimaryBytecode
  else Ordinary.

(** ** Exceptions, files and the world *)

Inductive tool := Dex2jar | JacocoInstrument | Dx | ApktoolDecode | ApktoolBuild | Zipalign | Apksigner.

Inductive exn :=
  | RuntimeError (executable : string)
  | FileNotFoundError
  | NotADirectoryError
  | IsADirectoryError
  | ValueError
  | KeyError
  | TypeError
  | OSError
  | BadZipFile
  | ParseError
  | CalledProcessError (t : tool).

(** A regular file that is expected to be a zip container. *)
Inductive apk_content :=
  | ZipArchive (entries : list ZipEntry)
  | NotZip (raw : bytes).

(** What [os.listdir] plus [open] see of one directory member. *)
Inductive dirent :=
  | DFile (content : bytes)
  | DSubdir.

(** Raw XML element: tag, [xmlns] declarations (prefix, uri; the empty prefix
    is the default namespace), attributes and children, all names textual.
    Attribute values and character data are held as an XML processor
    delivers them, with character references resolved and line ends
    normalised, not in their escaped spelling. *)
Inductive RawElem :=
  | RawE (rtag : string) (rdecls : list (string * string))
         (rattrs : list (string * string)) (rtext rtail : option string)
         (rchildren : list RawElem).

Inductive xml_content :=
  | XmlDoc (root : RawElem)
  | NotXml (raw : bytes).

(** A file deposited in the output location. *)
Inductive any_file :=
  | AnApk (c : apk_content)
  | AJar (b : bytes).

(** The fixed output location [output_apks]: [shutil.copy2(src, dst)] copies
    into [dst] when it is a directory and onto [dst] otherwise. *)
Inductive out_node :=
  | OutMissing
  | OutDir (files : list (string * any_file))
  | OutFile (f : any_file).

Inductive stage :=
  | SDex2jar | SInstrumentJar | SConvertToDalvik | SRepackage | SApktoolDecode
  | SPatchManifest | SApktoolBuild | SAlign | SSign | SCopyOutputs.

Inductive log_record :=
  | LInfoStart
  | LInfo (s : stage)
  | LError (s : stage) (e : exn)
  | LCritical (e : exn).

(** What the instrumenter only reads: the search path, the bundled assets,
    the input package and whether the disk still accepts data. *)
Record Env := mkEnv {
  which : string -> option string;        (* shutil.which *)
  windows : bool;                          (* platform.system() == "Windows" *)
  receiver_jar : bool;                     (* lib/receiver.jar is a file *)
  agent_jar : bool;                        (* lib/jacocoagent.jar is a file *)
  cli_jar : bool;                          (* lib/jacococli.jar is a file *)
  debug_keystore : bool;                   (* lib/debug.keystore is a file *)
  properties_template : option bytes;      (* templates/jacoco-agent.properties *)
  apk_stem : string;                       (* splitext(basename(apk_path)) *)
  apk_ext : string;
  apk_file : option apk_content;           (* the file at apk_path *)
  disk_full : bool                         (* a write of new data raises OSError *)
}.

(** The executable names held by the instance, rewritten to full paths by
    [check_requirements]. *)
Record Paths := mkPaths {
  JAVA_PATH : string;
  DEX2JAR_PATH : string;
  DX_PATH : string;
  ZIPALIGN_PATH : string;
  APKSIGNER_PATH : string;
  APKTOOL_PATH : string
}.

(** The working directory of one run, one field for each path the program
    computes below it: the paths are taken to name different files (see
    [work_dir_names]). *)
Record Work := mkWork {
  target_apk : option apk_content;               (* target_apk_path *)
  classes_jar : option bytes;                    (* classes_jar_path *)
  dex_dir : option (list (string * dirent));     (* instrumented_dex_path, in os.listdir order *)
  manifest_xml : option xml_content;             (* apktool_manifest_path *)
  apk_copy : option apk_content                  (* target_apk_path + ".copy" *)
}.

Record World := mkWorld {
  env : Env;
  paths : Paths;
  work : Work;
  namespace_map : list (string * string);        (* ElementTree._namespace_map: uri, prefix *)
  output_apks : out_node;
  log : list log_record
}.

Definition set_paths (p : Paths) (w : World) : World :=
  mkWorld (env w) p (work w) (namespace_map w) (output_apks w) (log w).
Definition set_work (k : Work) (w : World) : World :=
  mkWorld (env w) (paths w) k (namespace_map w) (output_apks w) (log w).
Definition set_namespace_map (m : list (string * string)) (w : World) : World :=
  mkWorld (env w) (paths w) (work w) m (output_apks w) (log w).
Definition set_output_apks (o : out_node) (w : World) : World :=
  mkWorld (env w) (paths w) (work w) (namespace_map w) o (log w).
Definition add_log (r : log_record) (w : World) : World :=
  mkWorld (env w) (paths w) (work w) (namespace_map w) (output_apks w) (log w ++ [r]).

Definition set_target_apk (c : option apk_content) (k : Work) : Work :=
  mkWork c (classes_jar k) (dex_dir k) (manifest_xml k) (apk_copy k).
Definition set_dex_dir (d : option (list (string * dirent))) (k : Work) : Work :=
  mkWork (target_apk k) (classes_jar k) d (manifest_xml k) (apk_copy k).
Definition set_manifest_xml (x : option xml_content) (k : Work) : Work :=
  mkWork (target_apk k) (classes_jar k) (dex_dir k) x (apk_copy k).
Definition set_apk_copy (c : option apk_content) (k : Work) : Work :=
  mkWork (target_apk k) (classes_jar k) (dex_dir k) (manifest_xml k) c.

(** ** The monad of the instrumenter: world passing with exceptions *)

Definition M (A : Type) : Type := World -> World * (exn + A).

#[export] Instance M_ret : MRet M := fun A a w => (w, inr a).
#[export] Instance M_bind : MBind M := fun A B f m w =>
  match m w with
  | (w', inl e) => (w', inl e)
  | (w', inr a) => f a w'
  end.

Definition raise {A} (e : exn) : M A := fun w => (w, inl e).
Definition get_world : M World := fun w => (w, inr w).
Definition update (f : World -> World) : M unit := fun w => (f w, inr tt).
Definition lift {A} (r : exn + A) : M A := fun w => (w, r).
Definition logger (r : log_record) : M unit := update (add_log r).

(** [try: body  except Exception as e: logger.error(...); raise]. *)
Definition try_log (s : stage) {A} (body : M A) : M A := fun w =>
  match body w with
  | (w', inl e) => (add_log (LError s e) w', inl e)
  | r => r
  end.

(** [try: body  finally: cleanup] where the cleanup itself cannot fail. *)
Definition try_finally {A} (body : M A) (cleanup : World -> World) : M A := fun w =>
  let '(w', r) := body w in (cleanup w', r).

(** ** Archive Transformer: [repackage_apk] *)

Module Repackage.
Import PyStr zipfile.

(** [zipfile.ZipFile(target_apk_path, "r")]. *)
Definition open_zip (f : option apk_content) : exn + list ZipEntry :=
  match f with
  | None => inl FileNotFoundError
  | Some (NotZip _) => inl BadZipFile
  | Some (ZipArchive a) => inr a
  end.

(** The loop over [current_apk.infolist()]. *)
Fixpoint copy_entries (current_apk entries buf : list ZipEntry) : exn + list ZipEntry :=
  match entries with
  | [] => inr buf
  | entry :: rest =>
      if startswith (filename entry) "META-INF/" then
        copy_entries current_apk rest buf
      else if startswith (filename entry) "classes" && endswith (filename entry) ".dex" then
        copy_entries current_apk rest buf
      else
        match read current_apk (filename entry) with
        | None => inl KeyError
        | Some d => copy_entries current_apk rest (writestr buf (filename entry) d)
        end
  end.

(** [os.listdir(instrumented_dex_path)]. *)
Definition listdir (d : option (list (string * dirent))) : exn + list (string * dirent) :=
  match d with
  | None => inl FileNotFoundError
  | Some l => inr l
  end.

(** The loop over the directory listing: [open(..., "rb")] then [writestr]. *)
Fixpoint add_dex (listing : list (string * dirent)) (buf : list ZipEntry) : exn + list ZipEntry :=
  match listing with
  | [] => inr buf
  | (instrumented_dex, DSubdir) :: _ => inl IsADirectoryError
  | (instrumented_dex, DFile content) :: rest =>
      add_dex rest (writestr buf instrumented_dex content)
  end.

(** [open(self.jacoco_agent_properties_path, "rb")]. *)
Definition open_properties (p : option bytes) : exn + bytes :=
  match p with
  | None => inl FileNotFoundError
  | Some b => inr b
  end.

(** [open(target_apk_path, "wb")] truncates the file; the following
    [write] either stores the whole buffer or raises. *)
Definition write_target (buf : list ZipEntry) : M unit :=
  update (fun w => set_work (set_target_apk (Some (NotZip [])) (work w)) w);;
  w ← get_world;
  if disk_full (env w) then raise OSError
  else update (fun w => set_work (set_target_apk (Some (ZipArchive buf)) (work w)) w).

Definition repackage_apk : M unit :=
  try_log SRepackage (
    w ← get_world;
    current_apk ← lift (open_zip (target_apk (work w)));
    buf ← lift (copy_entries current_apk (infolist current_apk) []);
    listing ← lift (listdir (dex_dir (work w)));
    buf ← lift (add_dex listing buf);
    properties ← lift (open_properties (properties_template (env w)));
    let buf := writestr buf "jacoco-agent.properties" properties in
    write_target buf).

End Repackage.

(** ** [xml.etree.ElementTree] *)

Module ET.

(** An element or attribute name as the tree holds it: the parser stores a
    namespaced name in the form [{uri}local], any other name as it is
    written.  A name set by the program from a literal is [Plain]. *)
Inductive name :=
  | Clark (uri local : string)
  | Plain (s : string).

Definition name_eqb (a b : name) : bool :=
  match a, b with
  | Clark u l, Clark u' l' => String.eqb u u' && String.eqb l l'
  | Plain s, Plain s' => String.eqb s s'
  | _, _ => false
  end.

Inductive Element :=
  | Elem (tag : name) (attrib : list (name * string))
         (text tail : option string) (children : list Element).

Definition tag_of (e : Element) : name := let 'Elem t _ _ _ _ := e in t.
Definition attrib_of (e : Element) : list (name * string) := let 'Elem _ a _ _ _ := e in a.
Definition children_of (e : Element) : list Element := let 'Elem _ _ _ _ c := e in c.
Definition with_children (e : Element) (c : list Element) : Element :=
  let 'Elem t a x y _ := e in Elem t a x y c.
Definition with_attrib (e : Element) (a : list (name * string)) : Element :=
  let 'Elem t _ x y c := e in Elem t a x y c.

(** [dict.get] on a dictionary with string keys, kept in insertion order. *)
Fixpoint dict_get (k : string) (d : list (string * string)) : option string :=
  match d with
  | [] => None
  | (k', v) :: d' => if String.eqb k' k then Some v else dict_get k d'
  end.

(** *** Parsing with namespace processing *)

Definition XML_NS : string := "http://www.w3.org/XML/1998/namespace".

(** Split [prefix:local] at the first colon. *)
Fixpoint split_colon (s : string) : option (string * string) :=
  match s with
  | EmptyString => None
  | String c s' =>
      if Ascii.eqb c ":" then Some (EmptyString, s')
      else match split_colon s' with
           | Some (p, l) => Some (String c p, l)
           | None => None
           end
  end.

(** Namespace scope: innermost declaration first. *)
Definition resolve_tag (scope : list (string * string)) (raw : string) : exn + name :=
  match split_colon raw with
  | Some (p, l) =>
      match dict_get p scope with
      | Some uri => inr (Clark uri l)
      | None => inl ParseError               (* unbound prefix *)
      end
  | None =>
      match dict_get "" scope with
      | Some uri => if String.eqb uri "" then inr (Plain raw) else inr (Clark uri raw)
      | None => inr (Plain raw)
      end
  end.

(** An attribute without prefix is in no namespace. *)
Definition resolve_attr (scope : list (string * string)) (raw : string) : exn + name :=
  match split_colon raw with
  | Some (p, l) =>
      match dict_get p scope with
      | Some uri => inr (Clark uri l)
      | None => inl ParseError
      end
  | None => inr (Plain raw)
  end.

Fixpoint resolve_attrs (scope : list (string * string)) (attrs : list (string * string))
  : exn + list (name * string) :=
  match attrs with
  | [] => inr []
  | (k, v) :: rest =>
      match resolve_attr scope k with
      | inl e => inl e
      | inr k' =>
          match resolve_attrs scope rest with
          | inl e => inl e
          | inr rest' => inr ((k', v) :: rest')
          end
      end
  end.

(** [TreeBuilder._flush] sets [text] or [tail] only when character data was
    delivered ([if self._data:]). *)
Definition reported (data : option string) : option string :=
  match data with
  | Some EmptyString => None
  | _ => data
  end.

(** White space: space, tab, line feed and carriage return. *)
Definition is_space (c : ascii) : bool :=
  Ascii.eqb c " " || Ascii.eqb c "009" || Ascii.eqb c "010" || Ascii.eqb c "013".

Fixpoint blank (s : string) : bool :=
  match s with
  | EmptyString => true
  | String c s' => is_space c && blank s'
  end.

Fixpoint parse_elem (scope : list (string * string)) (r : RawElem) : exn + Element :=
  match r with
  | RawE rtag rdecls rattrs rtext rtail rchildren =>
      let scope' := rdecls ++ scope in
      match resolve_tag scope' rtag with
      | inl e => inl e
      | inr t =>
          match resolve_attrs scope' rattrs with
          | inl e => inl e
          | inr a =>
              match (fix parse_all (l : list RawElem) : exn + list Element :=
                       match l with
                       | [] => inr []
                       | c :: l' =>
                           match parse_elem scope' c with
                           | inl e => inl e
                           | inr c' =>
                               match parse_all l' with
                               | inl e => inl e
                               | inr l'' => inr (c' :: l'')
                               end
                           end
                       end) rchildren with
              | inl e => inl e
              | inr cs => inr (Elem t a (reported rtext) (reported rtail) cs)
              end
          end
      end
  end.

(** [ET.parse(path).getroot()].  Only white space may follow the root
    element, and the tree builder is closed without flushing it: the root
    has no tail. *)
Definition parse (f : option xml_content) : exn + Element :=
  match f with
  | None => inl FileNotFoundError
  | Some (NotXml _) => inl ParseError
  | Some (XmlDoc (RawE rtag rdecls rattrs rtext rtail rchildren)) =>
      if match rtail with Some s => blank s | None => true end
      then parse_elem [("xml", XML_NS)] (RawE rtag rdecls rattrs rtext None rchildren)
      else inl ParseError                    (* junk after document element *)
  end.

(** *** Element references and in-place mutation

    The program holds references to elements of the tree it mutates.  A
    reference is the path of child indices from the root; mutating through
    a reference rebuilds the tree along that path, so a change made through
    one reference is seen through every other. *)

Abbreviation ref := (list nat).

Fixpoint get (p : ref) (e : Element) : option Element :=
  match p with
  | [] => Some e
  | i :: p' =>
      match children_of e !! i with
      | Some c => get p' c
      | None => None
      end
  end.

Fixpoint modify (p : ref) (f : Element -> Element) (e : Element) : Element :=
  match p with
  | [] => f e
  | i :: p' =>
      match children_of e !! i with
      | Some c => with_children e (<[i := modify p' f c]> (children_of e))
      | None => e
      end
  end.

(** Index of the first element of [cs] whose tag is [t]. *)
Fixpoint index_of_tag (t : name) (cs : list Element) : option nat :=
  match cs with
  | [] => None
  | c :: cs' =>
      if name_eqb (tag_of c) t then Some 0
      else S <$> index_of_tag t cs'
  end.

(** [root.find("./" + tag)]: the first child of the root with that tag. *)
Definition find_child (root : Element) (t : string) : option ref :=
  (fun i => [i]) <$> index_of_tag (Plain t) (children_of root).

(** [ET.SubElement(parent, tag)]: a [None] parent is a [TypeError]. *)
Definition SubElement (root : Element) (parent : option ref) (t : string)
  : exn + (Element * ref) :=
  match parent with
  | None => inl TypeError
  | Some p =>
      let n := match get p root with Some pe => length (children_of pe) | None => 0 end in
      inr (modify p (fun pe => with_children pe (children_of pe ++ [Elem (Plain t) [] None None []])) root,
           p ++ [n])
  end.

(** [attrib[key] = value] on an insertion-ordered dictionary. *)
Fixpoint attrib_set (key : name) (value : string) (a : list (name * string))
  : list (name * string) :=
  match a with
  | [] => [(key, value)]
  | (k, v) :: a' =>
      if name_eqb k key then (k, value) :: a' else (k, v) :: attrib_set key value a'
  end.

(** [element.set(key, value)]. *)
Definition set (root : Element) (p : ref) (key value : string) : Element :=
  modify p (fun e => with_attrib e (attrib_set (Plain key) value (attrib_of e))) root.

(** *** The prefix registry *)

Definition is_digit (c : ascii) : bool :=
  Nat.leb 48 (nat_of_ascii c) && Nat.leb (nat_of_ascii c) 57.

(** The rest of a match of [\d+$] after its first digit. *)
Fixpoint digits_to_end (s : string) : bool :=
  match s with
  | EmptyString => true
  | String c s' =>
      if is_digit c then digits_to_end s'
      else Ascii.eqb c "010" && String.eqb s' ""
  end.

(** [re.match(r"ns\d+$", prefix)]. *)
Definition reserved_prefix (p : string) : bool :=
  match p with
  | String "n" (String "s" (String d rest)) => is_digit d && digits_to_end rest
  | _ => false
  end.

(** [register_namespace(prefix, uri)] on [_namespace_map]. *)
Definition register_namespace (prefix uri : string) (m : list (string * string))
  : exn + list (string * string) :=
  if reserved_prefix prefix then inl ValueError
  else inr (filter (fun kv => negb (String.eqb kv.1 uri || String.eqb kv.2 prefix)) m
            ++ [(uri, prefix)]).

(** *** Serialisation: [_namespaces] and [_serialize_xml] *)

Record ns_state := mkNs {
  qnames : list (name * string);          (* name, encoded prefix:local *)
  namespaces : list (string * string)     (* uri, prefix *)
}.

Fixpoint qnames_get (q : name) (d : list (name * string)) : option string :=
  match d with
  | [] => None
  | (k, v) :: d' => if name_eqb k q then Some v else qnames_get q d'
  end.

(** ["ns%d" % len(namespaces)]. *)
Definition auto_prefix (n : nat) : string :=
  "ns" +:+ NilZero.string_of_uint (Nat.to_uint n).

Definition add_qname (registry : list (string * string)) (st : ns_state) (q : name)
  : ns_state :=
  match q with
  | Clark uri t =>
      let '(prefix, namespaces') :=
        match dict_get uri (namespaces st) with
        | Some prefix => (prefix, namespaces st)
        | None =>
            let prefix := match dict_get uri registry with
                          | Some p => p
                          | None => auto_prefix (length (namespaces st))
                          end in
            (prefix,
             if String.eqb prefix "xml" then namespaces st
             else namespaces st ++ [(uri, prefix)])
        end in
      mkNs (qnames st ++ [(q, if String.eqb prefix "" then t else prefix +:+ ":" +:+ t)])
           namespaces'
  | Plain s => mkNs (qnames st ++ [(q, s)]) (namespaces st)
  end.

(** [if key not in qnames: add_qname(key)]. *)
Definition visit (registry : list (string * string)) (st : ns_state) (q : name) : ns_state :=
  match qnames_get q (qnames st) with
  | Some _ => st
  | None => add_qname registry st q
  end.

(** [elem.iter()]: the element and its descendants in document order. *)
Fixpoint iter (e : Element) : list Element :=
  match e with
  | Elem _ _ _ _ cs => e :: flat_map iter cs
  end.

(** The names [_namespaces] visits for one element: the tag, then the
    attribute keys. *)
Definition names_of (e : Element) : list name := tag_of e :: map fst (attrib_of e).

Definition all_names (root : Element) : list name := flat_map names_of (iter root).

Definition _namespaces (registry : list (string * string)) (root : Element) : ns_state :=
  fold_left (visit registry) (all_names root) (mkNs [] []).

(** [qnames[key]]. *)
Definition encoded (st : ns_state) (q : name) : exn + string :=
  match qnames_get q (qnames st) with
  | Some s => inr s
  | None => inl KeyError
  end.

Fixpoint encode_attrs (st : ns_state) (a : list (name * string))
  : exn + list (string * string) :=
  match a with
  | [] => inr []
  | (k, v) :: rest =>
      match encoded st k with
      | inl e => inl e
      | inr k' =>
          match encode_attrs st rest with
          | inl e => inl e
          | inr rest' => inr ((k', v) :: rest')
          end
      end
  end.

(** Insertion into a list sorted by prefix: [sorted(..., key=lambda x: x[1])]. *)
Fixpoint insert_by_prefix (x : string * string) (l : list (string * string))
  : list (string * string) :=
  match l with
  | [] => [x]
  | y :: l' => if String.ltb x.2 y.2 then x :: y :: l' else y :: insert_by_prefix x l'
  end.

Definition sorted_by_prefix (l : list (string * string)) : list (string * string) :=
  fold_left (fun acc x => insert_by_prefix x acc) l [].

(** The [xmlns] declarations written on the root, as (prefix, uri). *)
Definition declarations (st : ns_state) : list (string * string) :=
  map (fun kv => (kv.2, kv.1)) (sorted_by_prefix (namespaces st)).

(** Line ends as a parser reads them: a carriage return followed by a line
    feed, and a carriage return alone, are one line feed. *)
Fixpoint line_ends (s : string) : string :=
  match s with
  | EmptyString => EmptyString
  | String c s' =>
      if Ascii.eqb c "013" then
        match s' with
        | String c' _ =>
            if Ascii.eqb c' "010" then line_ends s' else String "010" (line_ends s')
        | EmptyString => String "010" EmptyString
        end
      else String c (line_ends s')
  end.

(** [if text: write(_escape_cdata(text))], the same for [tail]: empty text
    writes nothing, and [_escape_cdata] escapes [&], [<] and [>] only, so a
    carriage return goes into the file as it is and is a line end there.
    (Attribute values go through [_escape_attrib], which since Python 3.9
    writes carriage return, line feed and tab as character references:
    they are kept.) *)
Definition written_text (x : option string) : option string :=
  match x with
  | Some s => if String.eqb s "" then None else Some (line_ends s)
  | None => None
  end.

(** [_serialize_xml]: [decls] is the namespace table for the root and
    empty below it. *)
Fixpoint serialize (st : ns_state) (decls : list (string * string)) (e : Element)
  : exn + RawElem :=
  match e with
  | Elem t a x y cs =>
      match encoded st t with
      | inl err => inl err
      | inr t' =>
          match encode_attrs st a with
          | inl err => inl err
          | inr a' =>
              match (fix serialize_all (l : list Element) : exn + list RawElem :=
                       match l with
                       | [] => inr []
                       | c :: l' =>
                           match serialize st [] c with
                           | inl err => inl err
                           | inr c' =>
                               match serialize_all l' with
                               | inl err => inl err
                               | inr l'' => inr (c' :: l'')
                               end
                           end
                       end) cs with
              | inl err => inl err
              | inr cs' => inr (RawE t' decls a' (written_text x) (written_text y) cs')
              end
          end
      end
  end.

(** What [ElementTree.write] produces for the tree. *)
Definition tostring (registry : list (string * string)) (root : Element) : exn + RawElem :=
  let st := _namespaces registry root in
  serialize st (declarations st) root.

End ET.

(** Sequencing of plain fallible computations. *)
#[export] Instance result_ret : MRet (sum exn) := fun A a => inr a.
#[export] Instance result_bind : MBind (sum exn) := fun A B f m =>
  match m with
  | inl e => inl e
  | inr a => f a
  end.

(** ** Manifest Patcher: [patch_manifest] *)

Module Manifest.
Import ET.

Definition ANDROID_NS : string := "http://schemas.android.com/apk/res/android".

(** The statements between [ET.parse] and [manifest.write]. *)
Definition patch_tree (manifest : Element) : exn + Element :=
  let application := find_child manifest "application" in
  '(manifest, receiver) ← SubElement manifest application "receiver";
  let manifest := set manifest receiver "android:name" "cosmo.receiver.EndCoverageBroadcast" in
  let manifest := set manifest receiver "android:exported" "true" in
  '(manifest, intent_filter) ← SubElement manifest (Some receiver) "intent-filter";
  '(manifest, action) ← SubElement manifest (Some intent_filter) "action";
  let manifest := set manifest action "android:name" "intent.END_COVERAGE" in
  mret manifest.

(** [manifest.write(manifest_path)]: the file is opened for writing, hence
    truncated, before the tree is serialised into it. *)
Definition write (root : Element) : M unit :=
  update (fun w => set_work (set_manifest_xml (Some (NotXml [])) (work w)) w);;
  w ← get_world;
  raw ← lift (tostring (namespace_map w) root);
  if disk_full (env w) then raise OSError
  else update (fun w => set_work (set_manifest_xml (Some (XmlDoc raw)) (work w)) w).

Definition patch_manifest : M unit :=
  try_log SPatchManifest (
    logger (LInfo SPatchManifest);;
    w ← get_world;
    registry ← lift (register_namespace "android" ANDROID_NS (namespace_map w));
    update (set_namespace_map registry);;
    manifest ← lift (parse (manifest_xml (work w)));
    manifest ← lift (patch_tree manifest);
    write manifest).

End Manifest.

(** ** Pipeline Orchestrator *)

Section Pipeline.

(** [subprocess.check_output(cmd, stderr=STDOUT)] for the command line of
    each tool: whatever the subprocess does to the world, and whether the
    call raises. *)
Variable external : tool -> World -> World * (exn + unit).

Definition check_output (t : tool) : M unit := external t.

(** [shutil.which] for one executable, then the rewrite of the attribute. *)
Definition require_tool (current : Paths -> string) (store : string -> Paths -> Paths)
  (full_path : option string) : M unit :=
  match full_path with
  | None => w ← get_world; raise (RuntimeError (current (paths w)))
  | Some p => update (fun w => set_paths (store p (paths w)) w)
  end.

Definition check_requirements : M unit :=
  w ← get_world;
  if negb (receiver_jar (env w)) then raise (RuntimeError "receiver.jar")
  else
    let full_java_path := which (env w) (JAVA_PATH (paths w)) in
    let full_dex2jar_path := which (env w) (DEX2JAR_PATH (paths w)) in
    let full_dx_path := which (env w) (DX_PATH (paths w)) in
    let full_zipalign_path := which (env w) (ZIPALIGN_PATH (paths w)) in
    let full_apksigner_path := which (env w) (APKSIGNER_PATH (paths w)) in
    let full_apktool_path := which (env w) (APKTOOL_PATH (paths w)) in
    require_tool JAVA_PATH
      (fun p k => mkPaths p (DEX2JAR_PATH k) (DX_PATH k) (ZIPALIGN_PATH k)
                          (APKSIGNER_PATH k) (APKTOOL_PATH k)) full_java_path;;
    require_tool DEX2JAR_PATH
      (fun p k => mkPaths (JAVA_PATH k) p (DX_PATH k) (ZIPALIGN_PATH k)
                          (APKSIGNER_PATH k) (APKTOOL_PATH k)) full_dex2jar_path;;
    require_tool DX_PATH
      (fun p k => mkPaths (JAVA_PATH k) (DEX2JAR_PATH k) p (ZIPALIGN_PATH k)
                          (APKSIGNER_PATH k) (APKTOOL_PATH k)) full_dx_path;;
    require_tool ZIPALIGN_PATH
      (fun p k => mkPaths (JAVA_PATH k) (DEX2JAR_PATH k) (DX_PATH k) p
                          (APKSIGNER_PATH k) (APKTOOL_PATH k)) full_zipalign_path;;
    require_tool APKSIGNER_PATH
      (fun p k => mkPaths (JAVA_PATH k) (DEX2JAR_PATH k) (DX_PATH k) (ZIPALIGN_PATH k)
                          p (APKTOOL_PATH k)) full_apksigner_path;;
    require_tool APKTOOL_PATH
      (fun p k => mkPaths (JAVA_PATH k) (DEX2JAR_PATH k) (DX_PATH k) (ZIPALIGN_PATH k)
                          (APKSIGNER_PATH k) p) full_apktool_path.

Definition parse_android_apk : M bool :=
  w ← get_world;
  match apk_file (env w) with
  | None => raise FileNotFoundError
  | Some (NotZip _) => raise BadZipFile
  | Some (ZipArchive current_apk) =>
      if existsb (fun entry => String.eqb (filename entry) "AndroidManifest.xml")
                 (zipfile.infolist current_apk)
      then mret true
      else raise ValueError
  end.

Definition run_dex2jar : M unit :=
  try_log SDex2jar (logger (LInfo SDex2jar);; check_output Dex2jar).

Definition instrument_jar : M unit :=
  try_log SInstrumentJar (logger (LInfo SInstrumentJar);; check_output JacocoInstrument).

Definition convert_to_dalvik : M unit :=
  try_log SConvertToDalvik (
    w ← get_world;
    (if dex_dir (work w) is None
     then update (fun w => set_work (set_dex_dir (Some []) (work w)) w)   (* os.makedirs *)
     else mret tt);;
    logger (LInfo SConvertToDalvik);;
    check_output Dx).

Definition apktool_decode : M unit :=
  try_log SApktoolDecode (logger (LInfo SApktoolDecode);; check_output ApktoolDecode).

Definition apktool_build : M unit :=
  try_log SApktoolBuild (logger (LInfo SApktoolBuild);; check_output ApktoolBuild).

(** [shutil.copy2] of the working copy onto the scratch path. *)
Definition copy_to_scratch : M unit :=
  w ← get_world;
  match target_apk (work w) with
  | None => raise FileNotFoundError
  | Some c =>
      if disk_full (env w) then
        update (fun w => set_work (set_apk_copy (Some (NotZip [])) (work w)) w);;
        raise OSError
      else update (fun w => set_work (set_apk_copy (Some c) (work w)) w)
  end.

Definition align_apk : M unit :=
  try_finally
    (try_log SAlign (copy_to_scratch;; logger (LInfo SAlign);; check_output Zipalign))
    (fun w => set_work (set_apk_copy None (work w)) w).

Definition sign_apk : M unit :=
  try_log SSign (logger (LInfo SSign);; check_output Apksigner).

(** What is left of a file whose copy was cut short. *)
Definition partial (f : any_file) : any_file :=
  match f with
  | AnApk _ => AnApk (NotZip [])
  | AJar _ => AJar []
  end.

(** [shutil.copy2(src, output_dir)] for a source file named [name]. *)
Definition copy_into_output (name : string) (src : option any_file) : M unit :=
  w ← get_world;
  match src with
  | None => raise FileNotFoundError
  | Some f =>
      let stored := if disk_full (env w) then partial f else f in
      update (set_output_apks
                match output_apks w with
                | OutDir files =>
                    OutDir ((name, stored)
                              :: filter (fun nf => negb (String.eqb nf.1 name)) files)
                | _ => OutFile stored
                end);;
      if disk_full (env w) then raise OSError else mret tt
  end.

Definition copy_outputs : M unit :=
  w ← get_world;
  copy_into_output (apk_stem (env w) +:+ apk_ext (env w)) (AnApk <$> target_apk (work w));;
  copy_into_output (apk_stem (env w) +:+ ".jar") (AJar <$> classes_jar (work w));;
  logger (LInfo SCopyOutputs).

(** [tempfile.mkdtemp()] and the copy of the input into it. *)
Definition make_working_copy : M unit :=
  update (set_work (mkWork None None None None None));;
  w ← get_world;
  match apk_file (env w) with
  | None => raise FileNotFoundError
  | Some c =>
      if disk_full (env w) then
        update (fun w => set_work (set_target_apk (Some (NotZip [])) (work w)) w);;
        raise OSError
      else update (fun w => set_work (set_target_apk (Some c) (work w)) w)
  end.

Definition instrument_apk : M unit :=
  make_working_copy;;
  run_dex2jar;;
  instrument_jar;;
  convert_to_dalvik;;
  Repackage.repackage_apk;;
  apktool_decode;;
  Manifest.patch_manifest;;
  apktool_build;;
  align_apk;;
  sign_apk;;
  copy_outputs.

Definition run_instrumentation : M unit := fun w =>
  match (logger LInfoStart;; check_requirements;; parse_android_apk;; instrument_apk) w with
  | (w', inl e) => (add_log (LCritical e) w', inl e)
  | r => r
  end.

(** The stages between the working copy and the output copy, in call order. *)
Definition stages : list (M unit) :=
  [ run_dex2jar; instrument_jar; convert_to_dalvik; Repackage.repackage_apk;
    apktool_decode; Manifest.patch_manifest; apktool_build; align_apk; sign_apk ].

Fixpoint run_all (l : list (M unit)) : M unit :=
  match l with
  | [] => mret tt
  | s :: l' => s;; run_all l'
  end.

End Pipeline.

(** The class attributes before [check_requirements] has run. *)
Definition initial_paths (windows : bool) : Paths :=
  mkPaths "java" (if windows then "d2j-dex2jar.bat" else "d2j-dex2jar.sh")
          "dx" "zipalign" "apksigner" "apktool".

(** ** Vocabulary of the statements *)

#[export] Instance entry_class_eq_dec : EqDecision entry_class.
Proof. solve_decision. Defined.

(** The replacement directory holds exactly the regular files [files]. *)
Definition dir_of_files (files : list (string * bytes)) : list (string * dirent) :=
  (λ nf, (nf.1, DFile nf.2)) <$> files.

(** The inputs of a repackaging run that can be read: a working copy that is
    a zip container with members [src], a replacement directory with regular
    files [files], the properties template [props], and room on the disk. *)
Definition repackage_inputs (w : World) (src : list ZipEntry)
  (files : list (string * bytes)) (props : bytes) : Prop :=
  target_apk (work w) = Some (ZipArchive src)
  ∧ dex_dir (work w) = Some (dir_of_files files)
  ∧ properties_template (env w) = Some props
  ∧ disk_full (env w) = false.

(** Paths are unique within an archive. *)
Definition well_formed (src : list ZipEntry) : Prop := NoDup (filename <$> src).

(** A directory listing names members, never paths. *)
Definition member_names (files : list (string * bytes)) : Prop :=
  Forall (λ nf, PyStr.contains "/" nf.1 = false) files.

(** The entries written after the pass over the source archive. *)
Definition injected (files : list (string * bytes)) (props : bytes) : list ZipEntry :=
  ((λ nf, mkEntry nf.1 nf.2) <$> files) ++ [mkEntry "jacoco-agent.properties" props].

Definition count_name (n : string) (a : list ZipEntry) : nat :=
  length (filter (λ e, filename e = n) a).

(** What the copy loop writes for a member it keeps: the member's name with
    the content [read] returns for that name. *)
Definition reread (a : list ZipEntry) (e : ZipEntry) : ZipEntry :=
  mkEntry (filename e) (default (data e) (zipfile.read a (filename e))).

(** The entries the pass over the source archive leaves in the buffer. *)
Definition kept (src : list ZipEntry) : list ZipEntry :=
  reread src <$> filter (λ e, classify (filename e) = Ordinary) src.

(** The subtree the patch adds below [application]. *)
Definition receiver_element : ET.Element :=
  ET.Elem (ET.Plain "receiver")
    [ (ET.Plain "android:name", "cosmo.receiver.EndCoverageBroadcast");
      (ET.Plain "android:exported", "true") ]
    None None
    [ ET.Elem (ET.Plain "intent-filter") [] None None
        [ ET.Elem (ET.Plain "action")
            [ (ET.Plain "android:name", "intent.END_COVERAGE") ] None None [] ] ].

(** The root has an [application] child. *)
Definition has_application (root : ET.Element) : Prop :=
  ∃ c, c ∈ ET.children_of root ∧ ET.tag_of c = ET.Plain "application".

(** The tree after the patch, when the first [application] child is [app],
    at index [i]. *)
Definition patched (root : ET.Element) (i : nat) (app : ET.Element) : ET.Element :=
  ET.with_children root
    (<[i := ET.with_children app (ET.children_of app ++ [receiver_element])]>
       (ET.children_of root)).

(** The registry after [register_namespace("android", ANDROID_NS)]. *)
Definition android_registry (m : list (string * string)) : list (string * string) :=
  filter (λ kv, negb (String.eqb kv.1 Manifest.ANDROID_NS || String.eqb kv.2 "android")) m
  ++ [(Manifest.ANDROID_NS, "android")].

(** The [xmlns] declarations a serialised document carries on its root. *)
Definition raw_decls (r : RawElem) : list (string * string) :=
  let 'RawE _ d _ _ _ _ := r in d.

(** Some element or attribute name of the tree lies in the vendor namespace. *)
Definition uses_android_ns (root : ET.Element) : Prop :=
  ∃ l, In (ET.Clark Manifest.ANDROID_NS l) (ET.all_names root).

(** What [_namespaces] maintains once the registry maps the vendor
    namespace, and nothing else, to [android]. *)
Definition ns_inv (st : ET.ns_state) : Prop :=
  (∀ u p, (u, p) ∈ ET.namespaces st → (u = Manifest.ANDROID_NS ↔ p = "android"))
  ∧ (∀ l s, ET.qnames_get (ET.Clark Manifest.ANDROID_NS l) (ET.qnames st) = Some s →
            s = "android:" +:+ l ∧ (Manifest.ANDROID_NS, "android") ∈ ET.namespaces st).

(** A computation that leaves the output location as it found it. *)
Definition keeps_output {A} (m : M A) : Prop :=
  ∀ w, output_apks (m w).1 = output_apks w.

(** A requirement that [check_requirements] looks for is missing. *)
Definition missing_requirement (w : World) : Prop :=
  receiver_jar (env w) = false
  ∨ which (env w) (JAVA_PATH (paths w)) = None
  ∨ which (env w) (DEX2JAR_PATH (paths w)) = None
  ∨ which (env w) (DX_PATH (paths w)) = None
  ∨ which (env w) (ZIPALIGN_PATH (paths w)) = None
  ∨ which (env w) (APKSIGNER_PATH (paths w)) = None
  ∨ which (env w) (APKTOOL_PATH (paths w)) = None.

(** ** Sample inputs *)

Module Samples.

Definition b (n : string) : bytes := String.list_byte_of_string n.

(** The archive of the first scenario, with one more bytecode-like member
    below a directory. *)
Definition src : list ZipEntry :=
  [ mkEntry "AndroidManifest.xml" (b "<manifest/>");
    mkEntry "classes.dex" (b "dex-old");
    mkEntry "META-INF/CERT.SF" (b "signature");
    mkEntry "res/layout.xml" (b "<layout/>");
    mkEntry "classes_extra/helper.dex" (b "helper") ].

Definition files : list (string * bytes) :=
  [ ("classes.dex", b "dex-new"); ("classes2.dex", b "dex-new-2") ].

Definition props : bytes := b "destfile=/sdcard/coverage.ec".

Definition environment (template : option bytes) (full : bool) : Env :=
  mkEnv (λ exe, Some ("/usr/bin/" +:+ exe)) false true true true true
        template "app" ".apk" (Some (ZipArchive src)) full.

Definition world (e : Env) (k : Work) : World :=
  mkWorld e (initial_paths false) k [] (OutDir []) [].

(** Before [repackage_apk]: working copy and instrumented dex files. *)
Definition before_repackage : World :=
  world (environment (Some props) false)
        (mkWork (Some (ZipArchive src)) None (Some (dir_of_files files)) None None).

(** A package that already carries a [jacoco-agent.properties] member. *)
Definition src_with_properties : list ZipEntry :=
  [ mkEntry "AndroidManifest.xml" (b "<manifest/>");
    mkEntry "jacoco-agent.properties" (b "destfile=old.ec") ].

Definition before_repackage_with_properties : World :=
  world (environment (Some props) false)
        (mkWork (Some (ZipArchive src_with_properties)) None
                (Some (dir_of_files files)) None None).

(** The working copy is not a zip container. *)
Definition before_repackage_not_zip : World :=
  world (environment (Some props) false)
        (mkWork (Some (NotZip (b "garbage"))) None (Some (dir_of_files files)) None None).

(** A decoded manifest whose attributes use the vendor namespace. *)
Definition manifest_doc : RawElem :=
  RawE "manifest" [("android", Manifest.ANDROID_NS)]
       [("package", "org.example.app"); ("android:compileSdkVersion", "30")] None None
       [ RawE "uses-permission" [] [("android:name", "android.permission.INTERNET")]
              None None [];
         RawE "application" [] [("android:label", "Example")] None None
              [ RawE "activity" [] [("android:name", ".Main")] None None [] ] ].

(** The vendor namespace is declared but no name uses it. *)
Definition manifest_doc_unused_ns : RawElem :=
  RawE "manifest" [("android", Manifest.ANDROID_NS)] [("package", "org.example.app")]
       None None
       [ RawE "application" [] [] None None [] ].

(** No [application] element below the root. *)
Definition manifest_doc_no_application : RawElem :=
  RawE "manifest" [("android", Manifest.ANDROID_NS)]
       [("package", "org.example.app"); ("android:compileSdkVersion", "30")] None None
       [ RawE "uses-permission" [] [("android:name", "android.permission.INTERNET")]
              None None [] ].

(** Before [patch_manifest]: the decoded manifest is [doc]. *)
Definition before_patch (doc : RawElem) : World :=
  world (environment (Some props) false)
        (mkWork (Some (ZipArchive src)) None (Some (dir_of_files files))
                (Some (XmlDoc doc)) None).

End Samples.

(** ** Sample tools *)

Module SampleTools.

(** Every tool succeeds and leaves the world alone. *)
Definition all_succeed (t : tool) : M unit := mret tt.

(** [dx] exits with a non-zero status; the other tools succeed. *)
Definition dx_fails (t : tool) : M unit :=
  match t with
  | Dx => raise (CalledProcessError Dx)
  | _ => mret tt
  end.

(** A run on a machine with every requirement. *)
Definition start : World :=
  Samples.world (Samples.environment (Some Samples.props) false)
                (mkWork None None None None None).

(** The properties template is not there; everything else is. *)
Definition start_without_template : World :=
  Samples.world (Samples.environment None false) (mkWork None None None None None).

(** [dx] is not on the search path. *)
Definition start_without_dx : World :=
  Samples.world
    (mkEnv (λ exe, if String.eqb exe "dx" then None else Some ("/usr/bin/" +:+ exe))
           false true true true true (Some Samples.props) "app" ".apk"
           (Some (ZipArchive Samples.src)) false)
    (mkWork None None None None None).

End SampleTools.

(** ** Further vocabulary and sample inputs *)

(** The members of [files] named [n]. *)
Definition count_file (n : string) (files : list (string * bytes)) : nat :=
  length (filter (λ nf, nf.1 = n) files).

(** A package in which one ordinary name occurs twice. *)
Definition src_with_duplicate : list ZipEntry :=
  [ mkEntry "AndroidManifest.xml" (Samples.b "<manifest/>");
    mkEntry "assets/data.bin" (Samples.b "first");
    mkEntry "assets/data.bin" (Samples.b "second") ].

Definition before_repackage_with_duplicate : World :=
  Samples.world (Samples.environment (Some Samples.props) false)
                (mkWork (Some (ZipArchive src_with_duplicate)) None
                        (Some (dir_of_files Samples.files)) None None).

(** The replacement directory holds a subdirectory. *)
Definition before_repackage_with_subdir : World :=
  Samples.world (Samples.environment (Some Samples.props) false)
                (mkWork (Some (ZipArchive Samples.src)) None
                        (Some [("classes.dex", DFile (Samples.b "dex-new")); ("tmp", DSubdir)])
                        None None).

(** The disk is full. *)
Definition before_repackage_disk_full : World :=
  Samples.world (Samples.environment (Some Samples.props) true)
                (mkWork (Some (ZipArchive Samples.src)) None
                        (Some (dir_of_files Samples.files)) None None).

(** The executable attributes in the order [check_requirements] tests them. *)
Definition tool_fields : list (Paths → string) :=
  [JAVA_PATH; DEX2JAR_PATH; DX_PATH; ZIPALIGN_PATH; APKSIGNER_PATH; APKTOOL_PATH].

(** States just before [copy_outputs]. *)
Definition before_copy (out : out_node) (jar : option bytes) : World :=
  mkWorld (Samples.environment (Some Samples.props) false) (initial_paths false)
          (mkWork (Some (ZipArchive Samples.src)) jar None None None) [] out [].

(** What [shutil.copy2(src, dst)] leaves at [dst] for a source named [name]. *)
Definition copied_to (o : out_node) (name : string) (f : any_file) : out_node :=
  match o with
  | OutDir files => OutDir ((name, f) :: filter (λ nf, negb (String.eqb nf.1 name)) files)
  | _ => OutFile f
  end.

(** The input is a zip container without a manifest at its root. *)
Definition start_without_manifest : World :=
  Samples.world
    (mkEnv (λ exe, Some ("/usr/bin/" +:+ exe)) false true true true true
           (Some Samples.props) "app" ".apk"
           (Some (ZipArchive [mkEntry "res/AndroidManifest.xml" (Samples.b "<manifest/>")]))
           false)
    (mkWork None None None None None).

(** Tools that produce what the next stage reads: [dex2jar] the jar, [dx]
    the dex files, [apktool d] the decoded manifest. *)
Definition producing_tools (t : tool) : M unit :=
  match t with
  | Dex2jar =>
      update (λ w, set_work (mkWork (target_apk (work w)) (Some (Samples.b "jar"))
                                    (dex_dir (work w)) (manifest_xml (work w))
                                    (apk_copy (work w))) w)
  | Dx =>
      update (λ w, set_work (set_dex_dir (Some (dir_of_files Samples.files)) (work w)) w)
  | ApktoolDecode =>
      update (λ w, set_work (set_manifest_xml (Some (XmlDoc Samples.manifest_doc)) (work w)) w)
  | _ => mret tt
  end.

(** The decoded manifest is not XML; the disk is full. *)
Definition before_patch_not_xml : World :=
  Samples.world (Samples.environment (Some Samples.props) false)
                (mkWork (Some (ZipArchive Samples.src)) None None
                        (Some (NotXml (Samples.b "not xml"))) None).

Definition before_patch_disk_full : World :=
  Samples.world (Samples.environment (Some Samples.props) true)
                (mkWork (Some (ZipArchive Samples.src)) None None
                        (Some (XmlDoc Samples.manifest_doc)) None).

(** The receiver subtree as a parser reads it back from the written file:
    the attributes spelled [android:...] are names of the vendor namespace. *)
Definition receiver_element_ns : ET.Element :=
  ET.Elem (ET.Plain "receiver")
    [ (ET.Clark Manifest.ANDROID_NS "name", "cosmo.receiver.EndCoverageBroadcast");
      (ET.Clark Manifest.ANDROID_NS "exported", "true") ]
    None None
    [ ET.Elem (ET.Plain "intent-filter") [] None None
        [ ET.Elem (ET.Plain "action")
            [ (ET.Clark Manifest.ANDROID_NS "name", "intent.END_COVERAGE") ] None None [] ] ].

Definition patched_ns (root : ET.Element) (i : nat) (app : ET.Element) : ET.Element :=
  ET.with_children root
    (<[i := ET.with_children app (ET.children_of app ++ [receiver_element_ns])]>
       (ET.children_of root)).

(** A name of the vendor namespace, or a name without prefix. *)
Definition simple_name (q : ET.name) : Prop :=
  match q with
  | ET.Clark u _ => u = Manifest.ANDROID_NS
  | ET.Plain s => PyStr.contains ":" s = false
  end.

(** A manifest whose only namespace is the vendor namespace. *)
Definition simple_tree (e : ET.Element) : Prop :=
  ∀ q, In q (ET.all_names e) → simple_name q.

(** How a parser in whose scope [android] is bound to the vendor namespace,
    and nothing else is bound, reads a name back. *)
Definition qualify (q : ET.name) : ET.name :=
  match q with
  | ET.Clark _ _ => q
  | ET.Plain s =>
      match ET.split_colon s with
      | Some (p, l) => if String.eqb p "android" then ET.Clark Manifest.ANDROID_NS l else q
      | None => q
      end
  end.

(** The name as the serialiser writes it when the vendor namespace has the
    prefix [android]. *)
Definition written (q : ET.name) : string :=
  match q with
  | ET.Clark _ l => "android:" +:+ l
  | ET.Plain s => s
  end.

(** A name the round trip through the file is defined for. *)
Definition writable_name (q : ET.name) : Prop :=
  match q with
  | ET.Clark u _ => u = Manifest.ANDROID_NS
  | ET.Plain s => PyStr.contains ":" s = false ∨ ∃ l, s = "android:" +:+ l
  end.

Fixpoint map_names (f : ET.name → ET.name) (e : ET.Element) : ET.Element :=
  match e with
  | ET.Elem t a x y cs =>
      ET.Elem (f t) (map (λ kv, (f kv.1, kv.2)) a) x y (map (map_names f) cs)
  end.

(** The element as the serialiser writes it, [decls] on this element and no
    declaration below it. *)
Fixpoint written_elem (decls : list (string * string)) (e : ET.Element) : RawElem :=
  match e with
  | ET.Elem t a x y cs =>
      RawE (written t) decls (map (λ kv, (written kv.1, kv.2)) a)
           (ET.written_text x) (ET.written_text y)
           (map (written_elem []) cs)
  end.

Definition tail_of (e : ET.Element) : option string := let 'ET.Elem _ _ _ y _ := e in y.

Definition raw_tail (r : RawElem) : option string := let 'RawE _ _ _ _ y _ := r in y.

Fixpoint map_text (f : option string → option string) (e : ET.Element) : ET.Element :=
  match e with
  | ET.Elem t a x y cs => ET.Elem t a (f x) (f y) (map (map_text f) cs)
  end.

(** The tree with its character data as a parser finds it in the file the
    serialiser wrote: every [text] and [tail] with its line ends read as
    line feeds, and none that is empty. *)
Definition text_read_back (e : ET.Element) : ET.Element := map_text ET.written_text e.

(** Every [text] and [tail] of a tree. *)
Fixpoint texts (e : ET.Element) : list string :=
  match e with
  | ET.Elem _ _ x y cs => option_list x ++ option_list y ++ flat_map texts cs
  end.

(** No character data of the tree is empty or holds a carriage return. *)
Definition plain_text (e : ET.Element) : Prop :=
  ∀ s, In s (texts e) → s ≠ EmptyString ∧ PyStr.contains "013" s = false.

(** The names of a raw element in document order: its tag, its attribute
    keys, then its children. *)
Fixpoint raw_names (r : RawElem) : list string :=
  match r with
  | RawE t _ a _ _ cs => (t :: map fst a) ++ flat_map raw_names cs
  end.

(** The spelling of a tree name in the written file: a name without
    namespace as it is, a name of the vendor namespace with the prefix
    [android]. *)
Definition spelled (q : ET.name) (s : string) : Prop :=
  match q with
  | ET.Clark u l => u = Manifest.ANDROID_NS → s = "android:" +:+ l
  | ET.Plain p => s = p
  end.

(** The names the program computes below the working directory: the
    working copy, the jar, the three directories and the scratch copy. *)
Definition work_dir_names (e : Env) : list string :=
  [ apk_stem e +:+ apk_ext e; apk_stem e +:+ ".jar"; "jacoco"; "dex"; "apktool";
    apk_stem e +:+ apk_ext e +:+ ".copy" ].

(** A decoded manifest with indentation, one text holding a carriage return
    (written [&#13;] in the file). *)
Definition manifest_doc_with_text : RawElem :=
  RawE "manifest" [("android", Manifest.ANDROID_NS)]
       [("package", "org.example.app"); ("android:versionName", String "013" "1.0")]
       (Some (String "010" "  ")) None
       [ RawE "application" [] [("android:label", "Example")]
              (Some (String "010" "    ")) (Some (String "010" EmptyString))
              [ RawE "meta-data" [] [("android:name", "note")]
                     (Some (String "a" (String "013" "b"))) (Some (String "010" "  ")) [] ] ].

(** The manifest declares the vendor namespace and uses no namespace. *)
Definition before_patch_unused_ns : World :=
  Samples.before_patch Samples.manifest_doc_unused_ns.

(** * Properties *)

(** ** Strings *)

Lemma prefix_cons (a b : ascii) (p s : string) :
  String.prefix (String a p) (String b s) = Ascii.eqb a b && String.prefix p s.
Proof.
  change (String.prefix (String a p) (String b s))
    with (if ascii_dec a b then String.prefix p s else false).
  destruct (ascii_dec a b) as [->|Hne].
  - by rewrite Ascii.eqb_refl.
  - apply Ascii.eqb_neq in Hne. by rewrite Hne.
Qed.

Lemma prefix_contains (c : ascii) (p s : string) :
  String.prefix p s = true → PyStr.contains c p = true → PyStr.contains c s = true.
Proof.
  revert s. induction p as [|a p IH]; intros s Hp Hc; [discriminate|].
  destruct s as [|b s]; [discriminate|].
  rewrite prefix_cons in Hp. apply andb_true_iff in Hp as [Hab Hp].
  apply Ascii.eqb_eq in Hab as ->.
  cbn [PyStr.contains] in *. apply orb_true_iff in Hc as [Hc|Hc].
  - by rewrite Hc.
  - rewrite (IH s Hp Hc). apply orb_true_r.
Qed.

Lemma member_name_not_signature (n : string) :
  PyStr.contains "/" n = false → PyStr.startswith n "META-INF/" = false.
Proof.
  intros Hn. destruct (PyStr.startswith n "META-INF/") eqn:Hp; [|done].
  rewrite (prefix_contains "/" "META-INF/" n Hp) in Hn; done.
Qed.

Lemma classes_not_signature (n : string) :
  PyStr.startswith n "classes" = true → PyStr.startswith n "META-INF/" = false.
Proof.
  unfold PyStr.startswith. destruct n as [|a n]; [done|].
  rewrite !prefix_cons. intros [Ha _]%andb_true_iff.
  apply Ascii.eqb_eq in Ha as <-. done.
Qed.

Lemma classify_ordinary (n : string) :
  classify n = Ordinary ↔
  PyStr.startswith n "META-INF/" = false
  ∧ PyStr.startswith n "classes" && PyStr.endswith n ".dex" = false.
Proof.
  unfold classify.
  destruct (PyStr.startswith n "META-INF/");
    destruct (PyStr.startswith n "classes" && PyStr.endswith n ".dex");
    split; try done; intros [? ?]; done.
Qed.

Lemma classify_bytecode (n : string) :
  PyStr.startswith n "classes" = true → PyStr.endswith n ".dex" = true →
  classify n = PrimaryBytecode.
Proof.
  intros H1 H2. unfold classify.
  by rewrite (classes_not_signature n H1), H1, H2.
Qed.

(** ** Zip containers *)

Lemma getinfo_elem (a : list ZipEntry) (n : string) (e : ZipEntry) :
  zipfile.getinfo a n = Some e → e ∈ a ∧ filename e = n.
Proof.
  induction a as [|x a IH]; simpl; [done|].
  destruct (zipfile.getinfo a n) as [e'|].
  - intros [= ->]. destruct IH as [? ?]; [done|]. split; [by apply elem_of_cons; right|done].
  - destruct (String.eqb_spec (filename x) n); [|done].
    intros [= ->]. split; [by apply elem_of_cons; left|done].
Qed.

Lemma getinfo_member (a : list ZipEntry) (e : ZipEntry) :
  e ∈ a → is_Some (zipfile.getinfo a (filename e)).
Proof.
  induction a as [|x a IH]; intros He; [by apply elem_of_nil in He|].
  simpl. apply elem_of_cons in He as [->|He].
  - destruct (zipfile.getinfo a (filename x)); [done|]. by rewrite String.eqb_refl.
  - destruct (IH He) as [e' ->]. done.
Qed.

(** In an archive with unique paths, reading by name returns the member
    itself. *)
Lemma getinfo_unique (a : list ZipEntry) (e : ZipEntry) :
  well_formed a → e ∈ a → zipfile.getinfo a (filename e) = Some e.
Proof.
  unfold well_formed. induction a as [|x a IH]; intros Hnd He; [by apply elem_of_nil in He|].
  rewrite fmap_cons in Hnd. apply NoDup_cons in Hnd as [Hx Hnd].
  simpl. apply elem_of_cons in He as [->|He].
  - destruct (zipfile.getinfo a (filename x)) as [e'|] eqn:Hg.
    + apply getinfo_elem in Hg as [Hin Hname]. exfalso. apply Hx.
      rewrite <- Hname. by apply list_elem_of_fmap_2.
    + by rewrite String.eqb_refl.
  - by rewrite (IH Hnd He).
Qed.

Lemma reread_unique (a : list ZipEntry) (e : ZipEntry) :
  well_formed a → e ∈ a → reread a e = e.
Proof.
  intros Hwf He. unfold reread, zipfile.read.
  rewrite (getinfo_unique a e Hwf He). by destruct e.
Qed.

(** ** The two loops of [repackage_apk] *)

Lemma copy_entries_spec (current entries buf : list ZipEntry) :
  entries ⊆ current →
  Repackage.copy_entries current entries buf
  = inr (buf ++ (reread current <$> filter (λ e, classify (filename e) = Ordinary) entries)).
Proof.
  revert buf. induction entries as [|e entries IH]; intros buf Hsub.
  - simpl. by rewrite app_nil_r.
  - assert (entries ⊆ current) as Hsub' by (intros x Hx; apply Hsub, elem_of_cons; by right).
    assert (e ∈ current) as He by (apply Hsub, elem_of_cons; by left).
    simpl. destruct (PyStr.startswith (filename e) "META-INF/") eqn:H1.
    { rewrite filter_cons_False; [by apply IH|].
      unfold classify. by rewrite H1. }
    destruct (PyStr.startswith (filename e) "classes" && PyStr.endswith (filename e) ".dex") eqn:H2.
    { rewrite filter_cons_False; [by apply IH|].
      unfold classify. by rewrite H1, H2. }
    rewrite filter_cons_True by (apply classify_ordinary; done).
    destruct (getinfo_member current e He) as [e' He'].
    assert (reread current e = mkEntry (filename e) (data e')) as Hre
      by (unfold reread, zipfile.read; by rewrite He').
    unfold zipfile.read. rewrite He'. simpl.
    rewrite IH by done. unfold zipfile.writestr.
    rewrite Hre, <- app_assoc. done.
Qed.

Lemma add_dex_files (files : list (string * bytes)) (buf : list ZipEntry) :
  Repackage.add_dex (dir_of_files files) buf
  = inr (buf ++ ((λ nf, mkEntry nf.1 nf.2) <$> files)).
Proof.
  revert buf. induction files as [|[n c] files IH]; intros buf; simpl.
  - by rewrite app_nil_r.
  - unfold dir_of_files in IH. rewrite IH. unfold zipfile.writestr. by rewrite <- app_assoc.
Qed.

Lemma add_dex_error (listing : list (string * dirent)) (buf : list ZipEntry) (e : exn) :
  Repackage.add_dex listing buf = inl e → e = IsADirectoryError.
Proof.
  revert buf. induction listing as [|[n [c|]] l IH]; simpl; intros buf; [done|apply IH|].
  by intros [= <-].
Qed.

(** ** [repackage_apk] on readable inputs *)

Lemma repackage_apk_ok (w : World) (src : list ZipEntry) (files : list (string * bytes))
  (props : bytes) :
  repackage_inputs w src files props →
  Repackage.repackage_apk w
  = (set_work (set_target_apk (Some (ZipArchive (kept src ++ injected files props))) (work w)) w,
     inr tt).
Proof.
  intros (Ht & Hd & Hp & Hf).
  unfold Repackage.repackage_apk, try_log, Repackage.write_target.
  unfold mbind, M_bind, get_world, lift, update, raise.
  rewrite Ht, Hd, Hp. simpl Repackage.open_zip. simpl Repackage.listdir.
  simpl Repackage.open_properties. unfold zipfile.infolist.
  rewrite copy_entries_spec by done. rewrite add_dex_files.
  simpl. rewrite Hf. unfold zipfile.writestr, kept, injected.
  rewrite <- app_assoc. done.
Qed.

Lemma kept_ordinary (src : list ZipEntry) (e : ZipEntry) :
  e ∈ kept src → ∃ e0, e0 ∈ src ∧ filename e = filename e0 ∧ classify (filename e0) = Ordinary.
Proof.
  unfold kept. intros (e0 & -> & [Hc He0]%list_elem_of_filter)%list_elem_of_fmap.
  by exists e0.
Qed.

Lemma injected_names (files : list (string * bytes)) (props : bytes) (e : ZipEntry) :
  member_names files → e ∈ injected files props → PyStr.contains "/" (filename e) = false.
Proof.
  intros Hm. unfold injected. rewrite elem_of_app, list_elem_of_fmap, list_elem_of_singleton.
  intros [(nf & -> & Hnf)| ->]; [|done].
  unfold member_names in Hm. rewrite Forall_forall in Hm. by apply Hm.
Qed.

Lemma count_name_app (n : string) (a b : list ZipEntry) :
  count_name n (a ++ b) = count_name n a + count_name n b.
Proof. unfold count_name. by rewrite filter_app, length_app. Qed.

Lemma count_name_absent (n : string) (a : list ZipEntry) :
  (∀ e, e ∈ a → filename e ≠ n) → count_name n a = 0.
Proof.
  unfold count_name. induction a as [|x a IH]; intros Hn; [done|].
  rewrite filter_cons_False by (apply Hn, elem_of_cons; by left).
  apply IH. intros e He. apply Hn, elem_of_cons. by right.
Qed.

(** ** Claims about the Archive Transformer *)

(** C1. For a source archive with unique paths, every ordinary entry (neither
    under [META-INF/] nor a [classes*.dex] name) is an entry of the repackaged
    archive, with the same path and the same byte content. *)
Theorem C1_ordinary_entries_preserved (w : World) (src : list ZipEntry)
  (files : list (string * bytes)) (props : bytes) :
  repackage_inputs w src files props →
  well_formed src →
  ∃ w' out,
    Repackage.repackage_apk w = (w', inr tt)
    ∧ target_apk (work w') = Some (ZipArchive out)
    ∧ ∀ e, e ∈ src → classify (filename e) = Ordinary → e ∈ out.
Proof.
  intros Hin Hwf. eexists _, _. split; [by apply repackage_apk_ok|].
  split; [done|]. intros e He Hc.
  apply elem_of_app. left. unfold kept.
  rewrite <- (reread_unique src e Hwf He).
  apply list_elem_of_fmap_2, list_elem_of_filter. done.
Qed.

Lemma C1_witness :
  repackage_inputs Samples.before_repackage Samples.src Samples.files Samples.props
  ∧ well_formed Samples.src
  ∧ ∃ w' out,
      Repackage.repackage_apk Samples.before_repackage = (w', inr tt)
      ∧ target_apk (work w') = Some (ZipArchive out)
      ∧ ∀ e, e ∈ Samples.src → classify (filename e) = Ordinary → e ∈ out.
Proof.
  assert (repackage_inputs Samples.before_repackage Samples.src Samples.files Samples.props)
    as Hin by (repeat split; reflexivity).
  assert (well_formed Samples.src) as Hwf
    by (apply (bool_decide_unpack _); vm_compute; exact I).
  split; [exact Hin|]. split; [exact Hwf|].
  exact (C1_ordinary_entries_preserved _ _ _ _ Hin Hwf).
Defined.

(** C2. The repackaged archive has no entry whose path starts with
    [META-INF/], and the part of it that comes from the source archive has
    no entry whose path starts with [classes] and ends with [.dex]: what
    follows that part is exactly the injected entries. *)
Theorem C2_signature_and_bytecode_excluded (w : World) (src : list ZipEntry)
  (files : list (string * bytes)) (props : bytes) :
  repackage_inputs w src files props →
  member_names files →
  ∃ w' copied,
    Repackage.repackage_apk w = (w', inr tt)
    ∧ target_apk (work w') = Some (ZipArchive (copied ++ injected files props))
    ∧ (∀ e, e ∈ copied ++ injected files props →
            PyStr.startswith (filename e) "META-INF/" = false)
    ∧ (∀ e, e ∈ copied →
            PyStr.startswith (filename e) "classes" && PyStr.endswith (filename e) ".dex" = false).
Proof.
  intros Hin Hm. exists (set_work (set_target_apk
    (Some (ZipArchive (kept src ++ injected files props))) (work w)) w), (kept src).
  split; [by apply repackage_apk_ok|]. split; [done|]. split.
  - intros e [He|He]%elem_of_app.
    + apply kept_ordinary in He as (e0 & _ & -> & Hc). by apply classify_ordinary in Hc as [? _].
    + by apply member_name_not_signature, (injected_names files props).
  - intros e He. apply kept_ordinary in He as (e0 & _ & -> & Hc).
    by apply classify_ordinary in Hc as [_ ?].
Qed.

Lemma C2_witness :
  repackage_inputs Samples.before_repackage Samples.src Samples.files Samples.props
  ∧ member_names Samples.files
  ∧ ∃ w' copied,
      Repackage.repackage_apk Samples.before_repackage = (w', inr tt)
      ∧ target_apk (work w')
        = Some (ZipArchive (copied ++ injected Samples.files Samples.props))
      ∧ (∀ e, e ∈ copied ++ injected Samples.files Samples.props →
              PyStr.startswith (filename e) "META-INF/" = false)
      ∧ (∀ e, e ∈ copied →
              PyStr.startswith (filename e) "classes"
              && PyStr.endswith (filename e) ".dex" = false).
Proof.
  assert (repackage_inputs Samples.before_repackage Samples.src Samples.files Samples.props)
    as Hin by (repeat split; reflexivity).
  assert (member_names Samples.files) as Hm by (repeat constructor).
  split; [exact Hin|]. split; [exact Hm|].
  exact (C2_signature_and_bytecode_excluded _ _ _ _ Hin Hm).
Defined.

(** C3, as stated, fails: a package that already has an ordinary member
    named [jacoco-agent.properties] keeps it, and the repackaged archive then
    has two entries of that name. *)
Lemma C3_counterexample :
  ∃ w' out,
    Repackage.repackage_apk Samples.before_repackage_with_properties = (w', inr tt)
    ∧ target_apk (work w') = Some (ZipArchive out)
    ∧ count_name "jacoco-agent.properties" out = 2.
Proof. eexists _, _. vm_compute. done. Qed.

(** C3, amended. Every file of the replacement directory is an entry of the
    output archive, named by its file name (a name without [/]) and holding
    its content; these entries and then the properties entry follow the
    entries copied from the source archive, so the properties entry is
    written once, as the last entry; it is the only entry of that name when
    no source entry and no replacement file is named
    [jacoco-agent.properties]. *)
Theorem C3_injection (w : World) (src : list ZipEntry)
  (files : list (string * bytes)) (props : bytes) :
  repackage_inputs w src files props →
  member_names files →
  ∃ w' copied out,
    Repackage.repackage_apk w = (w', inr tt)
    ∧ target_apk (work w') = Some (ZipArchive out)
    ∧ out = copied ++ ((λ nf, mkEntry nf.1 nf.2) <$> files)
                   ++ [mkEntry "jacoco-agent.properties" props]
    ∧ (∀ e, e ∈ copied → ∃ e0, e0 ∈ src ∧ filename e = filename e0)
    ∧ (∀ n c, (n, c) ∈ files → mkEntry n c ∈ out ∧ PyStr.contains "/" n = false)
    ∧ ((∀ e, e ∈ src → filename e ≠ "jacoco-agent.properties") →
       (∀ nf, nf ∈ files → nf.1 ≠ "jacoco-agent.properties") →
       count_name "jacoco-agent.properties" out = 1).
Proof.
  intros Hin Hm. eexists _, (kept src), _.
  split; [by apply repackage_apk_ok|]. split; [done|]. split; [done|].
  split; [|split].
  - intros e (e0 & ? & ? & _)%kept_ordinary. by exists e0.
  - intros n c Hnc. split.
    + apply elem_of_app. right. apply elem_of_app. left.
      by apply (list_elem_of_fmap_2 (λ nf, mkEntry nf.1 nf.2) files (n, c)).
    + unfold member_names in Hm. rewrite Forall_forall in Hm. by apply (Hm (n, c)).
  - intros Hsrc Hfiles. unfold injected. rewrite !count_name_app.
    rewrite (count_name_absent _ (kept src)).
    2:{ intros e (e0 & He0 & -> & _)%kept_ordinary. by apply Hsrc. }
    rewrite (count_name_absent _ (_ <$> files)).
    2:{ intros e (nf & -> & Hnf)%list_elem_of_fmap. by apply Hfiles. }
    done.
Qed.

Lemma C3_witness :
  repackage_inputs Samples.before_repackage Samples.src Samples.files Samples.props
  ∧ member_names Samples.files
  ∧ ∃ w' copied out,
      Repackage.repackage_apk Samples.before_repackage = (w', inr tt)
      ∧ target_apk (work w') = Some (ZipArchive out)
      ∧ out = copied ++ ((λ nf, mkEntry nf.1 nf.2) <$> Samples.files)
                     ++ [mkEntry "jacoco-agent.properties" Samples.props]
      ∧ (∀ e, e ∈ copied → ∃ e0, e0 ∈ Samples.src ∧ filename e = filename e0)
      ∧ (∀ n c, (n, c) ∈ Samples.files →
                mkEntry n c ∈ out ∧ PyStr.contains "/" n = false)
      ∧ ((∀ e, e ∈ Samples.src → filename e ≠ "jacoco-agent.properties") →
         (∀ nf, nf ∈ Samples.files → nf.1 ≠ "jacoco-agent.properties") →
         count_name "jacoco-agent.properties" out = 1).
Proof.
  assert (repackage_inputs Samples.before_repackage Samples.src Samples.files Samples.props)
    as Hin by (repeat split; reflexivity).
  assert (member_names Samples.files) as Hm by (repeat constructor).
  split; [exact Hin|]. split; [exact Hm|].
  exact (C3_injection _ _ _ _ Hin Hm).
Defined.

(** The write is the last action of [repackage_apk]: whenever the file at
    the target path differs afterwards, the source archive, the replacement
    directory and the properties file had all been read and the buffer held
    every entry. *)
Lemma repackage_buffer_complete_before_write (w w' : World) (r : exn + unit) :
  Repackage.repackage_apk w = (w', r) →
  target_apk (work w') ≠ target_apk (work w) →
  ∃ src listing props buf,
    target_apk (work w) = Some (ZipArchive src)
    ∧ dex_dir (work w) = Some listing
    ∧ properties_template (env w) = Some props
    ∧ Repackage.add_dex listing (kept src) = inr buf
    ∧ (target_apk (work w')
       = Some (ZipArchive (buf ++ [mkEntry "jacoco-agent.properties" props]))
       ∨ (r = inl OSError ∧ target_apk (work w') = Some (NotZip []))).
Proof.
  unfold Repackage.repackage_apk, try_log, Repackage.write_target.
  unfold mbind, M_bind, get_world, lift, update, raise.
  destruct (target_apk (work w)) as [[src|raw]|] eqn:Ht; simpl;
    try (intros [= <- <-]; simpl; congruence).
  unfold zipfile.infolist. rewrite copy_entries_spec by done. rewrite app_nil_l.
  destruct (dex_dir (work w)) as [listing|] eqn:Hd; simpl;
    try (intros [= <- <-]; simpl; congruence).
  fold (kept src).
  destruct (Repackage.add_dex listing (kept src)) as [e|buf] eqn:Hb;
    try (intros [= <- <-]; simpl; congruence).
  destruct (properties_template (env w)) as [props|] eqn:Hp; simpl;
    try (intros [= <- <-]; simpl; congruence).
  destruct (disk_full (env w)); intros [= <- <-]; simpl; intros _;
    exists src, listing, props, buf; repeat split; auto.
Qed.

(** C9. When the working copy is missing or is not a zip container, or the
    replacement directory is absent, or the properties file is absent,
    [repackage_apk] raises and the working directory, hence the file at the
    target path, is as it was. *)
Theorem C9_failure_before_write_leaves_target (w : World) :
  target_apk (work w) = None
  ∨ (∃ raw, target_apk (work w) = Some (NotZip raw))
  ∨ dex_dir (work w) = None
  ∨ properties_template (env w) = None →
  ∃ e w',
    Repackage.repackage_apk w = (w', inl e)
    ∧ work w' = work w
    ∧ target_apk (work w') = target_apk (work w)
    ∧ e ≠ OSError.
Proof.
  intros Hcause.
  unfold Repackage.repackage_apk, try_log, Repackage.write_target.
  unfold mbind, M_bind, get_world, lift, update, raise.
  destruct (target_apk (work w)) as [[src|raw]|] eqn:Ht; simpl;
    try (eexists _, _; repeat split; done).
  unfold zipfile.infolist. rewrite copy_entries_spec by done.
  destruct (dex_dir (work w)) as [listing|] eqn:Hd; simpl;
    try (eexists _, _; repeat split; done).
  destruct (Repackage.add_dex listing _) as [e|buf] eqn:Hb.
  { eexists _, _; repeat split; try done.
    by rewrite (add_dex_error _ _ _ Hb). }
  destruct (properties_template (env w)) as [props|] eqn:Hp; simpl;
    try (eexists _, _; repeat split; done).
  destruct Hcause as [?|[[? ?]|[?|?]]]; done.
Qed.

Lemma C9_witness :
  (target_apk (work Samples.before_repackage_not_zip) = None
   ∨ (∃ raw, target_apk (work Samples.before_repackage_not_zip) = Some (NotZip raw))
   ∨ dex_dir (work Samples.before_repackage_not_zip) = None
   ∨ properties_template (env Samples.before_repackage_not_zip) = None)
  ∧ ∃ e w',
      Repackage.repackage_apk Samples.before_repackage_not_zip = (w', inl e)
      ∧ work w' = work Samples.before_repackage_not_zip
      ∧ target_apk (work w') = target_apk (work Samples.before_repackage_not_zip)
      ∧ e ≠ OSError.
Proof.
  assert (target_apk (work Samples.before_repackage_not_zip) = None
          ∨ (∃ raw, target_apk (work Samples.before_repackage_not_zip) = Some (NotZip raw))
          ∨ dex_dir (work Samples.before_repackage_not_zip) = None
          ∨ properties_template (env Samples.before_repackage_not_zip) = None) as Hc
    by (right; left; eexists; reflexivity).
  split; [exact Hc|].
  exact (C9_failure_before_write_leaves_target _ Hc).
Defined.

(** C10. The bytecode test looks at the whole path: a source entry whose
    path starts with [classes] and ends with [.dex] is classified as primary
    bytecode (such a path cannot start with [META-INF/]) and is not copied;
    when the path has a directory part, as [classes_extra/helper.dex] has,
    no entry of the repackaged archive bears it. *)
Theorem C10_bytecode_test_on_full_path (w : World) (src : list ZipEntry)
  (files : list (string * bytes)) (props : bytes) (e : ZipEntry) :
  repackage_inputs w src files props →
  member_names files →
  e ∈ src →
  PyStr.startswith (filename e) "classes" = true →
  PyStr.endswith (filename e) ".dex" = true →
  classify (filename e) = PrimaryBytecode
  ∧ PyStr.startswith (filename e) "META-INF/" = false
  ∧ ∃ w' copied,
      Repackage.repackage_apk w = (w', inr tt)
      ∧ target_apk (work w') = Some (ZipArchive (copied ++ injected files props))
      ∧ (∀ e', e' ∈ copied → filename e' ≠ filename e)
      ∧ (PyStr.contains "/" (filename e) = true →
         ∀ e', e' ∈ copied ++ injected files props → filename e' ≠ filename e).
Proof.
  intros Hin Hm He H1 H2.
  pose proof (classify_bytecode _ H1 H2) as Hc.
  split; [done|]. split; [by apply classes_not_signature|].
  assert (∀ e', e' ∈ kept src → filename e' ≠ filename e) as Hkept.
  { intros e' (e0 & _ & -> & Hc0)%kept_ordinary Heq. congruence. }
  eexists _, (kept src). split; [by apply repackage_apk_ok|]. split; [done|].
  split; [done|]. intros Hslash e' [He'|He']%elem_of_app; [by apply Hkept|].
  intros Heq. apply (injected_names files props e' Hm) in He'. congruence.
Qed.

Lemma C10_witness :
  repackage_inputs Samples.before_repackage Samples.src Samples.files Samples.props
  ∧ member_names Samples.files
  ∧ mkEntry "classes_extra/helper.dex" (Samples.b "helper") ∈ Samples.src
  ∧ classify "classes_extra/helper.dex" = PrimaryBytecode
  ∧ PyStr.startswith "classes_extra/helper.dex" "META-INF/" = false
  ∧ ∃ w' copied,
      Repackage.repackage_apk Samples.before_repackage = (w', inr tt)
      ∧ target_apk (work w')
        = Some (ZipArchive (copied ++ injected Samples.files Samples.props))
      ∧ (∀ e', e' ∈ copied → filename e' ≠ "classes_extra/helper.dex")
      ∧ (PyStr.contains "/" "classes_extra/helper.dex" = true →
         ∀ e', e' ∈ copied ++ injected Samples.files Samples.props →
               filename e' ≠ "classes_extra/helper.dex").
Proof.
  assert (repackage_inputs Samples.before_repackage Samples.src Samples.files Samples.props)
    as Hin by (repeat split; reflexivity).
  assert (member_names Samples.files) as Hm by (repeat constructor).
  assert (mkEntry "classes_extra/helper.dex" (Samples.b "helper") ∈ Samples.src) as He
    by (apply list_elem_of_In; do 4 right; left; reflexivity).
  split; [exact Hin|]. split; [exact Hm|]. split; [exact He|].
  exact (C10_bytecode_test_on_full_path _ _ _ _ _ Hin Hm He eq_refl eq_refl).
Defined.

(** ** Element trees *)

Lemma Element_nested_ind (P : ET.Element → Prop) :
  (∀ t a x y cs, Forall P cs → P (ET.Elem t a x y cs)) → ∀ e, P e.
Proof.
  intros step. fix IH 1. intros [t a x y cs]. apply step.
  revert cs. fix IHcs 1. intros [|c cs].
  - apply List.Forall_nil.
  - apply List.Forall_cons; [apply IH|apply IHcs].
Qed.

Lemma name_eqb_eq (a b : ET.name) : ET.name_eqb a b = true ↔ a = b.
Proof.
  destruct a as [u l|s], b as [u' l'|s']; simpl;
    rewrite ?andb_true_iff, ?String.eqb_eq; split; try done.
  - by intros [-> ->].
  - by intros [= -> ->].
  - by intros ->.
  - by intros [= ->].
Qed.

Lemma children_with_children (e : ET.Element) (c : list ET.Element) :
  ET.children_of (ET.with_children e c) = c.
Proof. by destruct e. Qed.

Lemma with_children_twice (e : ET.Element) (c c' : list ET.Element) :
  ET.with_children (ET.with_children e c) c' = ET.with_children e c'.
Proof. by destruct e. Qed.

(** Mutation below child [i] of a node whose child [i] was just replaced. *)
Lemma modify_under (root : ET.Element) (i : nat) (a : ET.Element) (q : ET.ref)
  (f : ET.Element → ET.Element) :
  i < length (ET.children_of root) →
  ET.modify (i :: q) f (ET.with_children root (<[i := a]> (ET.children_of root)))
  = ET.with_children root (<[i := ET.modify q f a]> (ET.children_of root)).
Proof.
  intros Hi. simpl. rewrite children_with_children, list_lookup_insert_eq by done.
  by rewrite with_children_twice, list_insert_insert_eq.
Qed.

Lemma get_under (root : ET.Element) (i : nat) (a : ET.Element) (q : ET.ref) :
  i < length (ET.children_of root) →
  ET.get (i :: q) (ET.with_children root (<[i := a]> (ET.children_of root))) = ET.get q a.
Proof.
  intros Hi. simpl. by rewrite children_with_children, list_lookup_insert_eq.
Qed.

(** Mutation below the child that was just appended. *)
Lemma modify_appended (e r : ET.Element) (q : ET.ref) (f : ET.Element → ET.Element) :
  ET.modify (length (ET.children_of e) :: q) f (ET.with_children e (ET.children_of e ++ [r]))
  = ET.with_children e (ET.children_of e ++ [ET.modify q f r]).
Proof.
  simpl. rewrite children_with_children, list_lookup_middle by done.
  rewrite with_children_twice. f_equal.
  rewrite <- (Nat.add_0_r (length (ET.children_of e))). by rewrite insert_app_r.
Qed.

Lemma get_appended (e r : ET.Element) (q : ET.ref) :
  ET.get (length (ET.children_of e) :: q) (ET.with_children e (ET.children_of e ++ [r]))
  = ET.get q r.
Proof. simpl. by rewrite children_with_children, list_lookup_middle. Qed.

Lemma index_of_tag_Some (t : ET.name) (cs : list ET.Element) (i : nat) :
  ET.index_of_tag t cs = Some i →
  ∃ c, cs !! i = Some c ∧ ET.tag_of c = t
       ∧ ∀ j c', j < i → cs !! j = Some c' → ET.tag_of c' ≠ t.
Proof.
  revert i. induction cs as [|c cs IH]; intros i; simpl; [done|].
  destruct (ET.name_eqb (ET.tag_of c) t) eqn:Hc.
  - intros [= <-]. exists c. split; [done|]. split; [by apply name_eqb_eq|]. intros; lia.
  - destruct (ET.index_of_tag t cs) as [k|]; [|done]. simpl. intros [= <-].
    destruct (IH k eq_refl) as (c0 & Hk & Ht & Hfirst). exists c0.
    split; [done|]. split; [done|]. intros [|j] c' Hj Hl.
    + simpl in Hl. injection Hl as <-. intros Heq. apply name_eqb_eq in Heq. congruence.
    + simpl in Hl. apply (Hfirst j); [lia|done].
Qed.

Lemma index_of_tag_None (t : ET.name) (cs : list ET.Element) :
  ET.index_of_tag t cs = None ↔ ∀ c, c ∈ cs → ET.tag_of c ≠ t.
Proof.
  induction cs as [|c cs IH]; simpl.
  - split; [|done]. intros _ c Hc. by apply elem_of_nil in Hc.
  - destruct (ET.name_eqb (ET.tag_of c) t) eqn:Hc.
    + apply name_eqb_eq in Hc. split; [done|]. intros H. exfalso.
      apply (H c); [by apply elem_of_cons; left|done].
    + destruct (ET.index_of_tag t cs) as [k|]; simpl.
      * split; [done|]. intros H. assert (Some k = None) as Hk; [|done].
        apply IH. intros c' Hc'. apply H, elem_of_cons. by right.
      * split; [|done]. intros _ c' [->|Hc']%elem_of_cons.
        -- intros Heq. apply name_eqb_eq in Heq. congruence.
        -- by apply IH.
Qed.

Lemma has_application_index (root : ET.Element) :
  has_application root →
  ∃ i app, ET.index_of_tag (ET.Plain "application") (ET.children_of root) = Some i
           ∧ ET.children_of root !! i = Some app
           ∧ ET.tag_of app = ET.Plain "application".
Proof.
  intros (c & Hc & Ht).
  destruct (ET.index_of_tag (ET.Plain "application") (ET.children_of root)) as [i|] eqn:Hi.
  - destruct (index_of_tag_Some _ _ _ Hi) as (app & ? & ? & _). by exists i, app.
  - exfalso. by apply (proj1 (index_of_tag_None _ _) Hi c).
Qed.

(** ** The patch on the tree *)

Lemma SubElement_Some (root : ET.Element) (p : ET.ref) (t : string) (pe : ET.Element) :
  ET.get p root = Some pe →
  ET.SubElement root (Some p) t
  = inr (ET.modify p (λ e, ET.with_children e
                             (ET.children_of e ++ [ET.Elem (ET.Plain t) [] None None []])) root,
         p ++ [length (ET.children_of pe)]).
Proof. intros Hp. unfold ET.SubElement. by rewrite Hp. Qed.

Lemma modify_child (root : ET.Element) (i : nat) (c : ET.Element) (q : ET.ref)
  (f : ET.Element → ET.Element) :
  ET.children_of root !! i = Some c →
  ET.modify (i :: q) f root
  = ET.with_children root (<[i := ET.modify q f c]> (ET.children_of root)).
Proof. intros Hc. simpl. by rewrite Hc. Qed.

Lemma modify_nil (f : ET.Element → ET.Element) (e : ET.Element) : ET.modify [] f e = f e.
Proof. done. Qed.

Lemma get_nil (e : ET.Element) : ET.get [] e = Some e.
Proof. done. Qed.

(** Push a mutation, or a lookup, down the path it names. *)
Ltac tree_step :=
  repeat first [ rewrite modify_nil
               | rewrite modify_under by done
               | rewrite modify_appended ].
Ltac tree_get :=
  repeat first [ rewrite get_nil
               | rewrite get_under by done
               | rewrite get_appended ].

Lemma patch_tree_patched (root : ET.Element) (i : nat) (a0 : ET.Element) :
  ET.index_of_tag (ET.Plain "application") (ET.children_of root) = Some i →
  ET.children_of root !! i = Some a0 →
  Manifest.patch_tree root = inr (patched root i a0).
Proof.
  intros Hidx Happ.
  assert (i < length (ET.children_of root)) as Hi by (by eapply lookup_lt_Some).
  unfold Manifest.patch_tree, ET.find_child. rewrite Hidx. simpl fmap.
  rewrite (SubElement_Some root [i] "receiver" a0) by (simpl; by rewrite Happ).
  rewrite (modify_child root i a0 []) by done.
  cbn [mbind result_bind mret result_ret app].
  unfold ET.set. tree_step.
  erewrite SubElement_Some by (tree_get; reflexivity).
  cbn [mbind result_bind mret result_ret app]. tree_step.
  erewrite SubElement_Some by (tree_get; reflexivity).
  cbn [mbind result_bind mret result_ret app]. tree_step.
  reflexivity.
Qed.

(** ** The prefix registry *)

Lemma register_android (m : list (string * string)) :
  ET.register_namespace "android" Manifest.ANDROID_NS m = inr (android_registry m).
Proof. done. Qed.

Lemma android_registry_get (m : list (string * string)) :
  ET.dict_get Manifest.ANDROID_NS (android_registry m) = Some "android".
Proof.
  unfold android_registry. induction m as [|[k v] m IH]; [done|].
  rewrite filter_cons. destruct (decide _) as [Hkeep|]; [|done].
  cbn [app ET.dict_get]. simpl in Hkeep.
  destruct (String.eqb k Manifest.ANDROID_NS); [done|]. done.
Qed.

Lemma android_registry_only (m : list (string * string)) (u : string) :
  ET.dict_get u (android_registry m) = Some "android" → u = Manifest.ANDROID_NS.
Proof.
  unfold android_registry. induction m as [|[k v] m IH].
  - rewrite filter_nil. cbn [app ET.dict_get].
    destruct (String.eqb_spec Manifest.ANDROID_NS u) as [<-|]; done.
  - rewrite filter_cons. destruct (decide _) as [Hkeep|]; [|done].
    cbn [app ET.dict_get]. simpl in Hkeep.
    destruct (String.eqb k u); [|done]. intros [= ->].
    rewrite orb_true_r in Hkeep. done.
Qed.

Lemma auto_prefix_not_android (n : nat) : ET.auto_prefix n ≠ "android".
Proof. done. Qed.

(** ** The namespace table built by [_namespaces] *)

Lemma dict_get_elem (k v : string) (d : list (string * string)) :
  ET.dict_get k d = Some v → (k, v) ∈ d.
Proof.
  induction d as [|[k' v'] d IH]; simpl; [done|].
  destruct (String.eqb_spec k' k) as [->|].
  - intros [= ->]. apply elem_of_cons. by left.
  - intros H. apply elem_of_cons. right. by apply IH.
Qed.

Lemma qnames_get_snoc (q k : ET.name) (v : string) (d : list (ET.name * string)) :
  ET.qnames_get q (d ++ [(k, v)])
  = match ET.qnames_get q d with
    | Some s => Some s
    | None => if ET.name_eqb k q then Some v else None
    end.
Proof.
  induction d as [|[k' v'] d IH]; simpl; [done|].
  by destruct (ET.name_eqb k' q).
Qed.

Lemma add_qname_inv (m : list (string * string)) (st : ET.ns_state) (q : ET.name) :
  ns_inv st → ns_inv (ET.add_qname (android_registry m) st q).
Proof.
  intros [Hns Hq]. destruct q as [u t|s0]; simpl.
  - destruct (ET.dict_get u (ET.namespaces st)) as [p|] eqn:Hu.
    + split; [done|]. cbn [ET.qnames ET.namespaces]. intros l s. rewrite qnames_get_snoc.
      destruct (ET.qnames_get _ (ET.qnames st)) eqn:Hl; [intros [= <-]; by apply Hq|].
      simpl. destruct (String.eqb_spec u Manifest.ANDROID_NS) as [->|]; [|done].
      destruct (String.eqb_spec t l) as [->|]; [|done]. simpl.
      apply dict_get_elem in Hu. pose proof (proj1 (Hns _ _ Hu) eq_refl) as ->.
      intros [= <-]. done.
    + destruct (decide (u = Manifest.ANDROID_NS)) as [->|Hne].
      * rewrite android_registry_get. simpl. split; cbn [ET.qnames ET.namespaces].
        -- intros u p [Hin|[= -> ->]%list_elem_of_singleton]%elem_of_app; [by apply Hns|done].
        -- intros l s. rewrite qnames_get_snoc.
           destruct (ET.qnames_get _ (ET.qnames st)) eqn:Hl.
           ++ intros [= <-]. destruct (Hq _ _ Hl) as [? ?]. split; [done|].
              apply elem_of_app. by left.
           ++ simpl. destruct (String.eqb_spec t l) as [->|]; [|done].
              rewrite ?String.eqb_refl. simpl. intros [= <-]. split; [done|].
              apply elem_of_app. right. by apply list_elem_of_singleton.
      * set (prefix := match ET.dict_get u (android_registry m) with
                       | Some p => p
                       | None => ET.auto_prefix (length (ET.namespaces st))
                       end).
        assert (prefix ≠ "android") as Hp.
        { unfold prefix. destruct (ET.dict_get u (android_registry m)) eqn:Hr.
          - intros ->. by apply android_registry_only in Hr.
          - apply auto_prefix_not_android. }
        assert (∀ l s, ET.qnames_get (ET.Clark Manifest.ANDROID_NS l)
                         (ET.qnames st ++ [(ET.Clark u t,
                            if String.eqb prefix "" then t else prefix +:+ ":" +:+ t)])
                       = Some s →
                       ET.qnames_get (ET.Clark Manifest.ANDROID_NS l) (ET.qnames st) = Some s)
          as Hsame.
        { intros l s. rewrite qnames_get_snoc.
          destruct (ET.qnames_get _ (ET.qnames st)); [done|]. simpl.
          destruct (String.eqb_spec u Manifest.ANDROID_NS); done. }
        destruct (String.eqb prefix "xml"); simpl; split; cbn [ET.qnames ET.namespaces].
        -- done.
        -- intros l s Hl. by apply Hq, Hsame.
        -- intros u' p' [Hin|[= -> ->]%list_elem_of_singleton]%elem_of_app; [by apply Hns|done].
        -- intros l s Hl. destruct (Hq _ _ (Hsame _ _ Hl)) as [? ?]. split; [done|].
           apply elem_of_app. by left.
  - split; [done|]. cbn [ET.qnames ET.namespaces]. intros l s. rewrite qnames_get_snoc.
    destruct (ET.qnames_get _ (ET.qnames st)) eqn:Hl; [intros [= <-]; by apply Hq|done].
Qed.

Lemma visit_inv (m : list (string * string)) (st : ET.ns_state) (q : ET.name) :
  ns_inv st → ns_inv (ET.visit (android_registry m) st q).
Proof.
  intros Hinv. unfold ET.visit.
  destruct (ET.qnames_get q (ET.qnames st)) eqn:Hq; [done|]. by apply add_qname_inv.
Qed.

Lemma qnames_add_qname (r : list (string * string)) (st : ET.ns_state) (q : ET.name) :
  ∃ s, ET.qnames (ET.add_qname r st q) = ET.qnames st ++ [(q, s)].
Proof.
  destruct q as [u t|s0]; simpl; [|by eexists].
  destruct (ET.dict_get u (ET.namespaces st)); [by eexists|].
  by eexists.
Qed.

Lemma visit_covers (r : list (string * string)) (st : ET.ns_state) (q : ET.name) :
  is_Some (ET.qnames_get q (ET.qnames (ET.visit r st q))).
Proof.
  unfold ET.visit. destruct (ET.qnames_get q (ET.qnames st)) eqn:Hq; [by rewrite Hq|].
  destruct (qnames_add_qname r st q) as [s ->]. rewrite qnames_get_snoc, Hq.
  assert (ET.name_eqb q q = true) as -> by (by apply name_eqb_eq). done.
Qed.

Lemma visit_keeps (r : list (string * string)) (st : ET.ns_state) (q q' : ET.name) :
  is_Some (ET.qnames_get q (ET.qnames st)) →
  is_Some (ET.qnames_get q (ET.qnames (ET.visit r st q'))).
Proof.
  intros [s Hs]. unfold ET.visit. destruct (ET.qnames_get q' (ET.qnames st)); [by rewrite Hs|].
  destruct (qnames_add_qname r st q') as [s' ->]. by rewrite qnames_get_snoc, Hs.
Qed.

Lemma fold_visit_inv (m : list (string * string)) (l : list ET.name) (st : ET.ns_state) :
  ns_inv st → ns_inv (fold_left (ET.visit (android_registry m)) l st).
Proof.
  revert st. induction l as [|q l IH]; intros st Hinv; [done|].
  simpl. by apply IH, visit_inv.
Qed.

Lemma fold_visit_covers (r : list (string * string)) (l : list ET.name) (st : ET.ns_state)
  (q : ET.name) :
  In q l ∨ is_Some (ET.qnames_get q (ET.qnames st)) →
  is_Some (ET.qnames_get q (ET.qnames (fold_left (ET.visit r) l st))).
Proof.
  revert st. induction l as [|q' l IH]; intros st; simpl.
  - by intros [[]|?].
  - intros [[->|Hin]|Hst]; apply IH.
    + right. apply visit_covers.
    + by left.
    + right. by apply visit_keeps.
Qed.

Lemma ns_inv_empty : ns_inv (ET.mkNs [] []).
Proof. split; [by intros u p ?%elem_of_nil|done]. Qed.

(** ** Names of a tree *)

Lemma flat_map_flat_map {A B C} (f : B → list C) (g : A → list B) (l : list A) :
  flat_map f (flat_map g l) = flat_map (λ x, flat_map f (g x)) l.
Proof.
  induction l as [|x l IH]; [done|]. simpl. by rewrite flat_map_app, IH.
Qed.

Lemma all_names_Elem t a x y cs :
  ET.all_names (ET.Elem t a x y cs) = (t :: map fst a) ++ flat_map ET.all_names cs.
Proof.
  unfold ET.all_names at 1. cbn [ET.iter flat_map].
  by rewrite flat_map_flat_map.
Qed.

Lemma all_names_with_children (e : ET.Element) (cs : list ET.Element) :
  ET.all_names (ET.with_children e cs) = ET.names_of e ++ flat_map ET.all_names cs.
Proof. destruct e. simpl ET.with_children. by rewrite all_names_Elem. Qed.

Lemma all_names_children (e : ET.Element) :
  ET.all_names e = ET.names_of e ++ flat_map ET.all_names (ET.children_of e).
Proof. destruct e. by rewrite all_names_Elem. Qed.

Lemma flat_map_insert_incl {A B} (f : A → list B) (l : list A) (i : nat) (c c' : A) (x : B) :
  l !! i = Some c →
  (In x (f c) → In x (f c')) →
  In x (flat_map f l) → In x (flat_map f (<[i := c']> l)).
Proof.
  intros Hi Hc (d & Hd & Hx)%in_flat_map. apply in_flat_map.
  apply list_elem_of_In, list_elem_of_lookup in Hd as [j Hj].
  destruct (decide (i = j)) as [<-|Hne].
  - exists c'. split.
    + apply list_elem_of_In, list_elem_of_lookup. exists i.
      apply list_lookup_insert_eq. by eapply lookup_lt_Some.
    + apply Hc. congruence.
  - exists d. split; [|done].
    apply list_elem_of_In, list_elem_of_lookup. exists j.
    by rewrite list_lookup_insert_ne.
Qed.

Lemma patched_names (root : ET.Element) (i : nat) (a0 : ET.Element) (q : ET.name) :
  ET.children_of root !! i = Some a0 →
  In q (ET.all_names root) → In q (ET.all_names (patched root i a0)).
Proof.
  intros Hi. unfold patched. rewrite all_names_with_children, (all_names_children root).
  rewrite !in_app_iff. intros [?|Hq]; [by left|]. right.
  apply (flat_map_insert_incl _ _ _ a0); [done| |done].
  rewrite all_names_with_children, (all_names_children a0), flat_map_app, !in_app_iff.
  tauto.
Qed.

(** ** Serialisation never misses a name *)

Lemma encode_attrs_ok (st : ET.ns_state) (a : list (ET.name * string)) :
  (∀ k, In k (map fst a) → is_Some (ET.qnames_get k (ET.qnames st))) →
  ∃ a', ET.encode_attrs st a = inr a'.
Proof.
  induction a as [|[k v] a IH]; intros Hcov; simpl; [by eexists|].
  unfold ET.encoded. destruct (Hcov k) as [s ->]; [by left|].
  destruct IH as [a' ->]; [|by eexists]. intros k' Hk'. apply Hcov. by right.
Qed.

Lemma serialize_ok (st : ET.ns_state) (e : ET.Element) :
  ∀ decls,
    (∀ q, In q (ET.all_names e) → is_Some (ET.qnames_get q (ET.qnames st))) →
    ∃ raw, ET.serialize st decls e = inr raw ∧ raw_decls raw = decls.
Proof.
  induction e as [t a x y cs IH] using Element_nested_ind. intros decls Hcov.
  rewrite all_names_Elem in Hcov. cbn [ET.serialize]. unfold ET.encoded at 1.
  destruct (Hcov t) as [t' ->]; [by left|].
  destruct (encode_attrs_ok st a) as [a' ->].
  { intros k Hk. apply Hcov. right. apply in_app_iff. by left. }
  assert (∀ q, In q (flat_map ET.all_names cs) → is_Some (ET.qnames_get q (ET.qnames st)))
    as Hcs by (intros q Hq; apply Hcov; right; apply in_app_iff; by right).
  clear Hcov.
  induction IH as [|c cs Hc _ IHcs]; [by eexists|].
  destruct (Hc []) as (c' & -> & _).
  { intros q Hq. apply Hcs. simpl. apply in_app_iff. by left. }
  destruct IHcs as (raw & Hraw & Hd).
  { intros q Hq. apply Hcs. simpl. apply in_app_iff. by right. }
  destruct ((fix serialize_all (l : list ET.Element) : exn + list RawElem := _) cs)
    as [err|cs'] eqn:Hall; [done|].
  by eexists.
Qed.

Lemma tostring_ok (r : list (string * string)) (root : ET.Element) :
  ∃ raw, ET.tostring r root = inr raw
         ∧ raw_decls raw = ET.declarations (ET._namespaces r root).
Proof.
  unfold ET.tostring. apply serialize_ok. intros q Hq.
  unfold ET._namespaces. apply fold_visit_covers. by left.
Qed.

(** ** The sorted declarations *)

Lemma elem_of_insert_by_prefix (x y : string * string) (l : list (string * string)) :
  x ∈ ET.insert_by_prefix y l ↔ x = y ∨ x ∈ l.
Proof.
  induction l as [|z l IH]; simpl.
  - rewrite list_elem_of_singleton, elem_of_nil. tauto.
  - destruct (String.ltb y.2 z.2); rewrite !elem_of_cons; [done|]. rewrite IH. tauto.
Qed.

Lemma elem_of_sorted_by_prefix (x : string * string) (l : list (string * string)) :
  x ∈ ET.sorted_by_prefix l ↔ x ∈ l.
Proof.
  unfold ET.sorted_by_prefix.
  assert (∀ acc, x ∈ fold_left (λ acc y, ET.insert_by_prefix y acc) l acc ↔ x ∈ l ∨ x ∈ acc)
    as Hgen.
  { induction l as [|y l IH]; intros acc; simpl.
    - rewrite elem_of_nil. tauto.
    - rewrite IH, elem_of_insert_by_prefix, elem_of_cons. tauto. }
  rewrite Hgen, elem_of_nil. tauto.
Qed.

Lemma elem_of_declarations (st : ET.ns_state) (p u : string) :
  (p, u) ∈ ET.declarations st ↔ (u, p) ∈ ET.namespaces st.
Proof.
  unfold ET.declarations. rewrite <- (elem_of_sorted_by_prefix (u, p)).
  change (map ?f ?l) with (f <$> l). rewrite list_elem_of_fmap. split.
  - intros ([u' p'] & [= -> ->] & Hin). done.
  - intros Hin. by exists (u, p).
Qed.

(** After the registration, the serialiser writes the vendor namespace under
    [android] and nothing else under [android]. *)
Lemma namespaces_android (m : list (string * string)) (root : ET.Element) :
  (∀ p u, (p, u) ∈ ET.declarations (ET._namespaces (android_registry m) root) →
          (u = Manifest.ANDROID_NS ↔ p = "android"))
  ∧ (∀ l, In (ET.Clark Manifest.ANDROID_NS l) (ET.all_names root) →
          ET.encoded (ET._namespaces (android_registry m) root)
                     (ET.Clark Manifest.ANDROID_NS l) = inr ("android:" +:+ l)
          ∧ ("android", Manifest.ANDROID_NS)
              ∈ ET.declarations (ET._namespaces (android_registry m) root)).
Proof.
  pose proof (fold_visit_inv m (ET.all_names root) _ ns_inv_empty) as [Hns Hq].
  fold (ET._namespaces (android_registry m) root) in Hns, Hq. split.
  - intros p u Hin%elem_of_declarations. by apply Hns.
  - intros l Hl.
    destruct (fold_visit_covers (android_registry m) (ET.all_names root) (ET.mkNs [] [])
                (ET.Clark Manifest.ANDROID_NS l)) as [s Hs]; [by left|].
    fold (ET._namespaces (android_registry m) root) in Hs.
    destruct (Hq l s Hs) as [-> Hin]. unfold ET.encoded. rewrite Hs.
    split; [done|]. by apply elem_of_declarations.
Qed.

(** ** [patch_manifest] *)

Lemma patch_manifest_ok (w : World) (root : ET.Element) (i : nat) (a0 : ET.Element)
  (raw : RawElem) :
  ET.parse (manifest_xml (work w)) = inr root →
  ET.index_of_tag (ET.Plain "application") (ET.children_of root) = Some i →
  ET.children_of root !! i = Some a0 →
  disk_full (env w) = false →
  ET.tostring (android_registry (namespace_map w)) (patched root i a0) = inr raw →
  Manifest.patch_manifest w
  = (set_work (set_manifest_xml (Some (XmlDoc raw)) (work w))
       (set_namespace_map (android_registry (namespace_map w))
          (add_log (LInfo SPatchManifest) w)),
     inr tt).
Proof.
  intros Hparse Hidx Ha0 Hdisk Hraw.
  unfold Manifest.patch_manifest, try_log, Manifest.write, logger.
  unfold mbind, M_bind, get_world, lift, update, raise.
  cbn [add_log work env namespace_map set_namespace_map set_work].
  rewrite register_android, Hparse, (patch_tree_patched root i a0 Hidx Ha0).
  cbn [add_log work env namespace_map set_namespace_map set_work].
  rewrite Hraw, Hdisk. reflexivity.
Qed.

Lemma patch_manifest_no_application (w : World) (root : ET.Element) :
  ET.parse (manifest_xml (work w)) = inr root →
  ET.index_of_tag (ET.Plain "application") (ET.children_of root) = None →
  Manifest.patch_manifest w
  = (add_log (LError SPatchManifest TypeError)
       (set_namespace_map (android_registry (namespace_map w))
          (add_log (LInfo SPatchManifest) w)),
     inl TypeError).
Proof.
  intros Hparse Hidx.
  unfold Manifest.patch_manifest, try_log, Manifest.write, logger.
  unfold mbind, M_bind, get_world, lift, update, raise.
  cbn [add_log work env namespace_map set_namespace_map set_work].
  rewrite register_android, Hparse.
  unfold Manifest.patch_tree, ET.find_child. rewrite Hidx. reflexivity.
Qed.

(** ** Claims about the Manifest Patcher *)

(** C4. When the root of the parsed manifest has an [application] child, the
    patch appends one [receiver] element as the last child of the first such
    child, whatever children it already had, and changes nothing else: the
    receiver carries [android:name] and [android:exported] and one
    [intent-filter] with one [action]; when the disk accepts the write, that
    tree is what is serialised to the manifest path. *)
Theorem C4_patch_appends_one_receiver (w : World) (root : ET.Element) :
  ET.parse (manifest_xml (work w)) = inr root →
  has_application root →
  ∃ i a0,
    ET.find_child root "application" = Some [i]
    ∧ ET.children_of root !! i = Some a0
    ∧ ET.tag_of a0 = ET.Plain "application"
    ∧ Manifest.patch_tree root = inr (patched root i a0)
    ∧ ET.children_of (patched root i a0) !! i
      = Some (ET.with_children a0 (ET.children_of a0 ++ [receiver_element]))
    ∧ length (ET.children_of (patched root i a0)) = length (ET.children_of root)
    ∧ (∀ j, j ≠ i → ET.children_of (patched root i a0) !! j = ET.children_of root !! j)
    ∧ (disk_full (env w) = false →
       ∃ w' raw,
         Manifest.patch_manifest w = (w', inr tt)
         ∧ manifest_xml (work w') = Some (XmlDoc raw)
         ∧ ET.tostring (namespace_map w') (patched root i a0) = inr raw).
Proof.
  intros Hparse (i & a0 & Hidx & Ha0 & Htag)%has_application_index.
  assert (i < length (ET.children_of root)) as Hi by (by eapply lookup_lt_Some).
  exists i, a0. unfold ET.find_child. rewrite Hidx.
  split; [done|]. split; [done|]. split; [done|].
  split; [by apply patch_tree_patched|].
  assert (ET.children_of (patched root i a0)
          = <[i := ET.with_children a0 (ET.children_of a0 ++ [receiver_element])]>
              (ET.children_of root)) as Hch by apply children_with_children.
  rewrite !Hch.
  split; [by apply list_lookup_insert_eq|].
  split; [by apply length_insert|].
  split; [intros j Hj; by apply list_lookup_insert_ne|].
  intros Hdisk.
  destruct (tostring_ok (android_registry (namespace_map w)) (patched root i a0))
    as (raw & Hraw & _).
  eexists _, raw. split; [by apply (patch_manifest_ok w root i a0 raw)|].
  split; [done|exact Hraw].
Qed.

Lemma C4_witness :
  ∃ root,
    ET.parse (manifest_xml (work (Samples.before_patch Samples.manifest_doc))) = inr root
    ∧ has_application root
    ∧ ∃ i a0,
        ET.find_child root "application" = Some [i]
        ∧ ET.children_of root !! i = Some a0
        ∧ ET.tag_of a0 = ET.Plain "application"
        ∧ Manifest.patch_tree root = inr (patched root i a0)
        ∧ ET.children_of (patched root i a0) !! i
          = Some (ET.with_children a0 (ET.children_of a0 ++ [receiver_element]))
        ∧ length (ET.children_of (patched root i a0)) = length (ET.children_of root)
        ∧ (∀ j, j ≠ i → ET.children_of (patched root i a0) !! j = ET.children_of root !! j)
        ∧ (disk_full (env (Samples.before_patch Samples.manifest_doc)) = false →
           ∃ w' raw,
             Manifest.patch_manifest (Samples.before_patch Samples.manifest_doc) = (w', inr tt)
             ∧ manifest_xml (work w') = Some (XmlDoc raw)
             ∧ ET.tostring (namespace_map w') (patched root i a0) = inr raw).
Proof.
  eexists.
  assert (ET.parse (manifest_xml (work (Samples.before_patch Samples.manifest_doc)))
          = inr _) as Hparse by (vm_compute; reflexivity).
  split; [exact Hparse|].
  match type of Hparse with _ = inr ?r =>
    assert (has_application r) as Happ
      by (eexists; split; [apply list_elem_of_In; right; left; reflexivity | reflexivity])
  end.
  split; [exact Happ|].
  exact (C4_patch_appends_one_receiver _ _ Hparse Happ).
Defined.

(** C7. When the root of the parsed manifest has no [application] child, the
    patch fails ([SubElement] is handed [None] and raises [TypeError], the
    failure the specification calls MissingApplicationElement) before
    anything is written: the working directory, and with it the manifest on
    disk, is unchanged. *)
Theorem C7_no_application_fails_unchanged (w : World) (root : ET.Element) :
  ET.parse (manifest_xml (work w)) = inr root →
  ¬ has_application root →
  ∃ w',
    Manifest.patch_manifest w = (w', inl TypeError)
    ∧ work w' = work w
    ∧ manifest_xml (work w') = manifest_xml (work w).
Proof.
  intros Hparse Hno.
  assert (ET.index_of_tag (ET.Plain "application") (ET.children_of root) = None) as Hidx.
  { apply index_of_tag_None. intros c Hc Ht. apply Hno. by exists c. }
  eexists. split; [by apply (patch_manifest_no_application w root)|]. done.
Qed.

Lemma C7_witness :
  ∃ root,
    ET.parse (manifest_xml (work (Samples.before_patch Samples.manifest_doc_no_application)))
    = inr root
    ∧ ¬ has_application root
    ∧ ∃ w',
        Manifest.patch_manifest (Samples.before_patch Samples.manifest_doc_no_application)
        = (w', inl TypeError)
        ∧ work w' = work (Samples.before_patch Samples.manifest_doc_no_application)
        ∧ manifest_xml (work w')
          = manifest_xml (work (Samples.before_patch Samples.manifest_doc_no_application)).
Proof.
  eexists.
  assert (ET.parse (manifest_xml
            (work (Samples.before_patch Samples.manifest_doc_no_application)))
          = inr _) as Hparse by (vm_compute; reflexivity).
  split; [exact Hparse|].
  match type of Hparse with _ = inr ?r =>
    assert (¬ has_application r) as Hno
  end.
  { intros (c & Hc & Ht). apply list_elem_of_In in Hc.
    destruct Hc as [<-|[]]. discriminate Ht. }
  split; [exact Hno|].
  exact (C7_no_application_fails_unchanged _ _ Hparse Hno).
Defined.

(** C8.  The code at a manifest that binds [android] to the vendor namespace
    and has no name in it: the patcher registers the prefix and then sets
    the receiver's attributes under the literal keys [android:...], which
    are names of no namespace, so the serialiser declares nothing.  The
    binding of the input is not in the output, and the output, with its
    [android:] attributes left unbound, no longer parses. *)
Lemma C8_counterexample :
  ("android", Manifest.ANDROID_NS) ∈ raw_decls Samples.manifest_doc_unused_ns
  ∧ ∃ w' raw,
      Manifest.patch_manifest (Samples.before_patch Samples.manifest_doc_unused_ns)
      = (w', inr tt)
      ∧ manifest_xml (work w') = Some (XmlDoc raw)
      ∧ raw_decls raw = []
      ∧ ET.parse (manifest_xml (work w')) = inl ParseError.
Proof.
  split; [apply list_elem_of_In; left; reflexivity|].
  eexists _, _. vm_compute. done.
Qed.

(** ** Sequencing of the stages *)

Lemma keeps_ret {A} (a : A) : keeps_output (mret a : M A).
Proof. by intros w. Qed.

Lemma keeps_raise {A} (e : exn) : keeps_output (raise e : M A).
Proof. by intros w. Qed.

Lemma keeps_lift {A} (r : exn + A) : keeps_output (lift r).
Proof. by intros w. Qed.

Lemma keeps_get_world : keeps_output get_world.
Proof. by intros w. Qed.

Lemma keeps_update (f : World → World) :
  (∀ w, output_apks (f w) = output_apks w) → keeps_output (update f).
Proof. intros Hf w. apply Hf. Qed.

Lemma keeps_logger (r : log_record) : keeps_output (logger r).
Proof. by intros w. Qed.

Lemma keeps_bind {A B} (m : M A) (f : A → M B) :
  keeps_output m → (∀ a, keeps_output (f a)) → keeps_output (m ≫= f).
Proof.
  intros Hm Hf w. unfold mbind, M_bind. specialize (Hm w).
  destruct (m w) as [w1 [e|a]]; simpl in *; [done|].
  by rewrite Hf.
Qed.

Lemma keeps_try_log {A} (s : stage) (m : M A) : keeps_output m → keeps_output (try_log s m).
Proof.
  intros Hm w. unfold try_log. specialize (Hm w).
  by destruct (m w) as [w1 [e|a]].
Qed.

Lemma keeps_try_finally {A} (m : M A) (cleanup : World → World) :
  keeps_output m → (∀ w, output_apks (cleanup w) = output_apks w) →
  keeps_output (try_finally m cleanup).
Proof.
  intros Hm Hc w. unfold try_finally. specialize (Hm w).
  destruct (m w) as [w1 r]. simpl in *. by rewrite Hc.
Qed.

Lemma keeps_if {A} (b : bool) (m1 m2 : M A) :
  keeps_output m1 → keeps_output m2 → keeps_output (if b then m1 else m2).
Proof. by destruct b. Qed.

Create HintDb keeps.
#[export] Hint Resolve keeps_ret keeps_raise keeps_lift keeps_get_world keeps_logger
  keeps_try_log keeps_if : keeps.

Ltac keeps :=
  repeat match goal with
    | |- keeps_output (match ?x with _ => _ end) => destruct x
    | |- keeps_output (_ ≫= _) => apply keeps_bind
    | |- keeps_output (try_log _ _) => apply keeps_try_log
    | |- keeps_output (try_finally _ _) => apply keeps_try_finally
    | |- keeps_output (update _) => apply keeps_update
    | |- keeps_output _ => solve [auto with keeps]
    | |- keeps_output _ => fail 1
    | |- _ => intro
    | |- _ => reflexivity
    end.

Lemma repackage_keeps_output : keeps_output Repackage.repackage_apk.
Proof. unfold Repackage.repackage_apk, Repackage.write_target. keeps. Qed.

Lemma patch_manifest_keeps_output : keeps_output Manifest.patch_manifest.
Proof. unfold Manifest.patch_manifest, Manifest.write. keeps. Qed.

Section Stages.

Variable external : tool → World → World * (exn + unit).

(** The tools are handed paths of the working directory only. *)
Hypothesis external_keeps : ∀ t, keeps_output (external t).

Lemma check_output_keeps (t : tool) : keeps_output (check_output external t).
Proof. apply external_keeps. Qed.

Hint Resolve check_output_keeps repackage_keeps_output patch_manifest_keeps_output : keeps.

Lemma make_working_copy_keeps : keeps_output make_working_copy.
Proof. unfold make_working_copy. keeps. Qed.

Lemma stages_keep (s : M unit) : s ∈ stages external → keeps_output s.
Proof.
  unfold stages. rewrite !elem_of_cons, elem_of_nil.
  intros [->|[->|[->|[->|[->|[->|[->|[->|[->|[]]]]]]]]]];
    [unfold run_dex2jar | unfold instrument_jar | unfold convert_to_dalvik | |
     unfold apktool_decode | | unfold apktool_build | unfold align_apk, copy_to_scratch |
     unfold sign_apk ]; keeps.
Qed.

Lemma run_all_keeps (l : list (M unit)) :
  (∀ s, s ∈ l → keeps_output s) → keeps_output (run_all l).
Proof.
  induction l as [|s l IH]; intros Hl; simpl; [apply keeps_ret|].
  apply keeps_bind; [apply Hl; by left|]. intros _. apply IH.
  intros s' Hs'. apply Hl. by right.
Qed.

End Stages.

(** Running a list of stages stops at the first one that raises. *)
Lemma run_all_stops (pre post : list (M unit)) (s : M unit) (k : M unit)
  (w w1 w2 : World) (e : exn) :
  run_all pre w = (w1, inr tt) →
  s w1 = (w2, inl e) →
  fold_right (λ s acc, s;; acc) k (pre ++ s :: post) w = (w2, inl e).
Proof.
  revert w. induction pre as [|s0 pre IH]; intros w Hpre Hs; simpl in *.
  - injection Hpre as ->. unfold mbind, M_bind. by rewrite Hs.
  - unfold mbind, M_bind in *. destruct (s0 w) as [w' [e'|[]]]; [done|]. by apply IH.
Qed.

Lemma instrument_apk_stages (external : tool → World → World * (exn + unit)) :
  instrument_apk external
  = (make_working_copy;; fold_right (λ s acc, s;; acc) (copy_outputs) (stages external)).
Proof. reflexivity. Qed.

(** ** Claims about the Pipeline Orchestrator *)

(** C5. When the stages before some stage among dex2jar .. sign succeed and
    that stage raises, [instrument_apk] stops there: it returns that same
    exception in the world the failing stage left, so no later stage and no
    output copy has run; the tools being handed working-directory paths
    only, the output location is as it was before the run. *)
Theorem C5_stage_failure_aborts (external : tool → World → World * (exn + unit))
  (pre post : list (M unit)) (s : M unit) (w0 w1 w2 w3 : World) (e : exn) :
  (∀ t, keeps_output (external t)) →
  stages external = pre ++ s :: post →
  make_working_copy w0 = (w1, inr tt) →
  run_all pre w1 = (w2, inr tt) →
  s w2 = (w3, inl e) →
  instrument_apk external w0 = (w3, inl e)
  ∧ output_apks w3 = output_apks w0.
Proof.
  intros Hext Hst Hcopy Hpre Hs. split.
  - rewrite instrument_apk_stages, Hst. unfold mbind at 1, M_bind at 1. rewrite Hcopy.
    by apply (run_all_stops pre post s _ w1 w2 w3 e).
  - assert (keeps_output s) as Hks.
    { apply (stages_keep external Hext). rewrite Hst. apply elem_of_app. right. by left. }
    assert (keeps_output (run_all pre)) as Hkpre.
    { apply run_all_keeps. intros s' Hs'. apply (stages_keep external Hext).
      rewrite Hst. apply elem_of_app. by left. }
    pose proof (Hks w2) as H3. rewrite Hs in H3.
    pose proof (Hkpre w1) as H2. rewrite Hpre in H2.
    pose proof (make_working_copy_keeps w0) as H1. rewrite Hcopy in H1.
    simpl in *. congruence.
Qed.

Lemma C5_witness :
  ∃ w1 w3,
    (∀ t, keeps_output (SampleTools.dx_fails t))
    ∧ stages SampleTools.dx_fails
      = [run_dex2jar SampleTools.dx_fails; instrument_jar SampleTools.dx_fails]
        ++ convert_to_dalvik SampleTools.dx_fails
        :: [ Repackage.repackage_apk; apktool_decode SampleTools.dx_fails;
             Manifest.patch_manifest; apktool_build SampleTools.dx_fails;
             align_apk SampleTools.dx_fails; sign_apk SampleTools.dx_fails ]
    ∧ make_working_copy SampleTools.start = (w1, inr tt)
    ∧ run_all [run_dex2jar SampleTools.dx_fails; instrument_jar SampleTools.dx_fails] w1
      = (add_log (LInfo SInstrumentJar) (add_log (LInfo SDex2jar) w1), inr tt)
    ∧ convert_to_dalvik SampleTools.dx_fails
        (add_log (LInfo SInstrumentJar) (add_log (LInfo SDex2jar) w1))
      = (w3, inl (CalledProcessError Dx))
    ∧ instrument_apk SampleTools.dx_fails SampleTools.start
      = (w3, inl (CalledProcessError Dx))
    ∧ output_apks w3 = output_apks SampleTools.start.
Proof.
  assert (∀ t, keeps_output (SampleTools.dx_fails t)) as Hext
    by (intros [] w; reflexivity).
  eexists _, _.
  split; [exact Hext|].
  split; [reflexivity|].
  split; [reflexivity|].
  split; [reflexivity|].
  split; [reflexivity|].
  exact (C5_stage_failure_aborts SampleTools.dx_fails
           [run_dex2jar SampleTools.dx_fails; instrument_jar SampleTools.dx_fails]
           [ Repackage.repackage_apk; apktool_decode SampleTools.dx_fails;
             Manifest.patch_manifest; apktool_build SampleTools.dx_fails;
             align_apk SampleTools.dx_fails; sign_apk SampleTools.dx_fails ]
           (convert_to_dalvik SampleTools.dx_fails)
           SampleTools.start _ _ _ _
           Hext eq_refl eq_refl eq_refl eq_refl).
Defined.

(** C6, as stated, fails: with the properties template missing and every
    tool and the receiver archive in place, [check_requirements] passes and
    three stages run before the fourth reports the missing file. *)
Lemma C6_counterexample :
  properties_template (env SampleTools.start_without_template) = None
  ∧ (∃ w', check_requirements SampleTools.start_without_template = (w', inr tt))
  ∧ ∃ w',
      run_instrumentation SampleTools.all_succeed SampleTools.start_without_template
      = (w', inl FileNotFoundError)
      ∧ log w' = [ LInfoStart; LInfo SDex2jar; LInfo SInstrumentJar; LInfo SConvertToDalvik;
                   LError SRepackage FileNotFoundError; LCritical FileNotFoundError ].
Proof.
  split; [reflexivity|]. split; eexists; vm_compute; done.
Qed.

(** C6, amended. When the receiver archive or one of the six executables is
    missing, [run_instrumentation] raises the [RuntimeError] of
    [check_requirements] whatever the tools would do: no stage has run, the
    working directory and the output location are untouched and the log
    holds the opening line and the critical line only. *)
Theorem C6_missing_requirement_reported_first
  (external : tool → World → World * (exn + unit)) (w : World) :
  missing_requirement w →
  ∃ exe w',
    run_instrumentation external w = (w', inl (RuntimeError exe))
    ∧ work w' = work w
    ∧ output_apks w' = output_apks w
    ∧ log w' = log w ++ [LInfoStart; LCritical (RuntimeError exe)].
Proof.
  intros Hmiss.
  unfold run_instrumentation, check_requirements, require_tool, logger.
  unfold mbind, M_bind, get_world, update, raise.
  cbn [add_log env paths work set_paths].
  destruct (receiver_jar (env w)) eqn:Hr; cbn [negb];
    [|eexists _, _; repeat split; try reflexivity; cbn [log add_log set_paths]; by rewrite <- app_assoc].
  destruct (which (env w) (JAVA_PATH (paths w))) eqn:H1;
    [|eexists _, _; repeat split; try reflexivity; cbn [log add_log set_paths]; by rewrite <- app_assoc].
  destruct (which (env w) (DEX2JAR_PATH (paths w))) eqn:H2;
    [|eexists _, _; repeat split; try reflexivity; cbn [log add_log set_paths]; by rewrite <- app_assoc].
  destruct (which (env w) (DX_PATH (paths w))) eqn:H3;
    [|eexists _, _; repeat split; try reflexivity; cbn [log add_log set_paths]; by rewrite <- app_assoc].
  destruct (which (env w) (ZIPALIGN_PATH (paths w))) eqn:H4;
    [|eexists _, _; repeat split; try reflexivity; cbn [log add_log set_paths]; by rewrite <- app_assoc].
  destruct (which (env w) (APKSIGNER_PATH (paths w))) eqn:H5;
    [|eexists _, _; repeat split; try reflexivity; cbn [log add_log set_paths]; by rewrite <- app_assoc].
  destruct (which (env w) (APKTOOL_PATH (paths w))) eqn:H6;
    [|eexists _, _; repeat split; try reflexivity; cbn [log add_log set_paths]; by rewrite <- app_assoc].
  unfold missing_requirement in Hmiss. exfalso.
  destruct Hmiss as [?|[?|[?|[?|[?|[?|?]]]]]]; congruence.
Qed.

Lemma C6_witness :
  missing_requirement SampleTools.start_without_dx
  ∧ ∃ exe w',
      run_instrumentation SampleTools.all_succeed SampleTools.start_without_dx
      = (w', inl (RuntimeError exe))
      ∧ work w' = work SampleTools.start_without_dx
      ∧ output_apks w' = output_apks SampleTools.start_without_dx
      ∧ log w' = log SampleTools.start_without_dx
                 ++ [LInfoStart; LCritical (RuntimeError exe)].
Proof.
  assert (missing_requirement SampleTools.start_without_dx) as Hmiss
    by (right; right; right; left; reflexivity).
  split; [exact Hmiss|].
  exact (C6_missing_requirement_reported_first SampleTools.all_succeed _ Hmiss).
Defined.

(** * Further properties of the code *)

(** ** More on the Archive Transformer *)




Lemma getinfo_last (pre post : list ZipEntry) (e : ZipEntry) :
  (∀ x, x ∈ post → filename x ≠ filename e) →
  zipfile.getinfo (pre ++ e :: post) (filename e) = Some e.
Proof.
  intros Hpost.
  assert (zipfile.getinfo post (filename e) = None) as Hnone.
  { destruct (zipfile.getinfo post (filename e)) as [x|] eqn:Hx; [|done].
    apply getinfo_elem in Hx as [Hin Hname]. exfalso. by apply (Hpost x). }
  induction pre as [|p pre IH]; simpl.
  - by rewrite Hnone, String.eqb_refl.
  - by rewrite IH.
Qed.

(** X2. Members are re-read by name while they are copied: when an ordinary
    name occurs more than once in the source archive, every copy written
    under that name holds the content of its last occurrence; names are
    copied in source order. *)
Theorem repackage_duplicate_names (w : World) (pre post : list ZipEntry) (e : ZipEntry)
  (files : list (string * bytes)) (props : bytes) :
  repackage_inputs w (pre ++ e :: post) files props →
  (∀ x, x ∈ post → filename x ≠ filename e) →
  ∃ w' copied,
    Repackage.repackage_apk w = (w', inr tt)
    ∧ target_apk (work w') = Some (ZipArchive (copied ++ injected files props))
    ∧ filename <$> copied
      = filename <$> filter (λ x, classify (filename x) = Ordinary) (pre ++ e :: post)
    ∧ ∀ x, x ∈ copied → filename x = filename e → data x = data e.
Proof.
  intros Hin Hpost. eexists _, (kept (pre ++ e :: post)).
  split; [by apply repackage_apk_ok|]. split; [done|]. split.
  - unfold kept. rewrite <- list_fmap_compose. done.
  - unfold kept. intros x (x0 & -> & _)%list_elem_of_fmap Hname.
    unfold reread, zipfile.read in *. simpl in *. rewrite Hname.
    by rewrite (getinfo_last pre post e Hpost).
Qed.

Lemma repackage_duplicate_names_witness :
  repackage_inputs before_repackage_with_duplicate
    ([ mkEntry "AndroidManifest.xml" (Samples.b "<manifest/>");
       mkEntry "assets/data.bin" (Samples.b "first") ]
     ++ mkEntry "assets/data.bin" (Samples.b "second") :: [])
    Samples.files Samples.props
  ∧ (∀ x, x ∈ @nil ZipEntry → filename x ≠ "assets/data.bin")
  ∧ ∃ w' copied,
      Repackage.repackage_apk before_repackage_with_duplicate = (w', inr tt)
      ∧ target_apk (work w')
        = Some (ZipArchive (copied ++ injected Samples.files Samples.props))
      ∧ filename <$> copied
        = filename <$> filter (λ x, classify (filename x) = Ordinary)
                         ([ mkEntry "AndroidManifest.xml" (Samples.b "<manifest/>");
                            mkEntry "assets/data.bin" (Samples.b "first") ]
                          ++ mkEntry "assets/data.bin" (Samples.b "second") :: [])
      ∧ ∀ x, x ∈ copied → filename x = "assets/data.bin" → data x = Samples.b "second".
Proof.
  assert (repackage_inputs before_repackage_with_duplicate
            ([ mkEntry "AndroidManifest.xml" (Samples.b "<manifest/>");
               mkEntry "assets/data.bin" (Samples.b "first") ]
             ++ mkEntry "assets/data.bin" (Samples.b "second") :: [])
            Samples.files Samples.props) as Hin by (repeat split; reflexivity).
  assert (∀ x, x ∈ @nil ZipEntry → filename x ≠ "assets/data.bin") as Hpost
    by (intros x Hx; by apply elem_of_nil in Hx).
  split; [exact Hin|]. split; [exact Hpost|].
  exact (repackage_duplicate_names _ _ _ (mkEntry "assets/data.bin" (Samples.b "second"))
           _ _ Hin Hpost).
Defined.

Lemma add_dex_subdir (listing : list (string * dirent)) (buf : list ZipEntry) (n : string) :
  (n, DSubdir) ∈ listing → Repackage.add_dex listing buf = inl IsADirectoryError.
Proof.
  revert buf. induction listing as [|[m [c|]] l IH]; intros buf Hin.
  - by apply elem_of_nil in Hin.
  - simpl. apply IH. by apply elem_of_cons in Hin as [[= ]|Hin].
  - done.
Qed.

(** X3. A subdirectory inside the replacement directory makes the
    repackaging fail with [IsADirectoryError] ([os.listdir] returns it and
    [open] refuses it), before anything is written: the working directory is
    as it was. *)
Theorem repackage_subdirectory_fails (w : World) (src : list ZipEntry)
  (listing : list (string * dirent)) (n : string) :
  target_apk (work w) = Some (ZipArchive src) →
  dex_dir (work w) = Some listing →
  (n, DSubdir) ∈ listing →
  ∃ w',
    Repackage.repackage_apk w = (w', inl IsADirectoryError)
    ∧ work w' = work w
    ∧ log w' = log w ++ [LError SRepackage IsADirectoryError].
Proof.
  intros Ht Hd Hn.
  unfold Repackage.repackage_apk, try_log, Repackage.write_target.
  unfold mbind, M_bind, get_world, lift, update, raise.
  rewrite Ht, Hd. simpl Repackage.open_zip. simpl Repackage.listdir.
  unfold zipfile.infolist. rewrite copy_entries_spec by done.
  rewrite (add_dex_subdir listing _ n Hn). by eexists.
Qed.

Lemma repackage_subdirectory_fails_witness :
  target_apk (work before_repackage_with_subdir) = Some (ZipArchive Samples.src)
  ∧ dex_dir (work before_repackage_with_subdir)
    = Some [("classes.dex", DFile (Samples.b "dex-new")); ("tmp", DSubdir)]
  ∧ ("tmp", DSubdir) ∈ [("classes.dex", DFile (Samples.b "dex-new")); ("tmp", DSubdir)]
  ∧ ∃ w',
      Repackage.repackage_apk before_repackage_with_subdir = (w', inl IsADirectoryError)
      ∧ work w' = work before_repackage_with_subdir
      ∧ log w' = log before_repackage_with_subdir ++ [LError SRepackage IsADirectoryError].
Proof.
  assert (("tmp", DSubdir) ∈ [("classes.dex", DFile (Samples.b "dex-new")); ("tmp", DSubdir)])
    as Hn by (apply list_elem_of_In; right; left; reflexivity).
  split; [reflexivity|]. split; [reflexivity|]. split; [exact Hn|].
  exact (repackage_subdirectory_fails before_repackage_with_subdir Samples.src _ "tmp"
           eq_refl eq_refl Hn).
Defined.

Lemma count_name_kept (n : string) (src : list ZipEntry) :
  count_name n (kept src)
  = if decide (classify n = Ordinary) then count_name n src else 0.
Proof.
  unfold kept, count_name.
  assert (∀ l, length (filter (λ e, filename e = n)
                         (reread src <$> filter (λ e, classify (filename e) = Ordinary) l))
               = if decide (classify n = Ordinary)
                 then length (filter (λ e, filename e = n) l) else 0) as Hgen.
  { induction l as [|e l IH]; [by destruct (decide _)|].
    rewrite (filter_cons (λ e, classify (filename e) = Ordinary)).
    rewrite (filter_cons (λ e, filename e = n) e l).
    destruct (decide (classify (filename e) = Ordinary)) as [Hc|Hc].
    - rewrite fmap_cons, filter_cons. simpl (filename (reread src e)).
      destruct (decide (filename e = n)) as [<-|Hne].
      + rewrite decide_True by done. simpl. rewrite IH. by rewrite decide_True.
      + rewrite IH. done.
    - rewrite IH. destruct (decide (filename e = n)) as [<-|Hne]; [|done].
      destruct (decide (classify (filename e) = Ordinary)); [contradiction|done]. }
  apply Hgen.
Qed.

Lemma count_name_files (n : string) (files : list (string * bytes)) :
  count_name n ((λ nf, mkEntry nf.1 nf.2) <$> files) = count_file n files.
Proof.
  unfold count_name, count_file. induction files as [|[m c] files IH]; [done|].
  rewrite fmap_cons, !filter_cons. simpl.
  destruct (decide (m = n)); simpl; by rewrite IH.
Qed.

(** X4. How often a name occurs in the repackaged archive: as often as in
    the source archive when the name is ordinary (not at all otherwise), plus
    once for every replacement file of that name, plus once more when the
    name is [jacoco-agent.properties].  In particular every repackaging adds
    one more properties entry to those the package already has. *)
Theorem repackage_name_multiplicity (w : World) (src : list ZipEntry)
  (files : list (string * bytes)) (props : bytes) (n : string) :
  repackage_inputs w src files props →
  ∃ w' out,
    Repackage.repackage_apk w = (w', inr tt)
    ∧ target_apk (work w') = Some (ZipArchive out)
    ∧ count_name n out
      = (if decide (classify n = Ordinary) then count_name n src else 0)
        + count_file n files
        + (if decide (n = "jacoco-agent.properties") then 1 else 0)
    ∧ count_name "jacoco-agent.properties" out
      = count_name "jacoco-agent.properties" src
        + count_file "jacoco-agent.properties" files + 1.
Proof.
  intros Hin. eexists _, _. split; [by apply repackage_apk_ok|]. split; [done|].
  assert (∀ m, count_name m (kept src ++ injected files props)
               = (if decide (classify m = Ordinary) then count_name m src else 0)
                 + count_file m files
                 + (if decide (m = "jacoco-agent.properties") then 1 else 0)) as Hcount.
  { intros m. unfold injected.
    rewrite !count_name_app, count_name_kept, count_name_files.
    unfold count_name at 2. rewrite filter_cons, filter_nil.
    cbn [filename].
    destruct (decide (m = "jacoco-agent.properties")) as [->|Hne];
      destruct (decide ("jacoco-agent.properties" = _)) as [Heq|Hneq];
      try done; simpl; try lia. }
  split; [apply Hcount|]. rewrite Hcount. done.
Qed.

Lemma repackage_name_multiplicity_witness :
  repackage_inputs Samples.before_repackage_with_properties Samples.src_with_properties
    Samples.files Samples.props
  ∧ ∃ w' out,
      Repackage.repackage_apk Samples.before_repackage_with_properties = (w', inr tt)
      ∧ target_apk (work w') = Some (ZipArchive out)
      ∧ count_name "classes.dex" out
        = (if decide (classify "classes.dex" = Ordinary)
           then count_name "classes.dex" Samples.src_with_properties else 0)
          + count_file "classes.dex" Samples.files
          + (if decide ("classes.dex" = "jacoco-agent.properties") then 1 else 0)
      ∧ count_name "jacoco-agent.properties" out
        = count_name "jacoco-agent.properties" Samples.src_with_properties
          + count_file "jacoco-agent.properties" Samples.files + 1.
Proof.
  assert (repackage_inputs Samples.before_repackage_with_properties
            Samples.src_with_properties Samples.files Samples.props) as Hin
    by (repeat split; reflexivity).
  split; [exact Hin|].
  exact (repackage_name_multiplicity _ _ _ _ "classes.dex" Hin).
Defined.

(** X5. The rewrite is in place: when the archive has been built but the
    write of the buffer fails, the target path has already been truncated by
    [open(..., "wb")] and the original package is gone. *)
Theorem repackage_write_failure_loses_original (w : World) (src : list ZipEntry)
  (files : list (string * bytes)) (props : bytes) :
  target_apk (work w) = Some (ZipArchive src) →
  dex_dir (work w) = Some (dir_of_files files) →
  properties_template (env w) = Some props →
  disk_full (env w) = true →
  ∃ w',
    Repackage.repackage_apk w = (w', inl OSError)
    ∧ target_apk (work w') = Some (NotZip [])
    ∧ log w' = log w ++ [LError SRepackage OSError].
Proof.
  intros Ht Hd Hp Hf.
  unfold Repackage.repackage_apk, try_log, Repackage.write_target.
  unfold mbind, M_bind, get_world, lift, update, raise.
  rewrite Ht, Hd, Hp. simpl Repackage.open_zip. simpl Repackage.listdir.
  simpl Repackage.open_properties. unfold zipfile.infolist.
  rewrite copy_entries_spec by done. rewrite add_dex_files.
  simpl. rewrite Hf. by eexists.
Qed.

Lemma repackage_write_failure_loses_original_witness :
  target_apk (work before_repackage_disk_full) = Some (ZipArchive Samples.src)
  ∧ dex_dir (work before_repackage_disk_full) = Some (dir_of_files Samples.files)
  ∧ properties_template (env before_repackage_disk_full) = Some Samples.props
  ∧ disk_full (env before_repackage_disk_full) = true
  ∧ ∃ w',
      Repackage.repackage_apk before_repackage_disk_full = (w', inl OSError)
      ∧ target_apk (work w') = Some (NotZip [])
      ∧ log w' = log before_repackage_disk_full ++ [LError SRepackage OSError].
Proof.
  split; [reflexivity|]. split; [reflexivity|]. split; [reflexivity|]. split; [reflexivity|].
  exact (repackage_write_failure_loses_original before_repackage_disk_full
           Samples.src Samples.files Samples.props eq_refl eq_refl eq_refl eq_refl).
Defined.

(** ** The bytecode naming pattern *)

Lemma startswith_app (s p : string) :
  PyStr.startswith s p = true ↔ ∃ r, s = p +:+ r.
Proof.
  unfold PyStr.startswith. revert s. induction p as [|a p IH]; intros s.
  - split; [intros _; by exists s|]. intros _. by destruct s.
  - destruct s as [|b s].
    + split; [done|]. by intros [r [=]].
    + rewrite prefix_cons, andb_true_iff, Ascii.eqb_eq, IH. split.
      * intros [-> [r ->]]. by exists r.
      * intros [r [= -> ->]]. split; [done|]. by exists r.
Qed.

Lemma string_length_app (a b : string) :
  String.length (a +:+ b) = String.length a + String.length b.
Proof. induction a as [|c a IH]; simpl; [done|]. by rewrite IH. Qed.

Lemma substring_all (s : string) : String.substring 0 (String.length s) s = s.
Proof. induction s as [|c s IH]; simpl; [done|]. by rewrite IH. Qed.

Lemma substring_skip (r s : string) (m : nat) :
  String.substring (String.length r) m (r +:+ s) = String.substring 0 m s.
Proof. induction r as [|c r IH]; simpl; [done|]. apply IH. Qed.

Lemma substring_split (s : string) (n : nat) :
  n ≤ String.length s →
  s = String.substring 0 n s +:+ String.substring n (String.length s - n) s.
Proof.
  revert n. induction s as [|c s IH]; intros n Hn.
  - simpl in Hn. by replace n with 0 by lia.
  - destruct n as [|n].
    + simpl. by rewrite substring_all.
    + simpl in *. change (String c s = String c (String.substring 0 n s
                              +:+ String.substring n (String.length s - n) s)).
      f_equal. apply IH. lia.
Qed.

Lemma endswith_app (s suf : string) :
  PyStr.endswith s suf = true ↔ ∃ r, s = r +:+ suf.
Proof.
  unfold PyStr.endswith. rewrite andb_true_iff, Nat.leb_le, String.eqb_eq. split.
  - intros [Hlen Hsub].
    exists (String.substring 0 (String.length s - String.length suf) s).
    pose proof (substring_split s (String.length s - String.length suf)) as Hsplit.
    replace (String.length s - (String.length s - String.length suf))
      with (String.length suf) in Hsplit by lia.
    rewrite Hsub in Hsplit. apply Hsplit. lia.
  - intros [r ->]. rewrite string_length_app. split; [lia|].
    replace (String.length r + String.length suf - String.length suf)
      with (String.length r) by lia.
    by rewrite substring_skip, substring_all.
Qed.

Lemma app_suffix_cancel (p r x suf : string) :
  p +:+ r = x +:+ suf → String.length suf ≤ String.length r → ∃ y, r = y +:+ suf.
Proof.
  revert x. induction p as [|c p IH]; intros x Heq Hlen.
  - by exists x.
  - destruct x as [|d x].
    + change (String c (p +:+ r) = suf) in Heq. subst suf.
      cbn [String.length] in Hlen. rewrite string_length_app in Hlen. lia.
    + change (String c (p +:+ r) = String d (x +:+ suf)) in Heq.
      injection Heq as _ Heq. by apply (IH x).
Qed.

(** X6. The names the copy loop treats as primary bytecode are exactly the
    paths of the form [classes] + anything + [.dex]: the two tests cannot
    overlap, so such a path has at least eleven characters, and the test on
    [META-INF/] never takes such a name away. *)
Theorem classify_bytecode_pattern (n : string) :
  classify n = PrimaryBytecode ↔ ∃ m, n = "classes" +:+ m +:+ ".dex".
Proof.
  split.
  - unfold classify. destruct (PyStr.startswith n "META-INF/"); [done|].
    destruct (PyStr.startswith n "classes") eqn:Hs; [|done].
    destruct (PyStr.endswith n ".dex") eqn:He; [|done]. intros _.
    apply startswith_app in Hs as [r ->].
    destruct (le_lt_dec 4 (String.length r)) as [Hlen|Hlen].
    + apply endswith_app in He as [x Hx].
      destruct (app_suffix_cancel "classes" r x ".dex" Hx Hlen) as [m ->]. by exists m.
    + exfalso. destruct r as [|a [|b [|c [|d r]]]]; simpl in Hlen; try lia; discriminate He.
  - intros [m ->].
    apply classify_bytecode.
    + apply startswith_app. by eexists.
    + apply endswith_app. by exists ("classes" +:+ m).
Qed.

(** ** More on the Pipeline Orchestrator *)

(** X7. [parse_android_apk] touches nothing and accepts exactly the zip
    containers that have a member named [AndroidManifest.xml] at the root;
    a missing file is a [FileNotFoundError], a file that is no zip container
    a [BadZipFile], a container without that member a [ValueError]. *)
Theorem parse_android_apk_accepts (w : World) :
  ∃ r,
    parse_android_apk w = (w, r)
    ∧ (r = inr true ↔
       ∃ a e, apk_file (env w) = Some (ZipArchive a)
              ∧ e ∈ a ∧ filename e = "AndroidManifest.xml")
    ∧ (apk_file (env w) = None → r = inl FileNotFoundError)
    ∧ (∀ raw, apk_file (env w) = Some (NotZip raw) → r = inl BadZipFile)
    ∧ (∀ a, apk_file (env w) = Some (ZipArchive a) →
            (∀ e, e ∈ a → filename e ≠ "AndroidManifest.xml") → r = inl ValueError).
Proof.
  unfold parse_android_apk, mbind, M_bind, get_world, raise, zipfile.infolist.
  destruct (apk_file (env w)) as [[a|raw]|] eqn:Hf.
  - destruct (existsb _ a) eqn:Hex.
    + eexists. split; [done|]. split; [|split; [done|split; [done|]]].
      * split; [intros _|done]. apply existsb_exists in Hex as (e & He & Hn).
        exists a, e. split; [done|]. split; [by apply list_elem_of_In|].
        by apply String.eqb_eq.
      * intros a' [= <-] Hno. exfalso.
        apply existsb_exists in Hex as (e & He & Hn).
        apply (Hno e); [by apply list_elem_of_In|by apply String.eqb_eq].
    + eexists. split; [done|]. split; [|split; [done|split; [done|done]]].
      split; [done|]. intros (a' & e & [= <-] & He & Hn). exfalso.
      assert (existsb (λ entry, String.eqb (filename entry) "AndroidManifest.xml") a = true)
        as Hex'; [|congruence].
      apply existsb_exists. exists e. split; [by apply list_elem_of_In|].
      by apply String.eqb_eq.
  - eexists. split; [done|]. split; [|split; [done|split; [by intros ? [= ]|done]]].
    split; [done|]. by intros (a & e & [=] & _).
  - eexists. split; [done|]. split; [|split; [done|split; [done|done]]].
    split; [done|]. by intros (a & e & [=] & _).
Qed.

(** X8. With the receiver archive in place and every executable found,
    [check_requirements] succeeds and replaces each of the six executable
    names by the full path the search returned; nothing else changes. *)
Theorem check_requirements_resolves (w : World) (java dex2jar dx zipalign apksigner apktool : string) :
  receiver_jar (env w) = true →
  which (env w) (JAVA_PATH (paths w)) = Some java →
  which (env w) (DEX2JAR_PATH (paths w)) = Some dex2jar →
  which (env w) (DX_PATH (paths w)) = Some dx →
  which (env w) (ZIPALIGN_PATH (paths w)) = Some zipalign →
  which (env w) (APKSIGNER_PATH (paths w)) = Some apksigner →
  which (env w) (APKTOOL_PATH (paths w)) = Some apktool →
  check_requirements w
  = (set_paths (mkPaths java dex2jar dx zipalign apksigner apktool) w, inr tt).
Proof.
  intros Hr H1 H2 H3 H4 H5 H6.
  unfold check_requirements, require_tool.
  unfold mbind, M_bind, get_world, update, raise.
  rewrite Hr, H1, H2, H3, H4, H5, H6. reflexivity.
Qed.

Lemma check_requirements_resolves_witness :
  receiver_jar (env SampleTools.start) = true
  ∧ which (env SampleTools.start) (JAVA_PATH (paths SampleTools.start)) = Some "/usr/bin/java"
  ∧ check_requirements SampleTools.start
    = (set_paths (mkPaths "/usr/bin/java" "/usr/bin/d2j-dex2jar.sh" "/usr/bin/dx"
                          "/usr/bin/zipalign" "/usr/bin/apksigner" "/usr/bin/apktool")
         SampleTools.start, inr tt).
Proof.
  split; [reflexivity|]. split; [reflexivity|].
  exact (check_requirements_resolves SampleTools.start _ _ _ _ _ _
           eq_refl eq_refl eq_refl eq_refl eq_refl eq_refl eq_refl).
Defined.

(** X9. The executables are tested in a fixed order, after the receiver
    archive: the [RuntimeError] names the first one the search does not
    find, and by then the names of those before it have already been
    replaced by their full paths while the others are as they were; the
    working directory, the output location and the log are untouched. *)
Theorem check_requirements_first_missing (w : World) (k : nat) (f : Paths → string) :
  receiver_jar (env w) = true →
  tool_fields !! k = Some f →
  which (env w) (f (paths w)) = None →
  (∀ j g, j < k → tool_fields !! j = Some g → is_Some (which (env w) (g (paths w)))) →
  ∃ w',
    check_requirements w = (w', inl (RuntimeError (f (paths w))))
    ∧ (∀ j g, j < k → tool_fields !! j = Some g →
              which (env w) (g (paths w)) = Some (g (paths w')))
    ∧ (∀ j g, k ≤ j → tool_fields !! j = Some g → g (paths w') = g (paths w))
    ∧ work w' = work w ∧ output_apks w' = output_apks w ∧ log w' = log w.
Proof.
  intros Hr Hk Hnone Hbefore.
  assert (∀ j g, j < k → tool_fields !! j = Some g →
                 ∃ p, which (env w) (g (paths w)) = Some p) as Hfound
    by (intros j g Hj Hg; by destruct (Hbefore j g Hj Hg) as [p ?]; exists p).
  unfold check_requirements, require_tool.
  unfold mbind, M_bind, get_world, update, raise. rewrite Hr. cbn [negb].
  destruct k as [|[|[|[|[|[|k]]]]]]; [..|discriminate Hk]; injection Hk as <-;
    try (destruct (Hfound 0 _ ltac:(lia) eq_refl) as [p0 Hp0]);
    try (destruct (Hfound 1 _ ltac:(lia) eq_refl) as [p1 Hp1]);
    try (destruct (Hfound 2 _ ltac:(lia) eq_refl) as [p2 Hp2]);
    try (destruct (Hfound 3 _ ltac:(lia) eq_refl) as [p3 Hp3]);
    try (destruct (Hfound 4 _ ltac:(lia) eq_refl) as [p4 Hp4]);
    repeat match goal with H : which _ _ = _ |- _ => progress rewrite H end;
    (eexists; split; [reflexivity|]; split; [|split; [|done]]);
    intros j g Hj Hg;
    (destruct j as [|[|[|[|[|[|j]]]]]]; [..|discriminate Hg]);
    try lia; injection Hg as <-; cbn; done.
Qed.

Lemma check_requirements_first_missing_witness :
  receiver_jar (env SampleTools.start_without_dx) = true
  ∧ tool_fields !! 2 = Some DX_PATH
  ∧ which (env SampleTools.start_without_dx) (DX_PATH (paths SampleTools.start_without_dx))
    = None
  ∧ (∀ j g, j < 2 → tool_fields !! j = Some g →
            is_Some (which (env SampleTools.start_without_dx)
                           (g (paths SampleTools.start_without_dx))))
  ∧ ∃ w',
      check_requirements SampleTools.start_without_dx = (w', inl (RuntimeError "dx"))
      ∧ (∀ j g, j < 2 → tool_fields !! j = Some g →
                which (env SampleTools.start_without_dx)
                      (g (paths SampleTools.start_without_dx)) = Some (g (paths w')))
      ∧ (∀ j g, 2 ≤ j → tool_fields !! j = Some g →
                g (paths w') = g (paths SampleTools.start_without_dx))
      ∧ work w' = work SampleTools.start_without_dx
      ∧ output_apks w' = output_apks SampleTools.start_without_dx
      ∧ log w' = log SampleTools.start_without_dx.
Proof.
  assert (∀ j g, j < 2 → tool_fields !! j = Some g →
                 is_Some (which (env SampleTools.start_without_dx)
                                (g (paths SampleTools.start_without_dx)))) as Hbefore.
  { intros [|[|j]] g Hj Hg; [injection Hg as <-; by eexists ..|lia]. }
  split; [reflexivity|]. split; [reflexivity|]. split; [reflexivity|]. split; [exact Hbefore|].
  exact (check_requirements_first_missing SampleTools.start_without_dx 2 DX_PATH
           eq_refl eq_refl eq_refl Hbefore).
Defined.

(** X10. [align_apk] never leaves its scratch copy behind, whether the copy,
    the tool or nothing failed, and it succeeds only if [zipalign] was run,
    and succeeded, on a world whose scratch copy holds the content of the
    working copy. *)
Theorem align_apk_removes_scratch_copy
  (external : tool → World → World * (exn + unit)) (w w' : World) (r : exn + unit) :
  align_apk external w = (w', r) →
  apk_copy (work w') = None
  ∧ (r = inr tt →
     ∃ c w1,
       target_apk (work w) = Some c
       ∧ external Zipalign
           (add_log (LInfo SAlign) (set_work (set_apk_copy (Some c) (work w)) w))
         = (w1, inr tt)
       ∧ w' = set_work (set_apk_copy None (work w1)) w1).
Proof.
  unfold align_apk, try_finally, try_log, copy_to_scratch, check_output, logger.
  unfold mbind, M_bind, get_world, update, raise.
  destruct (target_apk (work w)) as [c|] eqn:Ht.
  - destruct (disk_full (env w)).
    + intros [= <- <-]. split; [done|]. done.
    + cbn [add_log set_work work env].
      destruct (external Zipalign _) as [w1 [e|[]]] eqn:Hext.
      * intros [= <- <-]. split; [done|]. done.
      * intros [= <- <-]. split; [done|]. intros _. by exists c, w1.
  - intros [= <- <-]. split; [done|]. done.
Qed.

Lemma align_apk_removes_scratch_copy_witness :
  ∃ w' r,
    align_apk SampleTools.all_succeed Samples.before_repackage = (w', r)
    ∧ apk_copy (work w') = None
    ∧ (r = inr tt →
       ∃ c w1,
         target_apk (work Samples.before_repackage) = Some c
         ∧ SampleTools.all_succeed Zipalign
             (add_log (LInfo SAlign)
                (set_work (set_apk_copy (Some c) (work Samples.before_repackage))
                   Samples.before_repackage))
           = (w1, inr tt)
         ∧ w' = set_work (set_apk_copy None (work w1)) w1).
Proof.
  eexists _, _.
  assert (align_apk SampleTools.all_succeed Samples.before_repackage = (_, _)) as Hrun
    by reflexivity.
  split; [exact Hrun|].
  exact (align_apk_removes_scratch_copy SampleTools.all_succeed _ _ _ Hrun).
Defined.

Lemma string_app_inv_head (s a b : string) : s +:+ a = s +:+ b → a = b.
Proof.
  induction s as [|c s IH]; [done|].
  change (String c (s +:+ a) = String c (s +:+ b) → a = b). intros [= H]. by apply IH.
Qed.

Lemma copy_into_output_ok (w : World) (name : string) (f : any_file) :
  disk_full (env w) = false →
  copy_into_output name (Some f) w
  = (set_output_apks (copied_to (output_apks w) name f) w, inr tt).
Proof.
  intros Hf. unfold copy_into_output.
  unfold mbind, M_bind, get_world, update, raise, mret, M_ret.
  rewrite Hf. reflexivity.
Qed.

Lemma copy_outputs_ok (w : World) (apk : apk_content) (jar : bytes) :
  target_apk (work w) = Some apk →
  classes_jar (work w) = Some jar →
  disk_full (env w) = false →
  copy_outputs w
  = (add_log (LInfo SCopyOutputs)
       (set_output_apks
          (copied_to (copied_to (output_apks w)
                        (apk_stem (env w) +:+ apk_ext (env w)) (AnApk apk))
             (apk_stem (env w) +:+ ".jar") (AJar jar)) w),
     inr tt).
Proof.
  intros Ht Hj Hf. unfold copy_outputs, logger.
  unfold mbind at 1 2 3, M_bind at 1 2 3, get_world.
  rewrite Ht, Hj. simpl fmap.
  rewrite (copy_into_output_ok w _ _ Hf).
  rewrite copy_into_output_ok by done. reflexivity.
Qed.

(** X11. [copy_outputs] does not create the output directory: when nothing
    (or a regular file) is at the output location, both copies are written
    onto that very path, so the call succeeds and leaves one regular file
    there holding the jar; the package copied first is overwritten. *)
Theorem copy_outputs_without_directory (w : World) (apk : apk_content) (jar : bytes) :
  (∀ files, output_apks w ≠ OutDir files) →
  target_apk (work w) = Some apk →
  classes_jar (work w) = Some jar →
  disk_full (env w) = false →
  ∃ w',
    copy_outputs w = (w', inr tt)
    ∧ output_apks w' = OutFile (AJar jar)
    ∧ work w' = work w.
Proof.
  intros Hout Ht Hj Hf. rewrite (copy_outputs_ok w apk jar Ht Hj Hf).
  eexists. split; [reflexivity|]. split; [|done].
  cbn [output_apks add_log set_output_apks].
  destruct (output_apks w) as [|files|f0]; [done| |done]. by destruct (Hout files).
Qed.

Lemma copy_outputs_without_directory_witness :
  (∀ files, output_apks (before_copy OutMissing (Some (Samples.b "jar"))) ≠ OutDir files)
  ∧ target_apk (work (before_copy OutMissing (Some (Samples.b "jar"))))
    = Some (ZipArchive Samples.src)
  ∧ classes_jar (work (before_copy OutMissing (Some (Samples.b "jar"))))
    = Some (Samples.b "jar")
  ∧ disk_full (env (before_copy OutMissing (Some (Samples.b "jar")))) = false
  ∧ ∃ w',
      copy_outputs (before_copy OutMissing (Some (Samples.b "jar"))) = (w', inr tt)
      ∧ output_apks w' = OutFile (AJar (Samples.b "jar"))
      ∧ work w' = work (before_copy OutMissing (Some (Samples.b "jar"))).
Proof.
  assert (∀ files, output_apks (before_copy OutMissing (Some (Samples.b "jar")))
                   ≠ OutDir files) as Hout by (intros files; discriminate).
  split; [exact Hout|]. split; [reflexivity|]. split; [reflexivity|]. split; [reflexivity|].
  exact (copy_outputs_without_directory _ _ _ Hout eq_refl eq_refl eq_refl).
Defined.

(** X12. Into an existing output directory [copy_outputs] deposits the
    package under the input's base name and the jar under the same stem with
    the extension [.jar], replacing files of those names and keeping every
    other file; the two names differ unless the input itself ends in
    [.jar]. *)
Theorem copy_outputs_into_directory (w : World) (files : list (string * any_file))
  (apk : apk_content) (jar : bytes) :
  output_apks w = OutDir files →
  target_apk (work w) = Some apk →
  classes_jar (work w) = Some jar →
  disk_full (env w) = false →
  apk_ext (env w) ≠ ".jar" →
  ∃ w' files',
    copy_outputs w = (w', inr tt)
    ∧ output_apks w' = OutDir files'
    ∧ log w' = log w ++ [LInfo SCopyOutputs]
    ∧ (∀ f, (apk_stem (env w) +:+ apk_ext (env w), f) ∈ files' ↔ f = AnApk apk)
    ∧ (∀ f, (apk_stem (env w) +:+ ".jar", f) ∈ files' ↔ f = AJar jar)
    ∧ (∀ n f, n ≠ apk_stem (env w) +:+ apk_ext (env w) →
              n ≠ apk_stem (env w) +:+ ".jar" →
              ((n, f) ∈ files' ↔ (n, f) ∈ files)).
Proof.
  intros Hout Ht Hj Hf Hext.
  assert (apk_stem (env w) +:+ apk_ext (env w) ≠ apk_stem (env w) +:+ ".jar") as Hnames
    by (intros Heq; by apply string_app_inv_head in Heq).
  rewrite (copy_outputs_ok w apk jar Ht Hj Hf), Hout.
  eexists _, _. split; [reflexivity|]. split; [reflexivity|]. split; [reflexivity|].
  set (na := apk_stem (env w) +:+ apk_ext (env w)) in *.
  set (nj := apk_stem (env w) +:+ ".jar") in *.
  assert (∀ (n m : string), negb (String.eqb n m) ↔ n ≠ m) as Hneg.
  { intros n m. destruct (String.eqb_spec n m); simpl; split; done. }
  split; [|split].
  - intros f. rewrite elem_of_cons, list_elem_of_filter, elem_of_cons, list_elem_of_filter.
    cbn [fst]. rewrite !Hneg, !pair_equal_spec. intuition congruence.
  - intros f. rewrite elem_of_cons, list_elem_of_filter. cbn [fst].
    rewrite Hneg, !pair_equal_spec. intuition congruence.
  - intros n f Hna Hnj.
    rewrite elem_of_cons, list_elem_of_filter, elem_of_cons, list_elem_of_filter.
    cbn [fst]. rewrite !Hneg, !pair_equal_spec. intuition congruence.
Qed.

Lemma copy_outputs_into_directory_witness :
  output_apks (before_copy (OutDir [("old.apk", AJar [])]) (Some (Samples.b "jar")))
  = OutDir [("old.apk", AJar [])]
  ∧ apk_ext (env (before_copy (OutDir [("old.apk", AJar [])]) (Some (Samples.b "jar"))))
    ≠ ".jar"
  ∧ ∃ w' files',
      copy_outputs (before_copy (OutDir [("old.apk", AJar [])]) (Some (Samples.b "jar")))
      = (w', inr tt)
      ∧ output_apks w' = OutDir files'
      ∧ log w' = log (before_copy (OutDir [("old.apk", AJar [])]) (Some (Samples.b "jar")))
                 ++ [LInfo SCopyOutputs]
      ∧ (∀ f, ("app" +:+ ".apk", f) ∈ files' ↔ f = AnApk (ZipArchive Samples.src))
      ∧ (∀ f, ("app" +:+ ".jar", f) ∈ files' ↔ f = AJar (Samples.b "jar"))
      ∧ (∀ n f, n ≠ "app" +:+ ".apk" → n ≠ "app" +:+ ".jar" →
                ((n, f) ∈ files' ↔ (n, f) ∈ [("old.apk", AJar [])])).
Proof.
  assert (apk_ext (env (before_copy (OutDir [("old.apk", AJar [])])
                          (Some (Samples.b "jar")))) ≠ ".jar") as Hext by discriminate.
  split; [reflexivity|]. split; [exact Hext|].
  exact (copy_outputs_into_directory
           (before_copy (OutDir [("old.apk", AJar [])]) (Some (Samples.b "jar")))
           _ _ _ eq_refl eq_refl eq_refl eq_refl Hext).
Defined.

(** X13. [copy_outputs] is not all-or-nothing: when the jar is not there the
    call raises [FileNotFoundError] after the package has been deposited. *)
Theorem copy_outputs_partial (w : World) (apk : apk_content) :
  target_apk (work w) = Some apk →
  classes_jar (work w) = None →
  disk_full (env w) = false →
  ∃ w',
    copy_outputs w = (w', inl FileNotFoundError)
    ∧ output_apks w'
      = copied_to (output_apks w) (apk_stem (env w) +:+ apk_ext (env w)) (AnApk apk)
    ∧ log w' = log w.
Proof.
  intros Ht Hj Hf. unfold copy_outputs, logger.
  unfold mbind at 1 2 3, M_bind at 1 2 3, get_world.
  rewrite Ht, Hj. simpl fmap.
  rewrite (copy_into_output_ok w _ _ Hf).
  eexists. split; [reflexivity|]. done.
Qed.

Lemma copy_outputs_partial_witness :
  target_apk (work (before_copy (OutDir []) None)) = Some (ZipArchive Samples.src)
  ∧ classes_jar (work (before_copy (OutDir []) None)) = None
  ∧ disk_full (env (before_copy (OutDir []) None)) = false
  ∧ ∃ w',
      copy_outputs (before_copy (OutDir []) None) = (w', inl FileNotFoundError)
      ∧ output_apks w'
        = copied_to (output_apks (before_copy (OutDir []) None))
            ("app" +:+ ".apk") (AnApk (ZipArchive Samples.src))
      ∧ log w' = log (before_copy (OutDir []) None).
Proof.
  split; [reflexivity|]. split; [reflexivity|]. split; [reflexivity|].
  exact (copy_outputs_partial (before_copy (OutDir []) None) _ eq_refl eq_refl eq_refl).
Defined.

(** X14. An input that [parse_android_apk] rejects stops the run before
    the working directory is created: whatever the tools would do, the run
    raises the validation error, and the working directory and the output
    location are untouched. *)
Theorem run_rejects_invalid_input (external : tool → World → World * (exn + unit))
  (w w1 : World) (e : exn) :
  check_requirements w = (w1, inr tt) →
  parse_android_apk w1 = (w1, inl e) →
  run_instrumentation external w
  = (add_log (LCritical e) (add_log LInfoStart w1), inl e)
    ∧ work w1 = work w ∧ output_apks w1 = output_apks w ∧ log w1 = log w.
Proof.
  intros Hcheck Hparse.
  assert (∃ p, w1 = set_paths p w) as [p ->].
  { revert Hcheck. unfold check_requirements, require_tool.
    unfold mbind, M_bind, get_world, update, raise.
    destruct (receiver_jar (env w)); cbn [negb]; [|done].
    repeat (match goal with
            | |- context [match which ?e ?x with _ => _ end] => destruct (which e x)
            end; [|done]).
    intros [= <-]. by eexists. }
  split; [|done].
  unfold run_instrumentation, logger.
  unfold mbind at 1 2 3, M_bind at 1 2 3, update.
  assert (check_requirements (add_log LInfoStart w)
          = (add_log LInfoStart (set_paths p w), inr tt)) as ->.
  { revert Hcheck. unfold check_requirements, require_tool.
    unfold mbind, M_bind, get_world, update, raise.
    cbn [add_log env paths].
    destruct (receiver_jar (env w)); cbn [negb]; [|done].
    repeat (match goal with
            | |- context [match which ?e ?x with _ => _ end] => destruct (which e x)
            end; [|done]).
    intros [= <-]. reflexivity. }
  assert (parse_android_apk (add_log LInfoStart (set_paths p w))
          = (add_log LInfoStart (set_paths p w), inl e)) as ->; [|done].
  revert Hparse. unfold parse_android_apk, mbind, M_bind, get_world, raise.
  cbn [add_log env set_paths].
  destruct (apk_file (env w)) as [[a|raw]|]; [|by intros [= <-]..].
  destruct (existsb _ _); [done|]. by intros [= <-].
Qed.

Lemma run_rejects_invalid_input_witness :
  ∃ w1,
    check_requirements start_without_manifest = (w1, inr tt)
    ∧ parse_android_apk w1 = (w1, inl ValueError)
    ∧ run_instrumentation SampleTools.all_succeed start_without_manifest
      = (add_log (LCritical ValueError) (add_log LInfoStart w1), inl ValueError)
    ∧ work w1 = work start_without_manifest
    ∧ output_apks w1 = output_apks start_without_manifest
    ∧ log w1 = log start_without_manifest.
Proof.
  eexists.
  assert (check_requirements start_without_manifest = (_, inr tt)) as Hcheck
    by (vm_compute; reflexivity).
  split; [exact Hcheck|].
  match type of Hcheck with _ = (?w1, _) =>
    assert (parse_android_apk w1 = (w1, inl ValueError)) as Hparse
      by (vm_compute; reflexivity)
  end.
  split; [exact Hparse|].
  exact (run_rejects_invalid_input SampleTools.all_succeed _ _ _ Hcheck Hparse).
Defined.

Lemma stages_then (l : list (M unit)) (k : M unit) (w w' : World) :
  fold_right (λ s acc, s;; acc) k l w = (w', inr tt) →
  ∃ w2, run_all l w = (w2, inr tt) ∧ k w2 = (w', inr tt).
Proof.
  revert w. induction l as [|s l IH]; intros w; simpl.
  - intros Hk. by exists w.
  - unfold mbind, M_bind. destruct (s w) as [w1 [e|[]]]; [done|]. apply IH.
Qed.

(** X15. The output contract of a run that succeeds, for an input whose name
    collides with no name the program uses in its working directory (an
    input called [x.jar] would share its path with the jar, one called
    [dex], [jacoco] or [apktool] with a directory): provided the tools keep
    to the working directory, the output location afterwards is what the
    two copies make of the output location from before the run, first the
    package as it stands in the working directory and then the jar, and the
    last log line reports the saved files. *)
Theorem instrument_apk_deposits_outputs
  (external : tool → World → World * (exn + unit)) (w w' : World) :
  NoDup (work_dir_names (env w)) →
  (∀ t, keeps_output (external t)) →
  instrument_apk external w = (w', inr tt) →
  ∃ apk jar,
    target_apk (work w') = Some apk
    ∧ classes_jar (work w') = Some jar
    ∧ output_apks w'
      = copied_to (copied_to (output_apks w)
                     (apk_stem (env w') +:+ apk_ext (env w')) (AnApk apk))
          (apk_stem (env w') +:+ ".jar") (AJar jar)
    ∧ last (log w') = Some (LInfo SCopyOutputs).
Proof.
  intros _ Hext. rewrite instrument_apk_stages.
  unfold mbind at 1, M_bind at 1.
  destruct (make_working_copy w) as [w1 [e|[]]] eqn:Hcopy; [done|].
  intros (w2 & Hstages & Hout)%stages_then.
  assert (output_apks w2 = output_apks w) as Hkeep.
  { pose proof (make_working_copy_keeps w) as H1. rewrite Hcopy in H1.
    pose proof (run_all_keeps (stages external) (stages_keep external Hext) w1) as H2.
    rewrite Hstages in H2. simpl in *. congruence. }
  revert Hout. unfold copy_outputs, logger.
  unfold mbind at 1 2 3, M_bind at 1 2 3, get_world.
  destruct (target_apk (work w2)) as [apk|] eqn:Ht; [|done].
  destruct (disk_full (env w2)) eqn:Hf.
  { unfold copy_into_output, mbind, M_bind, get_world, update, raise.
    simpl fmap. cbn [env set_output_apks]. rewrite Hf. done. }
  simpl fmap at 1. rewrite (copy_into_output_ok w2 _ _ Hf).
  destruct (classes_jar (work w2)) as [jar|] eqn:Hj; [|done].
  simpl fmap. rewrite copy_into_output_ok by done.
  intros [= <-]. exists apk, jar. cbn. rewrite Hkeep.
  split; [done|]. split; [done|]. split; [done|]. by rewrite last_snoc.
Qed.

Lemma instrument_apk_deposits_outputs_witness :
  ∃ w',
    NoDup (work_dir_names (env SampleTools.start))
    ∧ (∀ t, keeps_output (producing_tools t))
    ∧ instrument_apk producing_tools SampleTools.start = (w', inr tt)
    ∧ ∃ apk jar,
        target_apk (work w') = Some apk
        ∧ classes_jar (work w') = Some jar
        ∧ output_apks w'
          = copied_to (copied_to (output_apks SampleTools.start)
                         (apk_stem (env w') +:+ apk_ext (env w')) (AnApk apk))
              (apk_stem (env w') +:+ ".jar") (AJar jar)
        ∧ last (log w') = Some (LInfo SCopyOutputs).
Proof.
  assert (NoDup (work_dir_names (env SampleTools.start))) as Hnames
    by (apply (bool_decide_unpack _); vm_compute; reflexivity).
  assert (∀ t, keeps_output (producing_tools t)) as Hext by (intros [] w; reflexivity).
  eexists.
  assert (instrument_apk producing_tools SampleTools.start = (_, inr tt)) as Hrun
    by (vm_compute; reflexivity).
  split; [exact Hnames|]. split; [exact Hext|]. split; [exact Hrun|].
  exact (instrument_apk_deposits_outputs producing_tools _ _ Hnames Hext Hrun).
Defined.

(** ** More on the Manifest Patcher *)

(** X16. When the manifest cannot be read or parsed, [patch_manifest] raises
    the parser's exception and leaves the working directory alone; the
    process-wide prefix registry has nevertheless been changed, because the
    registration precedes the parse. *)
Theorem patch_manifest_parse_failure (w : World) (e : exn) :
  ET.parse (manifest_xml (work w)) = inl e →
  ∃ w',
    Manifest.patch_manifest w = (w', inl e)
    ∧ work w' = work w
    ∧ namespace_map w' = android_registry (namespace_map w)
    ∧ log w' = log w ++ [LInfo SPatchManifest; LError SPatchManifest e].
Proof.
  intros Hparse.
  unfold Manifest.patch_manifest, try_log, Manifest.write, logger.
  unfold mbind, M_bind, get_world, lift, update, raise.
  cbn [add_log work env namespace_map set_namespace_map set_work].
  rewrite register_android, Hparse.
  eexists. split; [reflexivity|]. split; [done|]. split; [done|].
  cbn. by rewrite <- app_assoc.
Qed.

Lemma patch_manifest_parse_failure_witness :
  ET.parse (manifest_xml (work before_patch_not_xml)) = inl ParseError
  ∧ ∃ w',
      Manifest.patch_manifest before_patch_not_xml = (w', inl ParseError)
      ∧ work w' = work before_patch_not_xml
      ∧ namespace_map w' = android_registry (namespace_map before_patch_not_xml)
      ∧ log w' = log before_patch_not_xml
                 ++ [LInfo SPatchManifest; LError SPatchManifest ParseError].
Proof.
  split; [reflexivity|].
  exact (patch_manifest_parse_failure before_patch_not_xml ParseError eq_refl).
Defined.

(** X17. The manifest is rewritten in place as well: [manifest.write] opens
    the file before it serialises, so when the write fails the decoded
    manifest has already been truncated. *)
Theorem patch_manifest_write_failure (w : World) (root : ET.Element) :
  ET.parse (manifest_xml (work w)) = inr root →
  has_application root →
  disk_full (env w) = true →
  ∃ w',
    Manifest.patch_manifest w = (w', inl OSError)
    ∧ manifest_xml (work w') = Some (NotXml []).
Proof.
  intros Hparse (i & a0 & Hidx & Ha0 & _)%has_application_index Hf.
  destruct (tostring_ok (android_registry (namespace_map w)) (patched root i a0))
    as (raw & Hraw & _).
  unfold Manifest.patch_manifest, try_log, Manifest.write, logger.
  unfold mbind, M_bind, get_world, lift, update, raise.
  cbn [add_log work env namespace_map set_namespace_map set_work].
  rewrite register_android, Hparse, (patch_tree_patched root i a0 Hidx Ha0).
  cbn [add_log work env namespace_map set_namespace_map set_work].
  rewrite Hraw, Hf. by eexists.
Qed.

Lemma patch_manifest_write_failure_witness :
  ∃ root,
    ET.parse (manifest_xml (work before_patch_disk_full)) = inr root
    ∧ has_application root
    ∧ disk_full (env before_patch_disk_full) = true
    ∧ ∃ w',
        Manifest.patch_manifest before_patch_disk_full = (w', inl OSError)
        ∧ manifest_xml (work w') = Some (NotXml []).
Proof.
  eexists.
  assert (ET.parse (manifest_xml (work before_patch_disk_full)) = inr _) as Hparse
    by (vm_compute; reflexivity).
  split; [exact Hparse|].
  match type of Hparse with _ = inr ?r =>
    assert (has_application r) as Happ
      by (eexists; split; [apply list_elem_of_In; right; left; reflexivity | reflexivity])
  end.
  split; [exact Happ|]. split; [reflexivity|].
  exact (patch_manifest_write_failure _ _ Hparse Happ eq_refl).
Defined.

(** ** The written manifest read back *)

Lemma split_colon_none (s : string) :
  PyStr.contains ":" s = false → ET.split_colon s = None.
Proof.
  induction s as [|c s IH]; [done|]. cbn [PyStr.contains ET.split_colon].
  intros [Hc Hs]%orb_false_iff. rewrite Hc, (IH Hs). done.
Qed.

Lemma qualify_simple (q : ET.name) : simple_name q → qualify q = q.
Proof.
  destruct q as [u l|s]; [done|]. simpl. intros Hs. by rewrite (split_colon_none s Hs).
Qed.

Lemma resolve_written (scope : list (string * string)) (q : ET.name) :
  ET.dict_get "android" scope = Some Manifest.ANDROID_NS →
  ET.dict_get "" scope = None →
  writable_name q →
  ET.resolve_tag scope (written q) = inr (qualify q)
  ∧ ET.resolve_attr scope (written q) = inr (qualify q).
Proof.
  intros Handroid Hdefault Hq. destruct q as [u l|s].
  - simpl in Hq. subst u. unfold ET.resolve_tag, ET.resolve_attr.
    change (ET.split_colon (written (ET.Clark Manifest.ANDROID_NS l)))
      with (Some ("android", l)).
    cbv beta iota. by rewrite Handroid.
  - destruct Hq as [Hs|[l ->]].
    + unfold ET.resolve_tag, ET.resolve_attr, qualify, written.
      rewrite (split_colon_none s Hs), Hdefault. done.
    + unfold ET.resolve_tag, ET.resolve_attr, qualify, written.
      change (ET.split_colon ("android:" +:+ l)) with (Some ("android", l)).
      cbv beta iota. rewrite String.eqb_refl. by rewrite Handroid.
Qed.

Lemma map_names_id (f : ET.name → ET.name) (e : ET.Element) :
  (∀ q, In q (ET.all_names e) → f q = q) → map_names f e = e.
Proof.
  induction e as [t a x y cs IH] using Element_nested_ind. intros Hid.
  rewrite all_names_Elem in Hid. cbn [map_names]. f_equal.
  - apply Hid. by left.
  - assert (∀ k, In k (map fst a) → f k = k) as Ha
      by (intros k Hk; apply Hid; right; apply in_app_iff; by left).
    clear -Ha. induction a as [|[k v] a IHa]; [done|]. simpl. f_equal.
    + f_equal. apply Ha. by left.
    + apply IHa. intros k' Hk'. apply Ha. by right.
  - assert (∀ q, In q (flat_map ET.all_names cs) → f q = q) as Hcs
      by (intros q Hq; apply Hid; right; apply in_app_iff; by right).
    clear Hid. induction IH as [|c cs Hc _ IHcs]; [done|]. simpl. f_equal.
    + apply Hc. intros q Hq. apply Hcs. simpl. apply in_app_iff. by left.
    + apply IHcs. intros q Hq. apply Hcs. simpl. apply in_app_iff. by right.
Qed.

Lemma encode_attrs_written (st : ET.ns_state) (a : list (ET.name * string)) :
  (∀ k, In k (map fst a) → ET.encoded st k = inr (written k)) →
  ET.encode_attrs st a = inr (map (λ kv, (written kv.1, kv.2)) a).
Proof.
  induction a as [|[k v] a IH]; intros Henc; [done|]. cbn [ET.encode_attrs map].
  rewrite (Henc k) by (by left). rewrite IH; [done|].
  intros k' Hk'. apply Henc. by right.
Qed.


(** *** Character data through the file *)

Lemma line_ends_cons (c : ascii) (s : string) :
  ET.line_ends (String c s)
  = if Ascii.eqb c "013" then
      match s with
      | String c' _ =>
          if Ascii.eqb c' "010" then ET.line_ends s else String "010" (ET.line_ends s)
      | EmptyString => String "010" EmptyString
      end
    else String c (ET.line_ends s).
Proof. reflexivity. Qed.

Lemma line_ends_empty (s : string) : ET.line_ends s = EmptyString → s = EmptyString.
Proof.
  induction s as [|c s IH]; [done|]. rewrite line_ends_cons.
  destruct (Ascii.eqb c "013"); [|done].
  destruct s as [|c' s']; [done|].
  destruct (Ascii.eqb c' "010"); [|done]. intros H. by specialize (IH H).
Qed.


Lemma line_ends_id (s : string) : PyStr.contains "013" s = false → ET.line_ends s = s.
Proof.
  induction s as [|c s IH]; [done|]. cbn [PyStr.contains].
  intros [Hc Hs]%orb_false_iff. rewrite line_ends_cons, Hc, (IH Hs). done.
Qed.

Lemma reported_written (x : option string) :
  ET.reported (ET.written_text x) = ET.written_text x.
Proof.
  destruct x as [s|]; [|done]. unfold ET.written_text.
  destruct (String.eqb_spec s ""); [done|].
  destruct (ET.line_ends s) eqn:Hs; [|done]. by apply line_ends_empty in Hs.
Qed.


Lemma written_text_plain (s : string) :
  s ≠ EmptyString → PyStr.contains "013" s = false → ET.written_text (Some s) = Some s.
Proof.
  intros Hne Hcr. unfold ET.written_text.
  destruct (String.eqb_spec s ""); [done|]. by rewrite line_ends_id.
Qed.

Lemma text_read_back_with_children (e : ET.Element) (cs : list ET.Element) :
  text_read_back (ET.with_children e cs)
  = ET.with_children (text_read_back e) (text_read_back <$> cs).
Proof. by destruct e. Qed.

Lemma children_text_read_back (e : ET.Element) :
  ET.children_of (text_read_back e) = text_read_back <$> ET.children_of e.
Proof. by destruct e. Qed.




(** Character data without carriage return is read back as it was. *)
Lemma text_read_back_plain (e : ET.Element) : plain_text e → text_read_back e = e.
Proof.
  induction e as [t a x y cs IH] using Element_nested_ind. unfold plain_text.
  cbn [texts]. intros Hplain. unfold text_read_back. cbn [map_text]. f_equal.
  - destruct x as [s|]; [|done]. destruct (Hplain s) as [? ?]; [by left|].
    by apply written_text_plain.
  - destruct y as [s|]; [|done].
    destruct (Hplain s) as [? ?]; [apply in_app_iff; right; by left|].
    by apply written_text_plain.
  - assert (∀ s, In s (flat_map texts cs) → s ≠ EmptyString ∧ PyStr.contains "013" s = false)
      as Hcs by (intros s Hs; apply Hplain; rewrite !in_app_iff; by do 2 right).
    clear Hplain. induction IH as [|c cs Hc _ IHcs]; [done|]. simpl. f_equal.
    + apply Hc. intros s Hs. apply Hcs. simpl. apply in_app_iff. by left.
    + apply IHcs. intros s Hs. apply Hcs. simpl. apply in_app_iff. by right.
Qed.


(** Reading the character data back commutes with giving child [i] more
    children that hold none. *)
Lemma text_read_back_new_children (root a0 : ET.Element) (i : nat) (rs : list ET.Element) :
  text_read_back <$> rs = rs →
  text_read_back
    (ET.with_children root
       (<[i := ET.with_children a0 (ET.children_of a0 ++ rs)]> (ET.children_of root)))
  = ET.with_children (text_read_back root)
      (<[i := ET.with_children (text_read_back a0)
                (ET.children_of (text_read_back a0) ++ rs)]>
         (ET.children_of (text_read_back root))).
Proof.
  intros Hrs.
  rewrite text_read_back_with_children, list_fmap_insert, text_read_back_with_children.
  by rewrite fmap_app, !children_text_read_back, Hrs.
Qed.

Lemma tail_of_with_children (e : ET.Element) (cs : list ET.Element) :
  tail_of (ET.with_children e cs) = tail_of e.
Proof. by destruct e. Qed.

(** The root of a parsed document has no tail. *)
Lemma parse_tail (f : option xml_content) (root : ET.Element) :
  ET.parse f = inr root → tail_of root = None.
Proof.
  destruct f as [[[t d a x y cs]|]|]; [|done..]. unfold ET.parse.
  destruct (match y with Some s => ET.blank s | None => true end); [|done].
  cbn [ET.parse_elem].
  repeat match goal with
         | |- match ?X with _ => _ end = _ → _ => destruct X; [done|]
         end.
  by intros [= <-].
Qed.

Lemma parse_no_tail (raw : RawElem) :
  raw_tail raw = None →
  ET.parse (Some (XmlDoc raw)) = ET.parse_elem [("xml", ET.XML_NS)] raw.
Proof. destruct raw as [t d a x y cs]. cbn [raw_tail ET.parse]. by intros ->. Qed.

(** A document whose root element does not parse does not parse. *)
Lemma parse_fails (raw : RawElem) (e : exn) :
  ET.parse_elem [("xml", ET.XML_NS)] raw = inl e →
  ET.parse (Some (XmlDoc raw)) = inl ParseError ∨ ET.parse (Some (XmlDoc raw)) = inl e.
Proof.
  destruct raw as [t d a x y cs]. cbn [ET.parse].
  destruct (match y with Some s => ET.blank s | None => true end); [|by left].
  intros Hfail. right. revert Hfail. cbn [ET.parse_elem].
  repeat match goal with
         | |- match ?X with _ => _ end = _ → _ => destruct X; [done|]
         end.
  done.
Qed.

(** *** Names through the file *)

(** Serialising an element and parsing the result, when every name of the
    element is written as [written] spells it and the scope reads that
    spelling back as [g]. *)
Lemma reparse_elem (st : ET.ns_state) (g : ET.name → ET.name) (e : ET.Element) :
  ∀ decls scope,
    (∀ q, In q (ET.all_names e) →
          ET.encoded st q = inr (written q)
          ∧ ET.resolve_tag (decls ++ scope) (written q) = inr (g q)
          ∧ ET.resolve_attr (decls ++ scope) (written q) = inr (g q)) →
    ∃ raw, ET.serialize st decls e = inr raw
           ∧ raw_decls raw = decls
           ∧ raw_tail raw = ET.written_text (tail_of e)
           ∧ ET.parse_elem scope raw = inr (text_read_back (map_names g e)).
Proof.
  induction e as [t a x y cs IH] using Element_nested_ind.
  intros decls scope Hnames.
  rewrite all_names_Elem in Hnames. cbn [ET.serialize].
  destruct (Hnames t) as (-> & Htag & _); [by left|].
  assert (∀ k, In k (map fst a) →
               ET.encoded st k = inr (written k)
               ∧ ET.resolve_attr (decls ++ scope) (written k) = inr (g k)) as Ha.
  { intros k Hk. destruct (Hnames k) as (? & _ & ?); [|done].
    right. apply in_app_iff. by left. }
  rewrite (encode_attrs_written st a) by (intros k Hk; by apply Ha).
  assert (ET.resolve_attrs (decls ++ scope) (map (λ kv, (written kv.1, kv.2)) a)
          = inr (map (λ kv, (g kv.1, kv.2)) a)) as Hattrs.
  { clear -Ha. induction a as [|[k v] a IHa]; [done|].
    cbn [ET.resolve_attrs map fst snd].
    destruct (Ha k) as [_ ->]; [by left|].
    rewrite IHa; [done|]. intros k' Hk'. apply Ha. by right. }
  assert (∀ q, In q (flat_map ET.all_names cs) →
               ET.encoded st q = inr (written q)
               ∧ ET.resolve_tag (decls ++ scope) (written q) = inr (g q)
               ∧ ET.resolve_attr (decls ++ scope) (written q) = inr (g q)) as Hcs
    by (intros q Hq; apply Hnames; right; apply in_app_iff; by right).
  assert (∃ cs',
            (fix serialize_all (l : list ET.Element) : exn + list RawElem :=
               match l with
               | [] => inr []
               | c :: l' =>
                   match ET.serialize st [] c with
                   | inl err => inl err
                   | inr c' =>
                       match serialize_all l' with
                       | inl err => inl err
                       | inr l'' => inr (c' :: l'')
                       end
                   end
               end) cs = inr cs'
            ∧ (fix parse_all (l : list RawElem) : exn + list ET.Element :=
                 match l with
                 | [] => inr []
                 | c :: l' =>
                     match ET.parse_elem (decls ++ scope) c with
                     | inl e => inl e
                     | inr c' =>
                         match parse_all l' with
                         | inl e => inl e
                         | inr l'' => inr (c' :: l'')
                         end
                     end
                 end) cs' = inr (map (λ c, text_read_back (map_names g c)) cs))
    as (cs' & Hser & Hpar).
  { clear Hnames Htag Ha Hattrs. induction IH as [|c cs Hc _ IHcs]; [by eexists|].
    destruct (Hc [] (decls ++ scope)) as (c' & -> & _ & _ & Hc').
    { intros q Hq. apply Hcs. simpl. apply in_app_iff. by left. }
    destruct IHcs as (cs' & -> & Hcs').
    { intros q Hq. apply Hcs. simpl. apply in_app_iff. by right. }
    exists (c' :: cs'). split; [done|]. by rewrite Hc', Hcs'. }
  rewrite Hser. eexists. split; [reflexivity|]. split; [done|]. split; [done|].
  cbn [ET.parse_elem]. rewrite Htag, Hattrs, Hpar. rewrite !reported_written.
  unfold text_read_back. cbn [map_names map_text]. by rewrite map_map.
Qed.

(** The same in a scope that binds [android] to the vendor namespace and
    has no default namespace. *)
Lemma roundtrip_elem (st : ET.ns_state) (e : ET.Element) :
  ∀ decls scope,
    ET.dict_get "android" (decls ++ scope) = Some Manifest.ANDROID_NS →
    ET.dict_get "" (decls ++ scope) = None →
    (∀ q, In q (ET.all_names e) → writable_name q ∧ ET.encoded st q = inr (written q)) →
    ∃ raw, ET.serialize st decls e = inr raw
           ∧ raw_decls raw = decls
           ∧ raw_tail raw = ET.written_text (tail_of e)
           ∧ ET.parse_elem scope raw = inr (text_read_back (map_names qualify e)).
Proof.
  intros decls scope Handroid Hdefault Hnames. apply reparse_elem.
  intros q Hq. destruct (Hnames q Hq) as [Hw Henc]. split; [done|].
  by apply resolve_written.
Qed.

Lemma fold_visit_plain (r : list (string * string)) (l : list ET.name) (st : ET.ns_state) :
  (∀ s s', ET.qnames_get (ET.Plain s) (ET.qnames st) = Some s' → s' = s) →
  ∀ s s', ET.qnames_get (ET.Plain s) (ET.qnames (fold_left (ET.visit r) l st)) = Some s' →
          s' = s.
Proof.
  revert st. induction l as [|q l IH]; intros st Hst; [done|].
  simpl. apply IH. unfold ET.visit.
  destruct (ET.qnames_get q (ET.qnames st)); [done|].
  intros s s'. destruct q as [u t|s0].
  - destruct (qnames_add_qname r st (ET.Clark u t)) as [x ->].
    rewrite qnames_get_snoc.
    destruct (ET.qnames_get (ET.Plain s) (ET.qnames st)) eqn:Hs; [|done].
    intros [= <-]. by apply Hst.
  - cbn [ET.add_qname ET.qnames]. rewrite qnames_get_snoc.
    destruct (ET.qnames_get (ET.Plain s) (ET.qnames st)) eqn:Hs.
    + intros [= <-]. by apply Hst.
    + simpl. destruct (String.eqb_spec s0 s) as [->|]; [|done]. by intros [= <-].
Qed.

Lemma fold_visit_only_android (m : list (string * string)) (l : list ET.name)
  (st : ET.ns_state) :
  (∀ u t, In (ET.Clark u t) l → u = Manifest.ANDROID_NS) →
  (∀ x, x ∈ ET.namespaces st → x = (Manifest.ANDROID_NS, "android")) →
  ∀ x, x ∈ ET.namespaces (fold_left (ET.visit (android_registry m)) l st) →
       x = (Manifest.ANDROID_NS, "android").
Proof.
  revert st. induction l as [|q l IH]; intros st Hl Hst; [done|].
  simpl. apply IH; [intros u t Hin; apply (Hl u t); by right|].
  unfold ET.visit. destruct (ET.qnames_get q (ET.qnames st)); [done|].
  destruct q as [u t|s0]; [|done].
  rewrite (Hl u t) by (by left). cbn [ET.add_qname].
  destruct (ET.dict_get Manifest.ANDROID_NS (ET.namespaces st)); [done|].
  rewrite android_registry_get. cbn.
  intros x [Hx|Hx%list_elem_of_singleton]%elem_of_app; [by apply Hst|done].
Qed.

Lemma dict_get_all_same (k v : string) (l r : list (string * string)) :
  l ≠ [] → (∀ x, x ∈ l → x = (k, v)) → ET.dict_get k (l ++ r) = Some v.
Proof.
  destruct l as [|x l]; [done|]. intros _ Hl.
  rewrite (Hl x) by (by left). simpl. by rewrite String.eqb_refl.
Qed.

Lemma dict_get_skip (k k' v : string) (l r : list (string * string)) :
  k' ≠ k → (∀ x, x ∈ l → x = (k', v)) → ET.dict_get k (l ++ r) = ET.dict_get k r.
Proof.
  intros Hne. induction l as [|x l IH]; intros Hl; [done|].
  rewrite (Hl x) by (by left). simpl.
  destruct (String.eqb_spec k' k); [done|]. apply IH. intros y Hy. apply Hl. by right.
Qed.

(** The names of a tree in which child [i] was given one more child. *)
Lemma names_with_new_child (root a0 r : ET.Element) (i : nat) (q : ET.name) :
  ET.children_of root !! i = Some a0 →
  In q (ET.all_names
          (ET.with_children root
             (<[i := ET.with_children a0 (ET.children_of a0 ++ [r])]>
                (ET.children_of root)))) ↔
  In q (ET.all_names root) ∨ In q (ET.all_names r).
Proof.
  intros Hi.
  assert (∀ j d, ET.children_of root !! j = Some d →
                 In q (ET.all_names d) → In q (ET.all_names root)) as Hchild.
  { intros j d Hj Hq. rewrite (all_names_children root). apply in_app_iff. right.
    apply in_flat_map. exists d. split; [|done].
    apply list_elem_of_In, list_elem_of_lookup. by exists j. }
  assert (In q (ET.all_names (ET.with_children a0 (ET.children_of a0 ++ [r]))) ↔
          In q (ET.all_names a0) ∨ In q (ET.all_names r)) as Ha0.
  { rewrite all_names_with_children, (all_names_children a0), flat_map_app, !in_app_iff.
    simpl. rewrite app_nil_r. tauto. }
  rewrite all_names_with_children, in_app_iff. split.
  - intros [Hq|(d & Hd & Hq)%in_flat_map].
    + left. rewrite (all_names_children root). apply in_app_iff. by left.
    + apply list_elem_of_In, list_elem_of_lookup in Hd as [j Hj].
      apply list_lookup_insert_Some in Hj as [(<- & <- & _)|[_ Hj]].
      * apply Ha0 in Hq as [Hq|Hq]; [left; by apply (Hchild i a0)|by right].
      * left. by apply (Hchild j d).
  - intros [Hq|Hq].
    + rewrite (all_names_children root) in Hq. apply in_app_iff in Hq as [Hq|Hq]; [by left|].
      right. apply (flat_map_insert_incl _ _ _ a0); [done| |done].
      intros Hq'. apply Ha0. by left.
    + right. apply in_flat_map. exists (ET.with_children a0 (ET.children_of a0 ++ [r])).
      split; [|apply Ha0; by right].
      apply list_elem_of_In, list_elem_of_lookup. exists i.
      apply list_lookup_insert_eq. by eapply lookup_lt_Some.
Qed.

Lemma map_names_with_children (f : ET.name → ET.name) (e : ET.Element)
  (cs : list ET.Element) :
  map_names f (ET.with_children e cs)
  = ET.with_children (map_names f e) (map_names f <$> cs).
Proof. by destruct e. Qed.

Lemma map_names_children (f : ET.name → ET.name) (e : ET.Element) :
  map_names f e = e → map_names f <$> ET.children_of e = ET.children_of e.
Proof. destruct e as [t a x y cs]. simpl. intros [= _ _ H]. exact H. Qed.

(** Reading names back moves the new child from its literal spelling into
    the vendor namespace and leaves a simple tree as it is. *)
Lemma qualify_with_new_child (root a0 : ET.Element) (i : nat) :
  ET.children_of root !! i = Some a0 →
  simple_tree root →
  map_names qualify (patched root i a0) = patched_ns root i a0.
Proof.
  intros Hi Hsimple.
  assert (map_names qualify root = root) as Hroot
    by (apply map_names_id; intros q Hq; by apply qualify_simple, Hsimple).
  assert (map_names qualify a0 = a0) as Ha0.
  { apply map_names_id. intros q Hq. apply qualify_simple, Hsimple.
    rewrite (all_names_children root). apply in_app_iff. right.
    apply in_flat_map. exists a0. split; [|done].
    apply list_elem_of_In, list_elem_of_lookup. by exists i. }
  unfold patched, patched_ns.
  rewrite map_names_with_children, Hroot, list_fmap_insert.
  rewrite (map_names_children qualify root Hroot).
  rewrite map_names_with_children, Ha0, fmap_app.
  rewrite (map_names_children qualify a0 Ha0). done.
Qed.


Lemma receiver_names_writable (q : ET.name) :
  In q (ET.all_names receiver_element) → writable_name q.
Proof.
  intros Hq. simpl in Hq.
  repeat (destruct Hq as [<-|Hq]; [first [by left | right; by eexists]|]).
  done.
Qed.

(** [patch_manifest] followed by a parse of the file it wrote. *)
Lemma patch_manifest_reads_back (w : World) (root : ET.Element) (i : nat) (a0 : ET.Element) :
  ET.parse (manifest_xml (work w)) = inr root →
  ET.index_of_tag (ET.Plain "application") (ET.children_of root) = Some i →
  ET.children_of root !! i = Some a0 →
  uses_android_ns root →
  simple_tree root →
  disk_full (env w) = false →
  ∃ raw,
    Manifest.patch_manifest w
    = (set_work (set_manifest_xml (Some (XmlDoc raw)) (work w))
         (set_namespace_map (android_registry (namespace_map w))
            (add_log (LInfo SPatchManifest) w)),
       inr tt)
    ∧ ET.parse (Some (XmlDoc raw)) = inr (text_read_back (patched_ns root i a0)).
Proof.
  intros Hparse Hidx Ha0 [l0 Hused] Hsimple Hdisk.
  set (T := patched root i a0).
  set (R := android_registry (namespace_map w)).
  assert (∀ q, In q (ET.all_names T) → writable_name q) as Hwritable.
  { intros q [Hq|Hq]%(names_with_new_child root a0 receiver_element i q Ha0).
    - specialize (Hsimple q Hq). destruct q as [u t|s]; [done|by left].
    - by apply receiver_names_writable. }
  assert (∀ x, x ∈ ET.namespaces (ET._namespaces R T) →
               x = (Manifest.ANDROID_NS, "android")) as Hns.
  { apply fold_visit_only_android; [|by intros x ?%elem_of_nil].
    intros u t Hq. by apply (Hwritable (ET.Clark u t)). }
  destruct (namespaces_android (namespace_map w) T) as [_ Hq].
  fold R in Hq.
  assert (In (ET.Clark Manifest.ANDROID_NS l0) (ET.all_names T)) as Hused'
    by (apply (names_with_new_child root a0 receiver_element i _ Ha0); by left).
  assert (∀ x, x ∈ ET.declarations (ET._namespaces R T) →
               x = ("android", Manifest.ANDROID_NS)) as Hdecls.
  { intros [p u] Hx%elem_of_declarations. by injection (Hns _ Hx) as -> ->. }
  assert (ET.declarations (ET._namespaces R T) ≠ []) as Hne.
  { destruct (Hq l0 Hused') as [_ Hin]. intros Hnil. rewrite Hnil in Hin.
    by apply elem_of_nil in Hin. }
  destruct (roundtrip_elem (ET._namespaces R T) T
              (ET.declarations (ET._namespaces R T)) [("xml", ET.XML_NS)])
    as (raw & Hser & _ & Htail & Hback).
  - by apply dict_get_all_same.
  - by rewrite (dict_get_skip "" "android" Manifest.ANDROID_NS).
  - intros q Hin. split; [by apply Hwritable|].
    destruct q as [u t|s].
    + pose proof (Hwritable _ Hin) as Hu. simpl in Hu. subst u. by apply Hq.
    + destruct (fold_visit_covers R (ET.all_names T) (ET.mkNs [] []) (ET.Plain s))
        as [s' Hs']; [by left|].
      unfold ET.encoded, ET._namespaces. rewrite Hs'.
      by rewrite (fold_visit_plain R (ET.all_names T) (ET.mkNs [] []) ltac:(done) s s' Hs').
  - exists raw. split; [by apply (patch_manifest_ok w root i a0 raw)|].
    rewrite parse_no_tail, Hback.
    + do 2 f_equal. by apply qualify_with_new_child.
    + rewrite Htail. unfold T, patched.
      by rewrite tail_of_with_children, (parse_tail _ _ Hparse).
Qed.

(** X18. A manifest that uses the vendor namespace, and no other, comes back
    from the patch as a file that parses again.  What is read back is the
    tree with one more child below [application], the receiver, whose
    attributes, written under the literal keys [android:name] and
    [android:exported], are now names of the vendor namespace; names,
    attribute values and structure are kept, and character data comes back
    with its line ends normalised, since a carriage return is written
    unescaped.  Where no character data holds a carriage return, the tree
    read back is the patched tree itself. *)
Theorem patched_manifest_reads_back (w : World) (root : ET.Element) :
  ET.parse (manifest_xml (work w)) = inr root →
  has_application root →
  uses_android_ns root →
  simple_tree root →
  disk_full (env w) = false →
  ∃ i a0 w',
    ET.find_child root "application" = Some [i]
    ∧ ET.children_of root !! i = Some a0
    ∧ Manifest.patch_manifest w = (w', inr tt)
    ∧ ET.parse (manifest_xml (work w')) = inr (text_read_back (patched_ns root i a0))
    ∧ (plain_text root → text_read_back (patched_ns root i a0) = patched_ns root i a0).
Proof.
  intros Hparse (i & a0 & Hidx & Ha0 & _)%has_application_index Hused Hsimple Hdisk.
  destruct (patch_manifest_reads_back w root i a0 Hparse Hidx Ha0 Hused Hsimple Hdisk)
    as (raw & Hrun & Hback).
  exists i, a0. eexists. unfold ET.find_child. rewrite Hidx.
  split; [done|]. split; [done|]. split; [exact Hrun|]. split; [exact Hback|].
  intros Hplain.
  assert (text_read_back root = root) as Hroot by (by apply text_read_back_plain).
  assert (text_read_back a0 = a0) as Hchild.
  { apply (f_equal ET.children_of) in Hroot. rewrite children_text_read_back in Hroot.
    apply (f_equal (.!! i)) in Hroot. rewrite list_lookup_fmap, Ha0 in Hroot.
    by injection Hroot. }
  unfold patched_ns.
  rewrite (text_read_back_new_children root a0 i [receiver_element_ns]) by reflexivity.
  by rewrite Hroot, Hchild.
Qed.


Lemma patched_manifest_reads_back_witness :
  ∃ root,
    ET.parse (manifest_xml (work (Samples.before_patch manifest_doc_with_text))) = inr root
    ∧ has_application root
    ∧ uses_android_ns root
    ∧ simple_tree root
    ∧ disk_full (env (Samples.before_patch manifest_doc_with_text)) = false
    ∧ ∃ i a0 w',
        ET.find_child root "application" = Some [i]
        ∧ ET.children_of root !! i = Some a0
        ∧ Manifest.patch_manifest (Samples.before_patch manifest_doc_with_text) = (w', inr tt)
        ∧ ET.parse (manifest_xml (work w')) = inr (text_read_back (patched_ns root i a0))
        ∧ (plain_text root →
           text_read_back (patched_ns root i a0) = patched_ns root i a0).
Proof.
  eexists.
  assert (ET.parse (manifest_xml (work (Samples.before_patch manifest_doc_with_text)))
          = inr _) as Hparse by (vm_compute; reflexivity).
  split; [exact Hparse|].
  match type of Hparse with _ = inr ?r =>
    assert (has_application r) as Happ
      by (eexists; split; [apply list_elem_of_In; left; reflexivity | reflexivity]);
    assert (uses_android_ns r) as Huse
      by (exists "versionName"; right; right; left; reflexivity);
    assert (simple_tree r) as Hsimple
      by (intros q Hq; simpl in Hq;
          repeat (destruct Hq as [<-|Hq]; [reflexivity|]); destruct Hq)
  end.
  split; [exact Happ|]. split; [exact Huse|]. split; [exact Hsimple|].
  split; [reflexivity|].
  exact (patched_manifest_reads_back _ _ Hparse Happ Huse Hsimple eq_refl).
Defined.


(** ** A manifest that uses no namespace *)

Lemma fold_visit_no_clark (r : list (string * string)) (l : list ET.name) (st : ET.ns_state) :
  (∀ q, In q l → ∃ s, q = ET.Plain s) →
  ET.namespaces (fold_left (ET.visit r) l st) = ET.namespaces st.
Proof.
  revert st. induction l as [|q l IH]; intros st Hl; [done|]. simpl.
  rewrite IH by (intros q' Hq'; apply Hl; by right).
  destruct (Hl q) as [s ->]; [by left|]. unfold ET.visit.
  by destruct (ET.qnames_get (ET.Plain s) (ET.qnames st)).
Qed.

(** Parsing the serialised form of an element fails when the serialised form
    of one of its children does and those before it parse. *)
Lemma parse_child_fails (st : ET.ns_state) (e c : ET.Element) (i : nat)
  (decls scope : list (string * string)) (err : exn) :
  (∀ q, In q (ET.names_of e) →
        ET.encoded st q = inr (written q)
        ∧ (∃ t, ET.resolve_tag (decls ++ scope) (written q) = inr t)
        ∧ (∃ t, ET.resolve_attr (decls ++ scope) (written q) = inr t)) →
  ET.children_of e !! i = Some c →
  (∀ j d, j < i → ET.children_of e !! j = Some d →
          ∃ rawd td, ET.serialize st [] d = inr rawd
                     ∧ ET.parse_elem (decls ++ scope) rawd = inr td) →
  (∃ rawc, ET.serialize st [] c = inr rawc
           ∧ ET.parse_elem (decls ++ scope) rawc = inl err) →
  (∀ j d, i < j → ET.children_of e !! j = Some d →
          ∃ rawd, ET.serialize st [] d = inr rawd) →
  ∃ raw, ET.serialize st decls e = inr raw ∧ ET.parse_elem scope raw = inl err.
Proof.
  destruct e as [t a x y cs]. cbn [ET.children_of ET.names_of ET.tag_of ET.attrib_of].
  intros Hnames Hi Hbefore Hfail Hafter.
  cbn [ET.serialize].
  destruct (Hnames t) as (-> & [t' Htag] & _); [by left|].
  assert (∃ a', ET.resolve_attrs (decls ++ scope) (map (λ kv, (written kv.1, kv.2)) a)
                = inr a') as [a' Hattrs].
  { assert (∀ k, In k (map fst a) →
                 ∃ t, ET.resolve_attr (decls ++ scope) (written k) = inr t) as Ha
      by (intros k Hk; destruct (Hnames k) as (_ & _ & ?); [by right|done]).
    clear -Ha. induction a as [|[k v] a IHa]; [by eexists|].
    cbn [ET.resolve_attrs map fst snd].
    destruct (Ha k) as [tk ->]; [by left|].
    destruct IHa as [a' ->]; [|by eexists]. intros k' Hk'. apply Ha. by right. }
  rewrite (encode_attrs_written st a)
    by (intros k Hk; destruct (Hnames k) as (? & _); [by right|done]).
  assert (∃ cs',
            (fix serialize_all (l : list ET.Element) : exn + list RawElem :=
               match l with
               | [] => inr []
               | c :: l' =>
                   match ET.serialize st [] c with
                   | inl err => inl err
                   | inr c' =>
                       match serialize_all l' with
                       | inl err => inl err
                       | inr l'' => inr (c' :: l'')
                       end
                   end
               end) cs = inr cs'
            ∧ (fix parse_all (l : list RawElem) : exn + list ET.Element :=
                 match l with
                 | [] => inr []
                 | c :: l' =>
                     match ET.parse_elem (decls ++ scope) c with
                     | inl e => inl e
                     | inr c' =>
                         match parse_all l' with
                         | inl e => inl e
                         | inr l'' => inr (c' :: l'')
                         end
                     end
                 end) cs' = inl err) as (cs' & Hser & Hpar).
  { clear Hnames Htag Hattrs. revert i Hi Hbefore Hafter.
    induction cs as [|d cs IHcs]; intros i Hi Hbefore Hafter; [done|].
    destruct i as [|i].
    - injection Hi as ->. destruct Hfail as (rawc & -> & Hc).
      assert (∃ rest,
                (fix serialize_all (l : list ET.Element) : exn + list RawElem :=
                   match l with
                   | [] => inr []
                   | c :: l' =>
                       match ET.serialize st [] c with
                       | inl err => inl err
                       | inr c' =>
                           match serialize_all l' with
                           | inl err => inl err
                           | inr l'' => inr (c' :: l'')
                           end
                       end
                   end) cs = inr rest) as [rest ->].
      { assert (∀ j d, cs !! j = Some d → ∃ rawd, ET.serialize st [] d = inr rawd) as Hall
          by (intros j d Hj; apply (Hafter (S j) d); [lia|done]).
        clear -Hall. induction cs as [|d cs IHcs]; [by eexists|].
        destruct (Hall 0 d eq_refl) as [rawd ->].
        destruct IHcs as [rest ->]; [|by eexists].
        intros j d' Hj. by apply (Hall (S j)). }
      exists (rawc :: rest). split; [done|]. by rewrite Hc.
    - destruct (Hbefore 0 d) as (rawd & td & -> & Hd); [lia|done|].
      destruct (IHcs i) as (cs' & -> & Hcs'); [done| | |].
      + intros j d' Hj Hd'. apply (Hbefore (S j) d'); [lia|done].
      + intros j d' Hj Hd'. apply (Hafter (S j) d'); [lia|done].
      + exists (rawd :: cs'). split; [done|]. by rewrite Hd, Hcs'. }
  rewrite Hser. eexists. split; [reflexivity|].
  cbn [ET.parse_elem]. rewrite Htag, Hattrs, Hpar. done.
Qed.

Lemma serialize_written (st : ET.ns_state) (e : ET.Element) :
  ∀ decls,
    (∀ q, In q (ET.all_names e) → ET.encoded st q = inr (written q)) →
    ET.serialize st decls e = inr (written_elem decls e).
Proof.
  induction e as [t a x y cs IH] using Element_nested_ind. intros decls Hnames.
  rewrite all_names_Elem in Hnames. cbn [ET.serialize written_elem].
  rewrite (Hnames t) by (by left).
  rewrite (encode_attrs_written st a)
    by (intros k Hk; apply Hnames; right; apply in_app_iff; by left).
  assert (∀ q, In q (flat_map ET.all_names cs) → ET.encoded st q = inr (written q)) as Hcs
    by (intros q Hq; apply Hnames; right; apply in_app_iff; by right).
  assert ((fix serialize_all (l : list ET.Element) : exn + list RawElem :=
             match l with
             | [] => inr []
             | c :: l' =>
                 match ET.serialize st [] c with
                 | inl err => inl err
                 | inr c' =>
                     match serialize_all l' with
                     | inl err => inl err
                     | inr l'' => inr (c' :: l'')
                     end
                 end
             end) cs = inr (map (written_elem []) cs)) as ->; [|done].
  clear Hnames. induction IH as [|c cs Hc _ IHcs]; [done|].
  rewrite (Hc []) by (intros q Hq; apply Hcs; simpl; apply in_app_iff; by left).
  rewrite IHcs by (intros q Hq; apply Hcs; simpl; apply in_app_iff; by right).
  done.
Qed.

(** X20. When no name of the manifest lies in the vendor namespace (and none
    has a prefix), the patch still succeeds, but the file it writes has no
    namespace declaration while the receiver's attributes are spelled
    [android:...]: parsing that file fails on the unbound prefix. *)
Theorem patched_manifest_without_namespace (w : World) (root : ET.Element) :
  ET.parse (manifest_xml (work w)) = inr root →
  has_application root →
  simple_tree root →
  ¬ uses_android_ns root →
  disk_full (env w) = false →
  ∃ w' raw,
    Manifest.patch_manifest w = (w', inr tt)
    ∧ manifest_xml (work w') = Some (XmlDoc raw)
    ∧ raw_decls raw = []
    ∧ ET.parse (manifest_xml (work w')) = inl ParseError.
Proof.
  intros Hparse (i & a0 & Hidx & Ha0 & _)%has_application_index Hsimple Hunused Hdisk.
  assert (i < length (ET.children_of root)) as Hi by (by eapply lookup_lt_Some).
  set (a1 := ET.with_children a0 (ET.children_of a0 ++ [receiver_element])).
  set (T := patched root i a0).
  set (R := android_registry (namespace_map w)).
  set (sc := [("xml", ET.XML_NS)]).
  assert (∀ q, In q (ET.all_names root) → ∃ s, q = ET.Plain s ∧ PyStr.contains ":" s = false)
    as Hplain.
  { intros q Hq. specialize (Hsimple q Hq). destruct q as [u l|s]; [|by exists s].
    simpl in Hsimple. subst u. exfalso. apply Hunused. by exists l. }
  assert (∀ q, In q (ET.all_names T) ↔
               In q (ET.all_names root) ∨ In q (ET.all_names receiver_element)) as Hnames
    by (intros q; by apply names_with_new_child).
  assert (∀ q, In q (ET.all_names T) → ∃ s, q = ET.Plain s) as HT.
  { intros q [Hq|Hq]%Hnames.
    - destruct (Hplain q Hq) as (s & -> & _). by exists s.
    - simpl in Hq. repeat (destruct Hq as [<-|Hq]; [by eexists|]). done. }
  assert (∀ q, In q (ET.all_names T) →
               ET.encoded (ET._namespaces R T) q = inr (written q)) as Henc.
  { intros q Hq. destruct (HT q Hq) as [s ->].
    destruct (fold_visit_covers R (ET.all_names T) (ET.mkNs [] []) (ET.Plain s))
      as [s' Hs']; [by left|].
    unfold ET.encoded, ET._namespaces. rewrite Hs'.
    by rewrite (fold_visit_plain R (ET.all_names T) (ET.mkNs [] []) ltac:(done) s s' Hs'). }
  assert (ET.declarations (ET._namespaces R T) = []) as Hdecls.
  { unfold ET.declarations, ET._namespaces.
    by rewrite (fold_visit_no_clark R (ET.all_names T) (ET.mkNs [] []) HT). }
  assert (∀ q, In q (ET.all_names root) →
               ET.encoded (ET._namespaces R T) q = inr (written q)
               ∧ ET.resolve_tag ([] ++ sc) (written q) = inr q
               ∧ ET.resolve_attr ([] ++ sc) (written q) = inr q) as Hroot.
  { intros q Hq. split; [apply Henc, Hnames; by left|].
    destruct (Hplain q Hq) as (s & -> & Hs).
    unfold ET.resolve_tag, ET.resolve_attr, written. by rewrite (split_colon_none s Hs). }
  assert (∀ j d, ET.children_of root !! j = Some d →
                 ∀ q, In q (ET.all_names d) → In q (ET.all_names root)) as Hchild.
  { intros j d Hj q Hq. rewrite (all_names_children root). apply in_app_iff. right.
    apply in_flat_map. exists d. split; [|done].
    apply list_elem_of_In, list_elem_of_lookup. by exists j. }
  assert (∀ d, (∀ q, In q (ET.all_names d) → In q (ET.all_names root)) →
               ∃ rawd td, ET.serialize (ET._namespaces R T) [] d = inr rawd
                          ∧ ET.parse_elem ([] ++ sc) rawd = inr td) as Hsub.
  { intros d Hd.
    destruct (reparse_elem (ET._namespaces R T) (λ q, q) d [] sc)
      as (rawd & ? & _ & _ & ?).
    - intros q Hq. by apply Hroot, Hd.
    - by eexists _, _. }
  assert (∃ raw1, ET.serialize (ET._namespaces R T) [] a1 = inr raw1
                  ∧ ET.parse_elem ([] ++ sc) raw1 = inl ParseError) as Ha1.
  { apply (parse_child_fails _ a1 receiver_element (length (ET.children_of a0)) [] sc).
    - intros q Hq. destruct (Hroot q) as (? & ? & ?); [|by eauto].
      apply (Hchild i a0 Ha0). rewrite (all_names_children a0). apply in_app_iff. left.
      unfold a1 in Hq. by destruct a0.
    - unfold a1. rewrite children_with_children. by apply list_lookup_middle.
    - unfold a1. rewrite children_with_children. intros j d Hj Hd.
      rewrite lookup_app_l in Hd by done. apply Hsub. intros q Hq.
      apply (Hchild i a0 Ha0). rewrite (all_names_children a0). apply in_app_iff. right.
      apply in_flat_map. exists d. split; [|done].
      apply list_elem_of_In, list_elem_of_lookup. by exists j.
    - exists (written_elem [] receiver_element). split; [|done].
      apply serialize_written. intros q Hq. apply Henc, Hnames. by right.
    - unfold a1. rewrite children_with_children. intros j d Hj Hd.
      apply lookup_lt_Some in Hd. rewrite length_app in Hd. simpl in Hd. lia. }
  destruct (parse_child_fails (ET._namespaces R T) T a1 i [] sc ParseError)
    as (raw & Hraw & Hfail).
  - intros q Hq. destruct (Hroot q) as (? & ? & ?); [|by eauto].
    rewrite (all_names_children root). apply in_app_iff. left.
    unfold T, patched in Hq. by destruct root.
  - unfold T, patched. rewrite children_with_children. by apply list_lookup_insert_eq.
  - unfold T, patched. rewrite children_with_children. intros j d Hj Hd.
    rewrite list_lookup_insert_ne in Hd by lia. apply Hsub. by apply (Hchild j d).
  - exact Ha1.
  - unfold T, patched. rewrite children_with_children. intros j d Hj Hd.
    rewrite list_lookup_insert_ne in Hd by lia.
    destruct (Hsub d (Hchild j d Hd)) as (rawd & _ & ? & _). by exists rawd.
  - assert (ET.tostring R T = inr raw) as Hto.
    { unfold ET.tostring. by rewrite Hdecls. }
    eexists _, raw. split; [by apply (patch_manifest_ok w root i a0 raw)|].
    split; [done|]. split.
    + destruct (tostring_ok R T) as (raw' & Hraw' & Hd). rewrite Hto in Hraw'.
      injection Hraw' as <-. by rewrite Hd, Hdecls.
    + cbn [work set_work manifest_xml set_manifest_xml].
      by destruct (parse_fails raw ParseError Hfail).
Qed.

Lemma patched_manifest_without_namespace_witness :
  ∃ root,
    ET.parse (manifest_xml (work before_patch_unused_ns)) = inr root
    ∧ has_application root
    ∧ simple_tree root
    ∧ ¬ uses_android_ns root
    ∧ disk_full (env before_patch_unused_ns) = false
    ∧ ∃ w' raw,
        Manifest.patch_manifest before_patch_unused_ns = (w', inr tt)
        ∧ manifest_xml (work w') = Some (XmlDoc raw)
        ∧ raw_decls raw = []
        ∧ ET.parse (manifest_xml (work w')) = inl ParseError.
Proof.
  eexists.
  assert (ET.parse (manifest_xml (work before_patch_unused_ns)) = inr _) as Hparse
    by (vm_compute; reflexivity).
  split; [exact Hparse|].
  match type of Hparse with _ = inr ?r =>
    assert (has_application r) as Happ
      by (eexists; split; [apply list_elem_of_In; left; reflexivity | reflexivity]);
    assert (simple_tree r) as Hsimple
      by (intros q Hq; simpl in Hq;
          repeat (destruct Hq as [<-|Hq]; [reflexivity|]); destruct Hq);
    assert (¬ uses_android_ns r) as Hunused
      by (intros [l Hl]; simpl in Hl;
          repeat (destruct Hl as [Hl|Hl]; [discriminate Hl|]); destruct Hl)
  end.
  split; [exact Happ|]. split; [exact Hsimple|]. split; [exact Hunused|].
  split; [reflexivity|].
  exact (patched_manifest_without_namespace _ _ Hparse Happ Hsimple Hunused eq_refl).
Defined.

(** ** The names in the written manifest *)

Lemma encode_attrs_names (st : ET.ns_state) (a : list (ET.name * string))
  (a' : list (string * string)) :
  ET.encode_attrs st a = inr a' →
  Forall2 (λ q s, ET.encoded st q = inr s) (map fst a) (map fst a').
Proof.
  revert a'. induction a as [|[k v] a IH]; intros a'; cbn [ET.encode_attrs].
  - intros [= <-]. constructor.
  - destruct (ET.encoded st k) as [|k'] eqn:Hk; [done|].
    destruct (ET.encode_attrs st a) as [|r]; [done|]. intros [= <-].
    simpl. constructor; [done|by apply IH].
Qed.

(** The serialiser writes one name for each name of the tree, in document
    order, as the table of [_namespaces] encodes it. *)
Lemma serialize_names (st : ET.ns_state) (e : ET.Element) :
  ∀ decls raw,
    ET.serialize st decls e = inr raw →
    Forall2 (λ q s, ET.encoded st q = inr s) (ET.all_names e) (raw_names raw).
Proof.
  induction e as [t a x y cs IH] using Element_nested_ind. intros decls raw.
  cbn [ET.serialize]. rewrite all_names_Elem.
  destruct (ET.encoded st t) as [|t'] eqn:Ht; [done|].
  destruct (ET.encode_attrs st a) as [|a'] eqn:Ha; [done|].
  destruct ((fix serialize_all (l : list ET.Element) : exn + list RawElem := _) cs)
    as [err|cs'] eqn:Hall; [done|].
  intros [= <-]. cbn [raw_names].
  apply Forall2_app; [constructor; [done|by apply encode_attrs_names]|].
  clear Ht Ha. revert cs' Hall. induction IH as [|c cs Hc _ IHcs]; intros cs'.
  - intros [= <-]. constructor.
  - destruct (ET.serialize st [] c) as [|c'] eqn:Hc'; [done|].
    destruct ((fix serialize_all (l : list ET.Element) : exn + list RawElem := _) cs)
      as [err|rest] eqn:Hrest; [done|].
    intros [= <-]. simpl. apply Forall2_app; [by apply (Hc [])|by apply IHcs].
Qed.

(** X21. When some element or attribute name of the manifest lies in the
    vendor namespace, the written file declares that namespace on its root
    under the prefix [android], binds no other prefix to it and [android]
    to nothing else, and holds one name for each name of the patched tree,
    in document order: a name without namespace as it is, a name of the
    vendor namespace as [android:local]. *)
Theorem patch_manifest_declares_vendor_prefix (w : World) (root : ET.Element) :
  ET.parse (manifest_xml (work w)) = inr root →
  has_application root →
  uses_android_ns root →
  disk_full (env w) = false →
  ∃ w' raw tree,
    Manifest.patch_manifest w = (w', inr tt)
    ∧ manifest_xml (work w') = Some (XmlDoc raw)
    ∧ Manifest.patch_tree root = inr tree
    ∧ ("android", Manifest.ANDROID_NS) ∈ raw_decls raw
    ∧ (∀ p u, (p, u) ∈ raw_decls raw → (u = Manifest.ANDROID_NS ↔ p = "android"))
    ∧ Forall2 spelled (ET.all_names tree) (raw_names raw).
Proof.
  intros Hparse (i & a0 & Hidx & Ha0 & Htag)%has_application_index [l Hl] Hdisk.
  set (R := android_registry (namespace_map w)).
  set (T := patched root i a0).
  destruct (tostring_ok R T) as (raw & Hraw & Hdecls).
  destruct (namespaces_android (namespace_map w) T) as [Hns Hq].
  eexists _, raw, T.
  split; [by apply (patch_manifest_ok w root i a0 raw)|]. split; [done|].
  split; [by apply patch_tree_patched|]. rewrite Hdecls.
  split; [|split].
  - apply (Hq l). by apply patched_names.
  - done.
  - apply (Forall2_impl _ _ _ _ (serialize_names _ _ _ _ Hraw)).
    intros q s. unfold ET.encoded.
    destruct (ET.qnames_get q (ET.qnames (ET._namespaces R T))) as [s'|] eqn:Hs; [|done].
    intros [= <-]. destruct q as [u t|p]; simpl.
    + intros ->.
      pose proof (fold_visit_inv (namespace_map w) (ET.all_names T) _ ns_inv_empty)
        as [_ Hinv].
      by destruct (Hinv t s' Hs).
    + exact (fold_visit_plain R (ET.all_names T) (ET.mkNs [] []) ltac:(done) p s' Hs).
Qed.

Lemma patch_manifest_declares_vendor_prefix_witness :
  ∃ root,
    ET.parse (manifest_xml (work (Samples.before_patch Samples.manifest_doc))) = inr root
    ∧ has_application root
    ∧ uses_android_ns root
    ∧ disk_full (env (Samples.before_patch Samples.manifest_doc)) = false
    ∧ ∃ w' raw tree,
        Manifest.patch_manifest (Samples.before_patch Samples.manifest_doc) = (w', inr tt)
        ∧ manifest_xml (work w') = Some (XmlDoc raw)
        ∧ Manifest.patch_tree root = inr tree
        ∧ ("android", Manifest.ANDROID_NS) ∈ raw_decls raw
        ∧ (∀ p u, (p, u) ∈ raw_decls raw → (u = Manifest.ANDROID_NS ↔ p = "android"))
        ∧ Forall2 spelled (ET.all_names tree) (raw_names raw).
Proof.
  eexists.
  assert (ET.parse (manifest_xml (work (Samples.before_patch Samples.manifest_doc)))
          = inr _) as Hparse by (vm_compute; reflexivity).
  split; [exact Hparse|].
  match type of Hparse with _ = inr ?r =>
    assert (has_application r) as Happ
      by (eexists; split; [apply list_elem_of_In; right; left; reflexivity | reflexivity]);
    assert (uses_android_ns r) as Huse
      by (exists "compileSdkVersion"; right; right; left; reflexivity)
  end.
  split; [exact Happ|]. split; [exact Huse|]. split; [reflexivity|].
  exact (patch_manifest_declares_vendor_prefix _ _ Hparse Happ Huse eq_refl).
Defined.
